(** * dynts: the numpy time-series backend and its transforms

    A shallow embedding of [dynts/api/timeseries.py] (class [TimeSeries]) and
    [dynts/backends/np.py] (class [Numpy]).  Dates are integers, a row of the
    value matrix is a list of IEEE binary64 numbers (numpy's [double]), and a
    Python exception is an explicit [Raise] result.

    The interpreter is Python 3.7 or later: a dictionary keeps the order in
    which its keys were inserted, and a [StopIteration] raised inside a
    generator comes out as a [RuntimeError].  A name that a function reads and
    that its module binds nowhere raises [NameError] when the statement runs;
    the names each module binds are those of [source].  Where the release of
    numpy matters ([np.hstack] of a generator) it is a parameter, of type
    [numpy_release]. *)

From Stdlib Require Import ZArith Floats.PrimFloat QArith Qcanon.
From stdpp Require Import gmap strings list sorting.

Set Default Proof Using "Type".

(** ** Exceptions *)

(** The exceptions of [dynts.exc] that the two modules raise
    ([DyntsException], [DyntsOutOfBound], [NotAvailable]) and the Python
    exceptions that the modelled statements can raise. *)
Inductive exn : Type :=
  | DyntsException
  | DyntsOutOfBound
  | NotAvailable
  | NotImplementedError
  | UnboundLocalError
  | AttributeError
  | IndexError
  | ValueError
  | TypeError
  | NameError
  | RuntimeError.

Inductive result (A : Type) : Type :=
  | Ok (a : A)
  | Raise (e : exn).
Arguments Ok {A} a.
Arguments Raise {A} e.

Definition rbind {A B} (m : result A) (f : A → result B) : result B :=
  match m with
  | Ok a => f a
  | Raise e => Raise e
  end.

Declare Scope py_scope.
Delimit Scope py_scope with py.
Notation "x <~ m ;; k" := (rbind m (fun x => k))
  (at level 100, m at next level, right associativity, only parsing) : py_scope.
Open Scope py_scope.

(** ** Module globals *)

(** The names bound at the top level of [timeseries.py] and of [np.py]. *)
Record modules : Type := mkModules {
  timeseries_py : list string;
  np_py : list string
}.

(** Reading a global name of a module. *)
Definition load_global (names : list string) (name : string) : result unit :=
  if decide (name ∈ names) then Ok tt else Raise NameError.

(** The two modules as they are written: the names their imports,
    assignments, functions and classes bind. *)
Definition source : modules :=
  mkModules
    ["np"; "laggeddates"; "ashash"; "asbtree"; "asarray"; "Data"; "operators";
     "DyntsException"; "NotAvailable"; "nan"; "ops"; "ts_bin_op";
     "object_type"; "is_timeseries"; "BACKENDS"; "TSmeta"; "TimeSeries"]
    ["np"; "TimeSeries"; "is_timeseries"; "Skiplist"; "asarray"; "arraytype";
     "nan"; "_functions"; "days"; "Numpy"].

(** ** numpy array primitives on lists *)

(** The releases of numpy told apart by [np.hstack]. *)
Inductive numpy_release : Type :=
  | numpy_before_1_24
  | numpy_1_24.

(** [np.hstack] of a generator of one-dimensional arrays: numpy 1.24 and
    later take a sequence only and raise [TypeError]; the releases before
    stack the arrays that the generator yields. *)
Definition hstack_generator (release : numpy_release)
    (arrays : list (list float)) : result (list float) :=
  match release with
  | numpy_before_1_24 => Ok (concat arrays)
  | numpy_1_24 => Raise TypeError
  end.

(** [a[i] = x]: an index past the end raises [IndexError]. *)
Definition setitem {A} (a : list A) (i : nat) (x : A) : result (list A) :=
  if decide (i < length a) then Ok (<[i:=x]> a) else Raise IndexError.

(** [a[i:-1]] for [0 <= i] *)
Definition slice_to_last {A} (i : nat) (a : list A) : list A :=
  drop i (take (length a - 1) a).

(** [a[i:] = src]: the shapes must agree. *)
Definition set_slice_from {A} (i : nat) (src : list A) (a : list A) : result (list A) :=
  if decide (length src = length a - i) then Ok (take i a ++ src)
  else Raise ValueError.

(** [ndarray.resize((N+1, ...))], in place: one more entry, zero-filled.
    numpy resizes an array only when the array owns its data and nothing else
    refers to it, which [owned] says, and raises [ValueError] otherwise: on
    an array shared with another store (as [clone] leaves the two) and on a
    view (as the reshaped one-dimensional data of [make]). *)
Definition resize {A} (owned : bool) (a : list A) (zero : A) : result (list A) :=
  if owned then Ok (a ++ [zero]) else Raise ValueError.

(** [data[index] = values]: a row of the matrix takes a sequence of its own
    width, or a single value repeated. *)
Definition setrow (width : nat) (values : list float) : result (list float) :=
  if decide (length values = width) then Ok values
  else match values with
       | [v] => Ok (replicate width v)
       | _ => Raise ValueError
       end.

(** [data[:,c]] *)
Definition column {A} (zero : A) (c : nat) (data : list (list A)) : list A :=
  (fun row => nth c row zero) <$> data.

(** Number of columns of a matrix given as rows ([shape[1]]). *)
Definition width {A} (data : list (list A)) : nat :=
  match data with
  | r :: _ => length r
  | [] => 0
  end.

(** The entry of a matrix at row [i] and column [j]. *)
Definition entry {A} (data : list (list A)) (i j : nat) : option A :=
  data !! i ≫= (.!! j).

(** [x or y] on an integer argument that may be [None]: [None] and [0] are
    both false. *)
Definition py_or (x : option Z) (y : Z) : Z :=
  match x with
  | Some w => if (w =? 0)%Z then y else w
  | None => y
  end.

(** [x or y] on a string argument that may be [None]. *)
Definition py_or_str (x : option string) (y : string) : string :=
  match x with
  | Some a => if decide (a = EmptyString) then y else a
  | None => y
  end.

(** ** The ordered key index *)

Module Skiplist.

(** Modelled from the spec: the class [Skiplist] of [dynts.lib], which
    [Numpy] imports and whose source is not part of the tree.  The spec
    describes it as a sorted key set with [insert] and [rank]; [rank]
    returns the index of a present key and [-(insertion_index) - 1] for an
    absent one. *)
Fixpoint insert (key : Z) (l : list Z) : list Z :=
  match l with
  | [] => [key]
  | x :: l' =>
      if (key <? x)%Z then key :: l
      else if (key =? x)%Z then l
      else x :: insert key l'
  end.

(** Modelled from the spec: the constructor [Skiplist(data)] of the same
    class, which is not part of the tree: the index is built from scratch
    over the keys given. *)
Definition make (data : list Z) : list Z :=
  foldl (fun l key => insert key l) [] data.

(** Modelled from the spec: [Skiplist.rank], not part of the tree, counting
    from position [i]: the index of the key when it is there, and
    [-(insertion_index) - 1] when it is not. *)
Fixpoint rank_from (i : Z) (key : Z) (l : list Z) : Z :=
  match l with
  | [] => (- i - 1)%Z
  | x :: l' =>
      if (key <? x)%Z then (- i - 1)%Z
      else if (key =? x)%Z then i
      else rank_from (i + 1)%Z key l'
  end.

(** Modelled from the spec: [Skiplist.rank], not part of the tree. *)
Definition rank (key : Z) (l : list Z) : Z := rank_from 0 key l.

End Skiplist.

(** ** The base class *)

Module TimeSeries.

(** [precondition] *)
Definition precondition (precond : bool) (errorclass : option exn) : result unit :=
  if precond then Ok tt
  else Raise (default DyntsException errorclass).

Definition default_align : string := "right".

(** [getalgo]; the class attribute [_algorithms] is passed in. *)
Definition getalgo {F} (_algorithms : gmap string (gmap string F))
    (operation name : string) : result F :=
  match _algorithms !! operation with
  | None => Raise NotAvailable
  | Some oper =>
      match oper !! name with
      | Some f => Ok f
      | None => Raise NotAvailable
      end
  end.

(** [register_algorithm], for a callable. *)
Definition register_algorithm {F} (_algorithms : gmap string (gmap string F))
    (operation name : string) (callable : F) : gmap string (gmap string F) :=
  let oper := default ∅ (_algorithms !! operation) in
  <[operation := <[name := callable]> oper]> _algorithms.

(** The builtin [sum] over the rows of a matrix: [0 + row0 + row1 + ...],
    the scalar start broadcast to the width of the rows. *)
Definition sum (width : nat) (v : list (list Qc)) : list Qc :=
  foldl (zip_with Qcplus) (replicate width 0%Qc) v.

(** [var] of the base class, on a value matrix of exact numbers. *)
Definition var (v : list (list Qc)) (ddof : Qc) : option (list Qc) :=
  let N := length v in
  if decide (N = 0) then None
  else
    let n := Qc_of_Z (Z.of_nat N) in
    let mu := sum (width v) v in
    let sq := sum (width v) ((fun row => zip_with Qcmult row row) <$> v) in
    Some (zip_with (fun s m => ((s - m * m / n) / (n - ddof))%Qc) sq mu).

End TimeSeries.

(** ** The store *)

Record Numpy : Type := mkNumpy {
  _date : option (list Z);
  _data : option (list (list float));
  _skl : list Z
}.

(** The interpolation callable handed to [clean]:
    [(dend, vend, d, v, missings)] to the pairs it yields. *)
Definition interpolation : Type :=
  option Z → option float → option Z → option float → list (Z * float) →
  list (Z * float).

(** The locals of the loop of [clean] over one column. *)
Record column_state : Type := mkColumnState {
  dstart : option Z;
  dend : option Z;
  vend : option float;
  new_dates : list Z;
  new_values : list float;
  missings : list (Z * float);
  cvalues : gmap Z float
}.

(** The end of an iterator, as [next] signals it. *)
Inductive iteration_end : Type := StopIteration.


(** A generator run to its end: the values it yields, and the exception that
    ends it when it does not end by itself. *)
Definition generated (A : Type) : Type := (list A * option exn)%type.

Module Numpy.

(** [TimeSeries.dateconvert] and [TimeSeries.dateinverse] are the identity. *)
Definition dateconvert (dte : Z) : Z := dte.
Definition dateinverse (key : Z) : Z := key.

(** [make]; [date = None] is the call without dates, and [data] is given as
    rows. *)
Definition make (date : option (list Z)) (data : list (list float))
    (raw : bool) : Numpy :=
  let date :=
    match date with
    | Some d => if raw then d else dateinverse <$> d
    | None => []
    end in
  let skl := Skiplist.make date in
  if decide (length date = 0) then mkNumpy None None skl
  else mkNumpy (Some date) (Some data) skl.

Definition shape (self : Numpy) : nat * nat :=
  match _data self with
  | Some data => (length data, width data)
  | None => (0, 0)
  end.

(** [__len__] and [count] *)
Definition len (self : Numpy) : nat := (shape self).1.
Definition count (self : Numpy) : nat := (shape self).2.

Definition values (self : Numpy) : list (list float) := default [] (_data self).
Definition dates (self : Numpy) : list Z := default [] (_date self).
Definition keys (self : Numpy) : list Z := dates self.

(** [TimeSeries.clone] *)
Definition clone (self : Numpy) (date : option (list Z))
    (data : option (list (list float))) : Numpy :=
  let data := default (values self) data in
  match date with
  | None => make (Some (keys self)) data true
  | Some d => make (Some d) data false
  end.

(** [TimeSeries.series] is a generator.  [series] is the list of the columns
    that it yields: one for each column of a store with rows, none on a
    store without rows. *)
Definition series (self : Numpy) : list (list float) :=
  let data := values self in
  if decide (length data = 0) then []
  else (fun c => column nan c data) <$> seq 0 (count self).

(** How the generator [series] ends once its columns are yielded: by itself
    on a store with rows; on a store without rows the statement
    [raise StopIteration] runs inside the generator, which is a
    [RuntimeError]. *)
Definition series_end (self : Numpy) : option exn :=
  if decide (length (values self) = 0) then Some RuntimeError else None.

(** [list(self.series())] *)
Definition series_list (self : Numpy) : result (list (list float)) :=
  match series_end self with
  | Some e => Raise e
  | None => Ok (series self)
  end.

(** [insert]; [owned] says whether numpy may resize the two arrays of the
    store in place. *)
Definition insert (owned : bool) (self : Numpy) (dte : Z) (values : list float)
    : result Numpy :=
  if decide (length values = 0) then Ok self
  else
    let dte := dateconvert dte in
    self' <~
      (if decide (len self = 0) then
         Ok (mkNumpy (Some [dte]) (Some [values]) (_skl self))
       else
         match _date self, _data self with
         | Some date, Some data =>
             let index := Skiplist.rank dte (_skl self) in
             shifted <~
               (if (index <? 0)%Z then
                  let N := length data in
                  let index := Z.to_nat (-1 - index) in
                  date <~ resize owned date 0%Z ;;
                  data <~ resize owned data (replicate (count self) 0%float) ;;
                  if decide (index < N) then
                    date <~ set_slice_from (index + 1) (slice_to_last index date) date ;;
                    data <~ set_slice_from (index + 1) (slice_to_last index data) data ;;
                    Ok (index, date, data)
                  else Ok (index, date, data)
                else Ok (Z.to_nat index, date, data)) ;;
             let '(index, date, data) := shifted in
             date <~ setitem date index dte ;;
             row <~ setrow (count self) values ;;
             data <~ setitem data index row ;;
             Ok (mkNumpy (Some date) (Some data) (_skl self))
         | _, _ => Raise AttributeError
         end) ;;
    Ok (mkNumpy (_date self') (_data self') (Skiplist.insert dte (_skl self'))).


(** [TimeSeries.reduce]; the registry [_algorithms] is passed in. *)
Definition reduce (_algorithms : gmap string (gmap string (Numpy → Z → result Numpy)))
    (self : Numpy) (size : Z) (method : string) : result Numpy :=
  if (size >=? Z.of_nat (len self))%Z then Ok self
  else
    algo <~ TimeSeries.getalgo _algorithms "reduce" method ;;
    algo self size.

(** *** [TimeSeries.clean] *)

(** One iteration of the loop over the observations of a column.  [dt] is
    the local variable of that name: only the later loop over
    [sorted(all_dates)] assigns it. *)
Definition clean_observe (algorithm : option interpolation) (dt : option Z)
    (st : column_state) (d : Z) (v : float) : result column_state :=
  if PrimFloat.eqb v v then
    let dstart' := match dstart st with None => Some d | Some x => Some x end in
    spliced <~
      (match missings st with
       | [] => Ok (new_dates st, new_values st)
       | _ :: _ =>
           match algorithm with
           | Some f =>
               let out := f (dend st) (vend st) (Some d) (Some v) (missings st) in
               Ok (new_dates st ++ out.*1, new_values st ++ out.*2)
           | None => Raise TypeError
           end
       end) ;;
    Ok (mkColumnState dstart' (Some d) (Some v) spliced.1 spliced.2 []
          (<[d:=v]> (cvalues st)))
  else if bool_decide (is_Some (dstart st)) && bool_decide (is_Some algorithm) then
    match dt with
    | Some dt =>
        Ok (mkColumnState (dstart st) (dend st) (vend st) (new_dates st)
              (new_values st) (missings st ++ [(dt, v)]) (cvalues st))
    | None => Raise UnboundLocalError
    end
  else Ok st.

Fixpoint clean_observations (algorithm : option interpolation) (dt : option Z)
    (st : column_state) (obs : list (Z * float)) : result column_state :=
  match obs with
  | [] => Ok st
  | (d, v) :: obs' =>
      st' <~ clean_observe algorithm dt st d v ;;
      clean_observations algorithm dt st' obs'
  end.

(** The run still pending when the column ends. *)
Definition clean_flush (algorithm : option interpolation) (st : column_state)
    : result column_state :=
  match missings st with
  | [] => Ok st
  | _ :: _ =>
      match algorithm with
      | Some f =>
          let out := f (dend st) (vend st) None None (missings st) in
          Ok (mkColumnState (dstart st)
                (match last (out.*1) with Some dx => Some dx | None => dend st end)
                (vend st) (new_dates st ++ out.*1) (new_values st ++ out.*2)
                (missings st) (cvalues st))
      | None => Raise TypeError
      end
  end.

(** The body of [for serie in self.series()]: the entry appended to
    [series]. *)
Definition clean_column (algorithm : option interpolation) (dt : option Z)
    (original_dates : list Z) (serie : list float)
    : result (option Z * option Z * gmap Z float) :=
  st <~ clean_observations algorithm dt
          (mkColumnState None None None [] [] [] ∅) (zip original_dates serie) ;;
  st <~ clean_flush algorithm st ;;
  Ok (dstart st, dend st, cvalues st).

Fixpoint clean_series (algorithm : option interpolation) (dt : option Z)
    (original_dates : list Z) (cols : list (list float))
    (series : list (option Z * option Z * gmap Z float)) (all_dates : gset Z)
    : result (list (option Z * option Z * gmap Z float) * gset Z) :=
  match cols with
  | [] => Ok (series, all_dates)
  | serie :: cols' =>
      entry <~ clean_column algorithm dt original_dates serie ;;
      clean_series algorithm dt original_dates cols'
        (series ++ [entry]) (all_dates ∪ dom entry.2)
  end.

(** The inner loop over [series] for one date: [None] is [cross = None]
    after the [break]. *)
Fixpoint clean_cross (dt : Z) (series : list (option Z * option Z * gmap Z float))
    (cross : list float) : result (option (list float)) :=
  match series with
  | [] => Ok (Some cross)
  | (start, end_, values) :: series' =>
      inside <~
        (match start with
         | None => Ok true
         | Some s =>
             if (dt >=? s)%Z then
               match end_ with
               | Some e => Ok (dt <=? e)%Z
               | None => Raise TypeError
               end
             else Ok false
         end) ;;
      if inside : bool then
        match values !! dt with
        | None => Ok None
        | Some value => clean_cross dt series' (cross ++ [value])
        end
      else clean_cross dt series' (cross ++ [nan])
  end.

Fixpoint clean_rows (series : list (option Z * option Z * gmap Z float))
    (dts : list Z) (cdate : list Z) (cdata : list (list float))
    : result (list Z * list (list float)) :=
  match dts with
  | [] => Ok (cdate, cdata)
  | dt :: dts' =>
      cross <~ clean_cross dt series [] ;;
      match cross with
      | Some (x :: row) =>
          clean_rows series dts' (cdate ++ [dt]) (cdata ++ [x :: row])
      | _ => clean_rows series dts' cdate cdata
      end
  end.

Definition clean (self : Numpy) (algorithm : option interpolation) : result Numpy :=
  let dt : option Z := None in
  let original_dates := dates self in
  collected <~ clean_series algorithm dt original_dates (series self) [] ∅ ;;
  _ <~ (match series_end self with Some e => Raise e | None => Ok tt end) ;;
  let '(series, all_dates) := collected in
  rows <~ clean_rows series (merge_sort Z.le (elements all_dates)) [] [] ;;
  let '(cdate, cdata) := rows in
  Ok (clone self (Some cdate) (Some cdata)).

(** *** Rolling window *)

Definition _functions : gmap string string :=
  list_to_map [("min", "min"); ("max", "max"); ("mean", "mean");
               ("med", "median"); ("sd", "sd")].

(** [_rollapply].  [np.py] reads the global [rollsingle]; what it is bound
    to, in a module that binds it, is passed in. *)
Definition _rollapply {R} (m : modules)
    (rollsingle : Numpy → string → Z → string → R)
    (self : Numpy) (func : string) (window : Z) (bycolumn : bool)
    (align : string) : result R :=
  let func := default func (_functions !! func) in
  if bycolumn then
    _ <~ load_global (np_py m) "rollsingle" ;;
    Ok (rollsingle self func window align)
  else Raise NotImplementedError.

(** [TimeSeries.apply]: the arguments of [precondition] are evaluated before
    the call, the condition first and then the global [DyntsOutOfBound] of
    [timeseries.py]. *)
Definition apply {R} (m : modules)
    (rollsingle : Numpy → string → Z → string → R)
    (self : Numpy) (func : string) (window : option Z) (bycolumn : bool)
    (align : option string) : result R :=
  let N := Z.of_nat (len self) in
  let window := py_or window N in
  let precond := ((window <=? N)%Z && (window >? 0)%Z) in
  _ <~ load_global (timeseries_py m) "DyntsOutOfBound" ;;
  _ <~ TimeSeries.precondition precond (Some DyntsOutOfBound) ;;
  _rollapply m rollsingle self func window bycolumn
    (py_or_str align TimeSeries.default_align).

(** *** Derivatives *)

(** [delta]: the second argument of [precondition] is the attribute
    [DyntsOutOfBound] of the global [dynts] of [np.py]. *)
Definition delta (m : modules) (self : Numpy) (lag : Z) : result Numpy :=
  let precond := ((lag <? Z.of_nat (len self))%Z && (lag >? 0)%Z) in
  _ <~ load_global (np_py m) "dynts" ;;
  _ <~ TimeSeries.precondition precond (Some DyntsOutOfBound) ;;
  match _date self, _data self with
  | Some date, Some data =>
      let lag := Z.to_nat lag in
      let v := zip_with (zip_with PrimFloat.sub)
                 (drop lag data) (take (length data - lag) data) in
      Ok (clone self (Some (drop lag date)) (Some v))
  | _, _ => Raise TypeError
  end.

(** *** Merge *)

(** Modelled from the spec: the wrapper [ashash] of [dynts.utils], whose
    source is not part of the tree: a hash-table view of a store, from key
    to row. *)
Definition ashash (self : Numpy) : gmap Z (list float) :=
  list_to_map (zip (dates self) (values self)).

(** Modelled from the spec: [getts] of the same wrapper, not part of the
    tree: the store of the entries of the hash, the keys in ascending
    order. *)
Definition getts (hash : gmap Z (list float)) : Numpy :=
  let ks := merge_sort Z.le (elements (dom hash)) in
  make (Some ks) ((fun k => default [] (hash !! k)) <$> ks) false.

(** The arrays that the generator [(h.get(dt, ln) for h, ln in thashes)]
    of [mdt] yields; the first pair of [thashes] is the hash being written. *)
Definition mdt_arrays (fills : list float)
    (others : list (gmap Z (list float) * list float))
    (hash : gmap Z (list float)) (dt : Z) : list (list float) :=
  default fills (hash !! dt)
    :: ((fun hl => default hl.2 (hl.1 !! dt)) <$> others).

(** [mdt]: [np.hstack] of that generator. *)
Definition mdt (release : numpy_release) (fills : list float)
    (others : list (gmap Z (list float) * list float))
    (hash : gmap Z (list float)) (dt : Z) : result (list float) :=
  hstack_generator release (mdt_arrays fills others hash dt).

(** The loop [for dt in alldates: hash[dt] = mdt(dt)]. *)
Fixpoint merge_rows (release : numpy_release) (fills : list float)
    (others : list (gmap Z (list float) * list float))
    (hash : gmap Z (list float)) (dts : list Z)
    : result (gmap Z (list float)) :=
  match dts with
  | [] => Ok hash
  | dt :: dts' =>
      row <~ mdt release fills others hash dt ;;
      merge_rows release fills others (<[dt := row]> hash) dts'
  end.

(** [merge] *)
Definition merge (release : numpy_release) (self : Numpy) (tserie : list Numpy)
    (fill : float) : result Numpy :=
  let alldates : gset Z := list_to_set (dates self) in
  let hash := ashash self in
  let fills := replicate (count self) fill in
  let alldates :=
    foldl (fun acc ts => acc ∪ list_to_set (dates ts)) alldates tserie in
  let others := (fun ts => (ashash ts, replicate (count ts) fill)) <$> tserie in
  hash <~ merge_rows release fills others hash (elements alldates) ;;
  Ok (getts hash).

(** *** Variance *)

(** [var]: [ndarray.var(0, ddof)] on a value matrix of exact numbers, column
    by column: the sum of the squared deviations from the mean over
    [N - ddof]. *)
Definition var_column (col : list Qc) (ddof : Qc) : Qc :=
  let n := Qc_of_Z (Z.of_nat (length col)) in
  let mean := (foldr Qcplus 0 col / n)%Qc in
  (foldr Qcplus 0 ((fun x => (x - mean) * (x - mean)) <$> col) / (n - ddof))%Qc.

Definition var (v : list (list Qc)) (ddof : Qc) : list Qc :=
  (fun c => var_column (column 0%Qc c v) ddof) <$> seq 0 (width v).

(** *** Consistency *)

(** The two arrays are both absent (the empty store) or both present and
    not empty, as [make] and [insert] leave them. *)
Definition well_shaped (self : Numpy) : Prop :=
  match _date self, _data self with
  | None, None => True
  | Some (_ :: _), Some (_ :: _) => True
  | _, _ => False
  end.

(** The data model of a store: keys strictly increasing ([isconsistent]),
    one row per key, every row of the width of the matrix, and the index
    over the same keys. *)
Definition consistent (self : Numpy) : Prop :=
  well_shaped self
  ∧ StronglySorted Z.lt (dates self)
  ∧ length (values self) = length (dates self)
  ∧ Forall (fun row => length row = count self) (values self)
  ∧ _skl self = dates self.

(** The row stored under a key. *)
Definition row_at (self : Numpy) (key : Z) (row : list float) : Prop :=
  ∃ i, dates self !! i = Some key ∧ values self !! i = Some row.


(** *** Ordered views *)

(** [values(desc)] and [dates(desc)] with the [desc] argument given. *)
Definition values_desc (self : Numpy) (desc : bool) : list (list float) :=
  match _data self with
  | Some data => if desc then reverse data else data
  | None => []
  end.

Definition dates_desc (self : Numpy) (desc : bool) : list Z :=
  match _date self with
  | Some date => if desc then reverse date else date
  | None => []
  end.

(** [start]: [self._date[0]], and [None] on a store without rows. *)
Definition start (self : Numpy) : result (option Z) :=
  if decide (len self = 0) then Ok None
  else match _date self with
       | Some date =>
           match head date with
           | Some d => Ok (Some d)
           | None => Raise IndexError
           end
       | None => Raise TypeError
       end.

(** [end]: [self._date[-1]], and [None] on a store without rows. *)
Definition end_ (self : Numpy) : result (option Z) :=
  if decide (len self = 0) then Ok None
  else match _date self with
       | Some date =>
           match last date with
           | Some d => Ok (Some d)
           | None => Raise IndexError
           end
       | None => Raise TypeError
       end.

(** The loop of [isregular] over the dates after the second. *)
Fixpoint isregular_loop (dt d1 : Z) (dates : list Z) : bool :=
  match dates with
  | [] => true
  | d2 :: dates' =>
      if (d2 - d1 =? dt)%Z then isregular_loop dt d2 dates' else false
  end.

(** [isregular]: the two calls of [next] end with [StopIteration] on fewer
    than two dates. *)
Definition isregular (self : Numpy) : iteration_end + bool :=
  match dates self with
  | d0 :: d1 :: dates' => inr (isregular_loop (d1 - d0)%Z d1 dates')
  | _ => inl StopIteration
  end.

(** *** More transforms *)

(** [a[lag:-lag]] for [0 < lag] *)
Definition slice_inner {A} (lag : nat) (a : list A) : list A :=
  drop lag (take (length a - lag) a).

(** [delta2]: as in [delta], the error class is read from the global
    [dynts] of [np.py]. *)
Definition delta2 (m : modules) (self : Numpy) (lag : Z) : result Numpy :=
  let lag2 := (2 * lag)%Z in
  let precond := ((lag2 <? Z.of_nat (len self))%Z && (lag2 >? 0)%Z) in
  _ <~ load_global (np_py m) "dynts" ;;
  _ <~ TimeSeries.precondition precond (Some DyntsOutOfBound) ;;
  match _date self, _data self with
  | Some date, Some d =>
      let n := Z.to_nat lag in
      let n2 := Z.to_nat lag2 in
      let sum := zip_with (zip_with PrimFloat.add)
                   (drop n2 d) (take (length d - n2) d) in
      let v := zip_with (zip_with (fun s m => PrimFloat.sub s (PrimFloat.mul 2 m)))
                 sum (slice_inner n d) in
      Ok (clone self (Some (drop n2 date)) (Some v))
  | _, _ => Raise TypeError
  end.

(** [name or composename(...)]: without a name, or with the empty one, the
    global [composename] of [np.py] is read and called. *)
Definition name_or_composename (m : modules) (name : option string)
    : result unit :=
  match name with
  | Some (String _ _) => Ok tt
  | _ => load_global (np_py m) "composename"
  end.

(** [square]: [np.square] of the matrix, on the same dates. *)
Definition square (m : modules) (self : Numpy) (name : option string)
    : result Numpy :=
  match _data self with
  | Some data =>
      let v := (fun row : list float => (fun x => PrimFloat.mul x x) <$> row) <$> data in
      _ <~ name_or_composename m name ;;
      Ok (clone self (_date self) (Some v))
  | None => Raise TypeError
  end.

(** [sqrt]: [np.sqrt] of the matrix, on the same dates. *)
Definition sqrt (m : modules) (self : Numpy) (name : option string)
    : result Numpy :=
  match _data self with
  | Some data =>
      let v := (fun row : list float => PrimFloat.sqrt <$> row) <$> data in
      _ <~ name_or_composename m name ;;
      Ok (clone self (_date self) (Some v))
  | None => Raise TypeError
  end.

(** *** Rolling wrappers *)

(** [TimeSeries.rollapply]: [window] is [None] when the caller gives none,
    and then stands for 20. *)
Definition rollapply {R} (m : modules)
    (rollsingle : Numpy → string → Z → string → R)
    (self : Numpy) (func : string) (window : option (option Z))
    (bycolumn : bool) (align : option string) : result R :=
  apply m rollsingle self func (default (Some 20%Z) window) bycolumn align.

(** [rollmax], [rollmin], [rollmedian], [rollmean] *)
Definition rollmax {R} (m : modules)
    (rollsingle : Numpy → string → Z → string → R)
    (self : Numpy) (window : option (option Z)) (bycolumn : bool)
    (align : option string) : result R :=
  rollapply m rollsingle self "max" window bycolumn align.

Definition rollmin {R} (m : modules)
    (rollsingle : Numpy → string → Z → string → R)
    (self : Numpy) (window : option (option Z)) (bycolumn : bool)
    (align : option string) : result R :=
  rollapply m rollsingle self "min" window bycolumn align.

Definition rollmedian {R} (m : modules)
    (rollsingle : Numpy → string → Z → string → R)
    (self : Numpy) (window : option (option Z)) (bycolumn : bool)
    (align : option string) : result R :=
  rollapply m rollsingle self "median" window bycolumn align.

Definition rollmean {R} (m : modules)
    (rollsingle : Numpy → string → Z → string → R)
    (self : Numpy) (window : option (option Z)) (bycolumn : bool)
    (align : option string) : result R :=
  rollapply m rollsingle self "mean" window bycolumn align.

(** *** Columns by index and by name *)

(** [TimeSeries.serie]: [self.values()[:,index]].  The values of the empty
    store are the empty tuple, which takes no such index; a negative index
    counts from the last column. *)
Definition serie (self : Numpy) (index : Z) : result (list float) :=
  match _data self with
  | None => Raise TypeError
  | Some data =>
      let C := Z.of_nat (width data) in
      if (0 <=? index)%Z && (index <? C)%Z
      then Ok (column nan (Z.to_nat index) data)
      else if (- C <=? index)%Z && (index <? 0)%Z
      then Ok (column nan (Z.to_nat (C + index)) data)
      else Raise IndexError
  end.

(** [dict((n, idx) for idx, n in enumerate(names))]: a dictionary keeps its
    keys in the order of their first insertion, and a key given again takes
    the new value in its old place. *)
Fixpoint dict_set (name : string) (idx : nat) (todo : list (string * nat))
    : list (string * nat) :=
  match todo with
  | [] => [(name, idx)]
  | (n, i) :: todo' =>
      if decide (n = name) then (n, idx) :: todo'
      else (n, i) :: dict_set name idx todo'
  end.

Definition dict_enumerate (names : list string) : list (string * nat) :=
  foldl (fun todo ni => dict_set ni.2 ni.1 todo) [] (imap (fun idx n => (idx, n)) names).

Fixpoint dict_get (name : string) (todo : list (string * nat)) : option nat :=
  match todo with
  | [] => None
  | (n, i) :: todo' => if decide (n = name) then Some i else dict_get name todo'
  end.

Fixpoint dict_del (name : string) (todo : list (string * nat))
    : list (string * nat) :=
  match todo with
  | [] => []
  | (n, i) :: todo' =>
      if decide (n = name) then todo' else (n, i) :: dict_del name todo'
  end.

(** The second loop of [named_series]: the names left in [todo]. *)
Fixpoint named_rest (series : list (list float)) (todo : list (string * nat))
    : generated (string * list float) :=
  match todo with
  | [] => ([], None)
  | (name, idx) :: todo' =>
      match series !! idx with
      | Some s =>
          let r := named_rest series todo' in ((name, s) :: r.1, r.2)
      | None => ([], Some IndexError)
      end
  end.

(** The first loop of [named_series], over [ordering], followed by the
    second. *)
Fixpoint named_ordered (series : list (list float)) (ordering : list string)
    (todo : list (string * nat)) : generated (string * list float) :=
  match ordering with
  | [] => named_rest series todo
  | name :: ordering' =>
      match dict_get name todo with
      | Some idx =>
          match series !! idx with
          | Some s =>
              let r := named_ordered series ordering' (dict_del name todo) in
              ((name, s) :: r.1, r.2)
          | None => ([], Some IndexError)
          end
      | None => named_ordered series ordering' todo
      end
  end.

(** [zip(self.names(), series)] as the last loop of [named_series] runs it:
    a pair is made of the next name and the next column, and when the
    columns are used up the generator [series] ends as [series_end] says. *)
Fixpoint named_zip (names : list string) (series : list (list float))
    (series_end : option exn) : generated (string * list float) :=
  match names, series with
  | [], _ => ([], None)
  | _ :: _, [] => ([], series_end)
  | n :: names', s :: series' =>
      let r := named_zip names' series' series_end in ((n, s) :: r.1, r.2)
  end.

(** [TimeSeries.named_series].  [names] is the value of [self.names()], and
    the empty [ordering] stands for [None] as well, both being false. *)
Definition named_series (self : Numpy) (names : list string)
    (ordering : list string) : generated (string * list float) :=
  match ordering with
  | [] => named_zip names (series self) (series_end self)
  | _ :: _ =>
      match series_list self with
      | Ok series => named_ordered series ordering (dict_enumerate names)
      | Raise e => ([], Some e)
      end
  end.

(** *** [items] *)

(** The first row met by the loop of [items] that looks for the shifts: the
    shift of every column, and the number of missing values. *)
Definition items_first (start_value : float) (cross : list float)
    : list float * nat :=
  (PrimFloat.sub start_value <$> cross,
   length (filter (fun v => PrimFloat.eqb v v = false) cross)).

(** A later row: a shift that is not a number is replaced where the row has
    a value, and counted as missing where it has none.  The rows of a matrix
    have one width, so that [cross] is as long as [shift_by]. *)
Fixpoint items_fill (start_value : float) (shift_by cross : list float)
    : list float * nat :=
  match shift_by, cross with
  | s :: shift_by', v :: cross' =>
      let r := items_fill start_value shift_by' cross' in
      if PrimFloat.eqb s s then (s :: r.1, r.2)
      else if PrimFloat.eqb v v then (PrimFloat.sub start_value v :: r.1, r.2)
      else (s :: r.1, S r.2)
  | _, _ => (shift_by, 0)
  end.

(** The loop over the rows, left at the first row without missing values. *)
Fixpoint items_shift (start_value : float) (shift_by : option (list float))
    (rows : list (list float)) : option (list float) :=
  match rows with
  | [] => shift_by
  | cross :: rows' =>
      let r := match shift_by with
               | None => items_first start_value cross
               | Some sh => items_fill start_value sh cross
               end in
      if decide (r.2 = 0) then Some r.1
      else items_shift start_value (Some r.1) rows'
  end.

(** [v + shift_by], a row plus a list: value by value when the two are of
    one length, and a single value is added to all of the other. *)
Definition add_broadcast (v shift_by : list float) : result (list float) :=
  if decide (length v = length shift_by)
  then Ok (zip_with PrimFloat.add v shift_by)
  else match v, shift_by with
       | _, [s] => Ok ((fun x => PrimFloat.add x s) <$> v)
       | [x], _ => Ok (PrimFloat.add x <$> shift_by)
       | _, _ => Raise ValueError
       end.

Fixpoint items_shifted (shift_by : list float) (pairs : list (Z * list float))
    : generated (Z * list float) :=
  match pairs with
  | [] => ([], None)
  | dv :: pairs' =>
      match add_broadcast dv.2 shift_by with
      | Ok v' =>
          let r := items_shifted shift_by pairs' in ((dv.1, v') :: r.1, r.2)
      | Raise e => ([], Some e)
      end
  end.

(** [TimeSeries.items]; [shift_by] is a list when given. *)
Definition items (self : Numpy) (desc : bool) (start_value : option float)
    (shift_by : option (list float)) : generated (Z * list float) :=
  if decide (len self = 0) then ([], None)
  else
    let shift_by :=
      match shift_by, start_value with
      | None, Some s => items_shift s None (values self)
      | _, _ => shift_by
      end in
    let pairs := zip (dates_desc self desc) (values_desc self desc) in
    match shift_by with
    | Some (s :: sh) => items_shifted (s :: sh) pairs
    | _ => (pairs, None)
    end.

End Numpy.

(** * [dynts/utils/section.py] *)

(** The Python values that [scalarasiter] and [assimple] tell apart: [None],
    a number, and a sequence (a tuple or a list) of values. *)
Inductive seqkind : Type := PyTuple | PyList.

Unset Elimination Schemes.
Inductive pyvalue : Type :=
  | PyNone
  | PyNum (z : Z)
  | PySeq (kind : seqkind) (items : list pyvalue).
Set Elimination Schemes.

(** A one- or two-dimensional [ndarray]. *)
Inductive ndarray (A : Type) : Type :=
  | Array1 (items : list A)
  | Array2 (rows : list (list A)).
Arguments Array1 {A} items.
Arguments Array2 {A} rows.

Module SectionUtils.

(** [zip] over the unpacked arguments: the tuples of the values at one
    index, as far as the shortest argument goes; no tuple without
    arguments. *)
Fixpoint zip_star {A} (args : list (list A)) : list (list A) :=
  match args with
  | [] => []
  | [a] => (fun x => [x]) <$> a
  | a :: args' => zip_with cons a (zip_star args')
  end.

(** The list comprehension of [crossoperator]: [func] on each tuple,
    stopping at the first exception. *)
Fixpoint collect {A B} (func : A → result B) (l : list A) : result (list B) :=
  match l with
  | [] => Ok []
  | x :: l' =>
      y <~ func x ;; ys <~ collect func l' ;; Ok (y :: ys)
  end.

(** [crossoperator] *)
Definition crossoperator {A B} (func : list A → result B)
    (args : list (list A)) : result (list B) :=
  collect func (zip_star args).

(** The builtins [min] and [max] on unpacked numbers: with two values or
    more the least (the greatest); a single number is not iterable. *)
Definition pymin (vals : list Z) : result Z :=
  match vals with
  | x :: y :: vals' => Ok (foldl Z.min x (y :: vals'))
  | _ => Raise TypeError
  end.

Definition pymax (vals : list Z) : result Z :=
  match vals with
  | x :: y :: vals' => Ok (foldl Z.max x (y :: vals'))
  | _ => Raise TypeError
  end.

(** [scalarasiter] *)
Definition scalarasiter (x : pyvalue) : pyvalue :=
  match x with
  | PyNone => PySeq PyTuple []
  | PySeq _ _ => x
  | PyNum _ => PySeq PyTuple [x]
  end.

(** [assimple] *)
Definition assimple (x : pyvalue) : pyvalue :=
  match x with
  | PySeq _ [y] => y
  | _ => x
  end.

(** [ascolumn], on an array. *)
Definition ascolumn {A} (x : ndarray A) : ndarray A :=
  match x with
  | Array1 items => Array2 ((fun v => [v]) <$> items)
  | Array2 _ => x
  end.

End SectionUtils.

(** The class [cross] of [section.py].  [min] and [max] take the Python
    sequences as they are given, here of integers; the comparisons work on
    [self.elem] and [asarray(other)], here the float64 arrays that [asarray]
    makes of two sequences of floats. *)
Module cross.

Definition min (args : list (list Z)) : result (list Z) :=
  SectionUtils.crossoperator SectionUtils.pymin args.

Definition max (args : list (list Z)) : result (list Z) :=
  SectionUtils.crossoperator SectionUtils.pymax args.

Definition __eq__ (self other : list float) : bool :=
  foldl (fun x y => x && PrimFloat.eqb y.1 y.2) true (zip self other).

Definition __ge__ (self other : list float) : bool :=
  foldl (fun x y => x && PrimFloat.leb y.2 y.1) true (zip self other).

Definition __le__ (self other : list float) : bool :=
  foldl (fun x y => x && PrimFloat.leb y.1 y.2) true (zip self other).

Definition __gt__ (self other : list float) : bool := negb (__le__ self other).

Definition __lt__ (self other : list float) : bool := negb (__ge__ self other).

End cross.

(** * [dynts/formatters/__init__.py] *)

Module Formatters.

(** [nanvalue]: [True] at the first value that is not equal to itself, and
    [None], which is false, without one. *)
Definition nanvalue (value : list float) : bool :=
  existsb (fun v => negb (PrimFloat.eqb v v)) value.

(** [full_clean] *)
Definition full_clean {D} (ts : Numpy) (dateconverter : Z → D) (desc : bool)
    (start_value : option float) : generated (D * list float) :=
  let r := Numpy.items ts desc start_value None in
  ((fun dv : Z * list float => (dateconverter dv.1, dv.2))
     <$> filter (fun dv : Z * list float => nanvalue dv.2 = false) r.1,
   r.2).

End Formatters.

(** * Sample stores and callables *)

Module Sample.

(** The call recorded by a stand-in for [rollsingle]. *)
Definition record_call (self : Numpy) (func : string) (window : Z)
    (align : string) : string * Z * string :=
  (func, window, align).

(** The two modules with the missing names bound: [DyntsOutOfBound] in
    [timeseries.py]; [dynts], [rollsingle] and [composename] in [np.py]. *)
Definition with_imports : modules :=
  mkModules ("DyntsOutOfBound" :: timeseries_py source)
    ("dynts" :: "rollsingle" :: "composename" :: np_py source).

Definition empty : Numpy := Numpy.make None [] false.

Definition three_rows : Numpy :=
  Numpy.make (Some [1; 2; 3]%Z) [[1]; [2]; [4]]%float false.

(** One column, missing at the second of two keys. *)
Definition gap_at_end : Numpy :=
  Numpy.make (Some [1; 2]%Z) [[1]; [nan]]%float false.

(** Two rows of one column at the keys 0 and 5. *)
Definition two_rows : Numpy :=
  Numpy.make (Some [0; 5]%Z) [[10]; [20]]%float false.

(** Two keys and a matrix of two rows and no column. *)
Definition no_columns : Numpy :=
  Numpy.make (Some [1; 2]%Z) [[]; []] false.

(** Two keys; the first column is missing throughout, the second is valid
    at key 1 and missing at key 2. *)
Definition missing_column : Numpy :=
  Numpy.make (Some [1; 2]%Z) [[nan; 1%float]; [nan; nan]] false.

(** An interpolation that yields the run it is given. *)
Definition echo : interpolation := fun _ _ _ _ missings => missings.

(** A [reduce] algorithm keeping the last [size] rows. *)
Definition keep_last (self : Numpy) (size : Z) : result Numpy :=
  let n := Numpy.len self - Z.to_nat size in
  Ok (Numpy.clone self (Some (drop n (Numpy.dates self)))
        (Some (drop n (Numpy.values self)))).

Definition registry : gmap string (gmap string (Numpy → Z → result Numpy)) :=
  TimeSeries.register_algorithm ∅ "reduce" "simple" keep_last.


(** A value matrix of exact numbers, three rows by two columns. *)
Definition exact_values : list (list Qc) :=
  [[Qc_of_Z 1; Qc_of_Z 2]; [Qc_of_Z 3; Qc_of_Z 5]; [Qc_of_Z 8; Qc_of_Z 13]].

(** Two columns over three keys; the first row misses its second value. *)
Definition two_columns : Numpy :=
  Numpy.make (Some [1; 2; 3]%Z) [[1; nan]; [2; 5]; [4; 7]]%float false.

(** Two columns over two keys, without a missing value. *)
Definition complete : Numpy :=
  Numpy.make (Some [1; 2]%Z) [[1; 10]; [2; 20]]%float false.

End Sample.

(** * Properties *)

(** Consistency of a store given by its arrays. *)
Ltac concrete_consistent :=
  unfold Numpy.consistent; cbn;
  repeat match goal with
    | |- _ ∧ _ => split
    | |- StronglySorted _ _ => constructor
    | |- Forall _ _ => constructor
    | |- _ = _ => reflexivity
    | |- True => exact I
    | |- Numpy.well_shaped _ => exact I
    | |- (_ < _)%Z => unfold Numpy.dateinverse; lia
    end.

(** ** Empty rows *)

(** C9: [insert] with an empty row vector leaves the store as it is: it
    returns without an exception, and the key sequence, the value matrix, the
    length and the ordered index are those of the store before the call. *)
Theorem insert_empty_row_noop (owned : bool) (self : Numpy) (dte : Z) :
  ∃ self', Numpy.insert owned self dte [] = Ok self'
    ∧ self' = self
    ∧ Numpy.dates self' = Numpy.dates self
    ∧ Numpy.values self' = Numpy.values self
    ∧ Numpy.len self' = Numpy.len self
    ∧ _skl self' = _skl self.
Proof. exists self. by repeat split. Qed.

(** ** The window of [apply] *)

Lemma load_global_bound names name :
  name ∈ names → load_global names name = Ok tt.
Proof. intros Hin. unfold load_global. by destruct (decide _). Qed.

Lemma load_global_unbound names name :
  name ∉ names → load_global names name = Raise NameError.
Proof. intros Hin. unfold load_global. by destruct (decide _). Qed.

Section apply.
Context {R : Type} (rollsingle : Numpy → string → Z → string → R).
Implicit Types (m : modules).

(** C3: the claim does not hold of the code.  [apply] hands the bounds error
    to [precondition] by the name [DyntsOutOfBound], which [timeseries.py]
    does not import: for every store, function and window, in the bounds or
    not, the call stops with [NameError], and never with the bounds error. *)
Theorem apply_error_class_unbound self func window bycolumn align :
  Numpy.apply source rollsingle self func window bycolumn align = Raise NameError
  ∧ Numpy.apply source rollsingle self func window bycolumn align
    ≠ Raise DyntsOutOfBound.
Proof.
  assert (Numpy.apply source rollsingle self func window bycolumn align
          = Raise NameError) as ->; [|done].
  unfold Numpy.apply.
  by assert (load_global (timeseries_py source) "DyntsOutOfBound"
             = Raise NameError) as -> by (vm_compute; reflexivity).
Qed.

Lemma rollapply_not_out_of_bound m self func window bycolumn align :
  Numpy._rollapply m rollsingle self func window bycolumn align
    ≠ Raise DyntsOutOfBound.
Proof.
  unfold Numpy._rollapply, load_global. destruct bycolumn; [|done].
  by destruct (decide _).
Qed.

Lemma apply_effective_window m self func window bycolumn align :
  "DyntsOutOfBound" ∈ timeseries_py m →
  let N := Z.of_nat (Numpy.len self) in
  let w := py_or window N in
  Numpy.apply m rollsingle self func window bycolumn align =
    if ((w <=? N) && (w >? 0))%Z
    then Numpy._rollapply m rollsingle self func w bycolumn
           (py_or_str align TimeSeries.default_align)
    else Raise DyntsOutOfBound.
Proof.
  intros Hm N w. unfold Numpy.apply. rewrite load_global_bound by done.
  fold N. fold w. by destruct ((w <=? N) && (w >? 0))%Z.
Qed.

(** Once [timeseries.py] binds [DyntsOutOfBound], a supplied window other
    than 0 raises the bounds error exactly when it is not in [(0, N]]; a
    window that is not supplied, and a window of 0 as well, stands for [N],
    so that the call goes on over the whole dataset when the store is not
    empty and raises the bounds error when it is. *)
Lemma apply_window_bounds m self func bycolumn align :
  "DyntsOutOfBound" ∈ timeseries_py m →
  let N := Z.of_nat (Numpy.len self) in
  (∀ w : Z, w ≠ 0%Z →
     Numpy.apply m rollsingle self func (Some w) bycolumn align
       = Raise DyntsOutOfBound
     ↔ ¬ (0 < w ≤ N)%Z)
  ∧ (∀ window, window = None ∨ window = Some 0%Z →
       (0 < N)%Z →
       Numpy.apply m rollsingle self func window bycolumn align
       = Numpy._rollapply m rollsingle self func N bycolumn
           (py_or_str align TimeSeries.default_align))
  ∧ (∀ window, window = None ∨ window = Some 0%Z →
       N = 0%Z →
       Numpy.apply m rollsingle self func window bycolumn align
       = Raise DyntsOutOfBound).
Proof.
  intros Hm N. repeat split.
  - rewrite apply_effective_window by done. fold N. simpl.
    destruct (Z.eqb_spec w 0); [done|].
    destruct (Z.leb_spec w N), (Z.gtb_spec w 0); simpl; intros Hr; try lia.
    by apply rollapply_not_out_of_bound in Hr.
  - rewrite apply_effective_window by done. fold N. simpl.
    destruct (Z.eqb_spec w 0); [done|].
    destruct (Z.leb_spec w N), (Z.gtb_spec w 0); simpl; intros Hr; try done; lia.
  - intros window Hw HN. rewrite apply_effective_window by done. fold N.
    assert (py_or window N = N) as -> by (by destruct Hw as [-> | ->]).
    destruct (Z.leb_spec N N), (Z.gtb_spec N 0); simpl; try done; lia.
  - intros window Hw HN. rewrite apply_effective_window by done. fold N.
    assert (py_or window N = N) as -> by (by destruct Hw as [-> | ->]).
    destruct (Z.leb_spec N N), (Z.gtb_spec N 0); simpl; try done; lia.
Qed.

End apply.

(** With the names bound, on a store of three rows, [window = 0] is outside
    [(0, 3]] and yet [apply] raises nothing and runs over the whole
    dataset. *)
Lemma apply_window_zero_accepted :
  ¬ (0 < 0 ≤ Z.of_nat (Numpy.len Sample.three_rows))%Z
  ∧ Numpy.apply Sample.with_imports Sample.record_call Sample.three_rows "mean"
      (Some 0%Z) true None
    = Ok ("mean", 3%Z, "right").
Proof. split; [lia | reflexivity]. Qed.

(** ** [reduce] *)

(** C7: with [size >= len(self)], [reduce] returns the store itself, whatever
    the registry holds (an empty registry included); with [size < len(self)]
    the result is that of the registered ['reduce'] algorithm called
    [method], applied to the store and the size. *)
Theorem reduce_identity
    (_algorithms : gmap string (gmap string (Numpy → Z → result Numpy)))
    (self : Numpy) (size : Z) (method : string) :
  ((Z.of_nat (Numpy.len self) ≤ size)%Z →
     Numpy.reduce _algorithms self size method = Ok self)
  ∧ ((size < Z.of_nat (Numpy.len self))%Z →
       Numpy.reduce _algorithms self size method
       = rbind (TimeSeries.getalgo _algorithms "reduce" method)
           (fun algo => algo self size)).
Proof.
  unfold Numpy.reduce.
  split; intros H; destruct (Z.geb_spec size (Z.of_nat (Numpy.len self)));
    try done; lia.
Qed.

Lemma reduce_identity_witness :
  Numpy.reduce ∅ Sample.three_rows 3 "simple" = Ok Sample.three_rows
  ∧ Numpy.reduce Sample.registry Sample.three_rows 2 "simple"
    = Sample.keep_last Sample.three_rows 2.
Proof.
  split.
  - apply (reduce_identity ∅ Sample.three_rows 3 "simple"). vm_compute. discriminate.
  - pose proof (reduce_identity Sample.registry Sample.three_rows 2 "simple") as [_ H].
    rewrite H; [reflexivity | vm_compute; reflexivity].
Defined.

(** ** The missing-run buffer of [clean] *)

(** A missing value met once [dstart] is set, with an algorithm given: the
    statement that buffers it reads [dt], which no statement has assigned yet,
    and nothing is appended. *)
Lemma clean_observe_missing_unbound (f : interpolation) (st : column_state)
    (d : Z) (v : float) :
  PrimFloat.eqb v v = false →
  is_Some (dstart st) →
  Numpy.clean_observe (Some f) None st d v = Raise UnboundLocalError.
Proof.
  intros Hv Hs. unfold Numpy.clean_observe. rewrite Hv.
  rewrite !bool_decide_eq_true_2; [done | by eexists | done].
Qed.

(** C2: the claim does not hold of the code.  On a column valid at key 1 and
    missing at key 2, [clean] with an algorithm stops with
    [UnboundLocalError] at the statement that should buffer [(2, nan)]: no
    pair carrying the current key is recorded. *)
Theorem clean_missing_run_unbound :
  Numpy.clean Sample.gap_at_end (Some Sample.echo) = Raise UnboundLocalError.
Proof. vm_compute. reflexivity. Qed.

(** ** Shape of a store *)

Lemma len_values self : Numpy.len self = length (Numpy.values self).
Proof. unfold Numpy.len, Numpy.shape, Numpy.values. by destruct (_data self). Qed.

Lemma consistent_len self :
  Numpy.consistent self → Numpy.len self = length (Numpy.dates self).
Proof. intros (_ & _ & Hl & _). by rewrite len_values. Qed.

Lemma well_shaped_arrays self :
  Numpy.well_shaped self → Numpy.len self ≠ 0 →
  _date self = Some (Numpy.dates self) ∧ _data self = Some (Numpy.values self).
Proof.
  unfold Numpy.well_shaped, Numpy.len, Numpy.shape, Numpy.dates, Numpy.values.
  destruct (_date self) as [[|]|], (_data self) as [[|]|]; simpl; try done.
Qed.

Lemma fmap_dateinverse (d : list Z) : Numpy.dateinverse <$> d = d.
Proof.
  induction d as [|a d IH]; [done|].
  rewrite fmap_cons. by f_equal.
Qed.

Lemma make_nonempty date data raw :
  date ≠ [] →
  Numpy.make (Some date) data raw
  = mkNumpy (Some date) (Some data) (Skiplist.make date).
Proof.
  intros Hd. unfold Numpy.make.
  assert ((if raw then date else Numpy.dateinverse <$> date) = date) as ->
    by (destruct raw; [done | apply fmap_dateinverse]).
  destruct (decide (length date = 0)) as [H0|]; [|done].
  by destruct date.
Qed.

Lemma make_empty data raw :
  Numpy.make (Some []) data raw = mkNumpy None None [].
Proof. unfold Numpy.make. by destruct raw. Qed.

(** ** [delta] *)

(** C5: the claim does not hold of the code.  [delta] hands the bounds error
    to [precondition] as [dynts.DyntsOutOfBound], and [np.py] binds no name
    [dynts]: for every store and every lag, in the bounds or not, the call
    stops with [NameError]; it returns no store and never raises the bounds
    error. *)
Theorem delta_module_unbound (self : Numpy) (lag : Z) :
  Numpy.delta source self lag = Raise NameError
  ∧ (∀ r, Numpy.delta source self lag ≠ Ok r)
  ∧ Numpy.delta source self lag ≠ Raise DyntsOutOfBound.
Proof.
  assert (Numpy.delta source self lag = Raise NameError) as ->; [|done].
  unfold Numpy.delta.
  by assert (load_global (np_py source) "dynts" = Raise NameError) as ->
    by (vm_compute; reflexivity).
Qed.

(** Once [np.py] binds [dynts]: for [0 < lag < N] on a consistent store,
    [delta] returns a store with the keys [keys[lag:]], [N - lag] rows, and
    at row [i] and column [j] the value [value[i+lag][j] - value[i][j]]; for
    [lag <= 0] or [lag >= N] it raises the bounds error, on any store. *)
Lemma delta_spec (m : modules) (self : Numpy) (lag : Z) :
  "dynts" ∈ np_py m →
  let N := Numpy.len self in
  (Numpy.consistent self → (0 < lag < Z.of_nat N)%Z →
     ∃ r, Numpy.delta m self lag = Ok r
       ∧ Numpy.dates r = drop (Z.to_nat lag) (Numpy.dates self)
       ∧ Numpy.len r = N - Z.to_nat lag
       ∧ ∀ i j, i < N - Z.to_nat lag → j < Numpy.count self →
           ∃ x y, entry (Numpy.values self) (i + Z.to_nat lag) j = Some x
             ∧ entry (Numpy.values self) i j = Some y
             ∧ entry (Numpy.values r) i j = Some (PrimFloat.sub x y))
  ∧ ((lag ≤ 0 ∨ Z.of_nat N ≤ lag)%Z →
       Numpy.delta m self lag = Raise DyntsOutOfBound).
Proof.
  intros Hm N. split.
  - intros Hc Hlag. pose proof Hc as (Hw & _ & Hl & Hrect & _).
    destruct (well_shaped_arrays self Hw) as [Hdate Hdata]; [fold N; lia|].
    pose proof (len_values self) as HN. fold N in HN.
    unfold Numpy.delta. rewrite load_global_bound by done. fold N.
    destruct (Z.ltb_spec lag (Z.of_nat N)), (Z.gtb_spec lag 0); try lia. simpl.
    rewrite Hdate, Hdata. unfold Numpy.clone. simpl.
    set (n := Z.to_nat lag).
    assert (Hn : 0 < n < N) by lia.
    rewrite make_nonempty.
    2:{ intros Hnil. apply (f_equal length) in Hnil.
        rewrite length_drop in Hnil. simpl in Hnil. lia. }
    eexists. split; [reflexivity|].
    unfold Numpy.dates at 1. unfold Numpy.len at 1. unfold Numpy.shape.
    unfold Numpy.values at 3. simpl.
    split; [done|]. split.
    { rewrite length_zip_with, length_drop, length_take. lia. }
    intros i j Hi Hj.
    destruct (lookup_lt_is_Some_2 (Numpy.values self) (i + n)) as [a Ha]; [lia|].
    destruct (lookup_lt_is_Some_2 (Numpy.values self) i) as [b Hb]; [lia|].
    rewrite Forall_forall in Hrect.
    assert (length a = Numpy.count self) as Hla
      by (apply Hrect; eapply list_elem_of_lookup_2; eauto).
    assert (length b = Numpy.count self) as Hlb
      by (apply Hrect; eapply list_elem_of_lookup_2; eauto).
    destruct (lookup_lt_is_Some_2 a j) as [x Hx]; [lia|].
    destruct (lookup_lt_is_Some_2 b j) as [y Hy]; [lia|].
    exists x, y. unfold entry.
    rewrite Ha, Hb. simpl. repeat split; [done..|].
    unfold Numpy.values at 1. simpl.
    rewrite lookup_zip_with, lookup_drop, lookup_take_lt by lia.
    rewrite (Nat.add_comm n i), Ha, Hb. simpl.
    by rewrite lookup_zip_with, Hx, Hy.
  - intros Hlag. unfold Numpy.delta. rewrite load_global_bound by done. fold N.
    destruct (Z.ltb_spec lag (Z.of_nat N)), (Z.gtb_spec lag 0); simpl; try done; lia.
Qed.

Lemma delta_spec_sample :
  (∃ r, Numpy.delta Sample.with_imports Sample.three_rows 1 = Ok r
     ∧ Numpy.dates r = [2; 3]%Z ∧ Numpy.len r = 2)
  ∧ Numpy.delta Sample.with_imports Sample.three_rows 3 = Raise DyntsOutOfBound.
Proof.
  assert (Hm : "dynts" ∈ np_py Sample.with_imports) by (by left).
  pose proof (delta_spec Sample.with_imports Sample.three_rows 1 Hm) as [H1 _].
  pose proof (delta_spec Sample.with_imports Sample.three_rows 3 Hm) as [_ H3].
  split.
  - destruct H1 as (r & Hr & Hd & Hl & _);
      [concrete_consistent | vm_compute; done |].
    exists r. by repeat split.
  - apply H3. right. vm_compute. discriminate.
Defined.

(** ** Variance *)

Section variance.
Local Open Scope Qc_scope.
Implicit Types (v : list (list Qc)) (col row acc : list Qc).

Lemma foldl_add_lookup W v :
  Forall (fun row => length row = W) v →
  ∀ acc j x, length acc = W → acc !! j = Some x →
    foldl (zip_with Qcplus) acc v !! j
    = Some (x + foldr Qcplus 0 (column 0 j v)).
Proof.
  induction 1 as [|row v Hrow Hv IH]; intros acc j x Hacc Hj; simpl.
  - rewrite Hj. f_equal. ring.
  - destruct (row !! j) as [y|] eqn:Hy.
    + rewrite (IH _ j (x + y)).
      * f_equal. rewrite (nth_lookup_Some _ _ _ _ Hy). ring.
      * rewrite length_zip_with. lia.
      * by rewrite lookup_zip_with, Hj, Hy.
    + apply lookup_lt_Some in Hj. apply lookup_ge_None in Hy. lia.
Qed.

Lemma foldl_add_length W v :
  Forall (fun row => length row = W) v →
  ∀ acc, length acc = W → length (foldl (zip_with Qcplus) acc v) = W.
Proof.
  induction 1 as [|row v Hrow Hv IH]; intros acc Hacc; simpl; [done|].
  apply IH. rewrite length_zip_with. lia.
Qed.

Lemma sum_columns W v :
  Forall (fun row => length row = W) v →
  TimeSeries.sum W v = (fun j => foldr Qcplus 0 (column 0 j v)) <$> seq 0 W.
Proof.
  intros Hv. apply list_eq. intros j. unfold TimeSeries.sum.
  rewrite list_lookup_fmap.
  destruct (decide (j < W)%nat) as [Hj|Hj].
  - rewrite lookup_seq_lt by done. simpl.
    rewrite (foldl_add_lookup W v Hv _ j 0).
    + f_equal. ring.
    + by rewrite length_replicate.
    + by apply lookup_replicate_2.
  - rewrite lookup_seq_ge by lia. simpl.
    apply lookup_ge_None.
    rewrite (foldl_add_length W v Hv); [lia | by rewrite length_replicate].
Qed.

Lemma column_squares j v :
  column 0 j ((fun row => zip_with Qcmult row row) <$> v)
  = (fun x => x * x) <$> column 0 j v.
Proof.
  unfold column. rewrite <- !list_fmap_compose.
  apply list_fmap_ext. intros _ row _. simpl.
  destruct (row !! j) as [y|] eqn:Hy.
  - rewrite (nth_lookup_Some _ _ _ _ Hy).
    apply nth_lookup_Some. by rewrite lookup_zip_with, Hy.
  - apply lookup_ge_None in Hy.
    rewrite !nth_overflow; [ring | done | rewrite length_zip_with; lia].
Qed.

Lemma squared_deviations col (m : Qc) :
  foldr Qcplus 0 ((fun x => (x - m) * (x - m)) <$> col)
  = foldr Qcplus 0 ((fun x => x * x) <$> col)
    - (1 + 1) * m * foldr Qcplus 0 col
    + Qc_of_Z (Z.of_nat (length col)) * m * m.
Proof.
  induction col as [|x col IH].
  - rewrite !fmap_nil. cbn [foldr length].
    change (Z.of_nat 0) with 0%Z. rewrite Z2Qc_inj_0. ring.
  - rewrite !fmap_cons. cbn [foldr length]. rewrite IH.
    rewrite Nat2Z.inj_succ, <- Z.add_1_r, Z2Qc_inj_add, Z2Qc_inj_1. ring.
Qed.

(** The two formulas on one column. *)
Lemma variance_column col (ddof : Qc) :
  let n := Qc_of_Z (Z.of_nat (length col)) in
  n ≠ 0 → n - ddof ≠ 0 →
  (foldr Qcplus 0 ((fun x => x * x) <$> col)
     - foldr Qcplus 0 col * foldr Qcplus 0 col / n) / (n - ddof)
  = Numpy.var_column col ddof.
Proof.
  intros n Hn Hd. unfold Numpy.var_column. fold n.
  rewrite squared_deviations. fold n. field. by split.
Qed.

(** C10: on a non-empty value matrix of [N] rows and any [ddof] with
    [N - ddof] other than 0, the variance of the base class,
    [(sum(v*v) - sum(v)*sum(v)/N)/(N - ddof)], is column by column the
    variance of the numpy backend, [sum((v - mean)^2)/(N - ddof)], the
    numbers being exact. *)
Theorem var_equivalent v (ddof : Qc) :
  v ≠ [] →
  Forall (fun row => length row = width v) v →
  Qc_of_Z (Z.of_nat (length v)) - ddof ≠ 0 →
  TimeSeries.var v ddof = Some (Numpy.var v ddof).
Proof.
  intros Hne Hrect Hd. unfold TimeSeries.var, Numpy.var.
  destruct (decide (length v = 0%nat)) as [H0|H0]; [by destruct v|].
  f_equal. set (n := Qc_of_Z (Z.of_nat (length v))) in *.
  assert (Hn : n ≠ 0).
  { unfold n. rewrite <- Z2Qc_inj_0. intros H%Z2Qc_inj. by destruct v. }
  rewrite !sum_columns.
  2:{ done. }
  2:{ rewrite Forall_fmap. eapply Forall_impl; [exact Hrect|].
      intros row Hrow. simpl in *. rewrite length_zip_with. lia. }
  apply list_eq. intros j.
  rewrite lookup_zip_with, !list_lookup_fmap.
  destruct (seq 0 (width v) !! j) as [c|]; simpl; [|done].
  f_equal. rewrite column_squares.
  assert (Hlen : length (column 0 c v) = length v)
    by (unfold column; by rewrite length_fmap).
  pose proof (variance_column (column 0 c v) ddof) as Hv.
  simpl in Hv. rewrite Hlen in Hv. by apply Hv.
Qed.

End variance.

Lemma var_equivalent_witness :
  TimeSeries.var Sample.exact_values (Qc_of_Z 1)
  = Some (Numpy.var Sample.exact_values (Qc_of_Z 1)).
Proof.
  apply var_equivalent.
  - discriminate.
  - repeat constructor.
  - intros H. apply (f_equal this) in H. vm_compute in H. discriminate H.
Defined.

(** ** Sorted keys *)

Section sorted_keys.
Local Open Scope Z_scope.
Implicit Types (l : list Z).

Lemma sorted_lt_le l : StronglySorted Z.lt l → StronglySorted Z.le l.
Proof.
  induction 1 as [|x l Hl IH Hx]; constructor; [done|].
  eapply Forall_impl; [exact Hx|]. intros; simpl in *; lia.
Qed.

Lemma sorted_lt_NoDup l : StronglySorted Z.lt l → NoDup l.
Proof.
  induction 1 as [|x l Hl IH Hx]; constructor; [|done].
  rewrite Forall_forall in Hx. intros Hin. specialize (Hx _ Hin). lia.
Qed.

Lemma sorted_head_le l d0 d :
  StronglySorted Z.lt l → head l = Some d0 → d ∈ l → d0 ≤ d.
Proof.
  intros Hl Hh Hin. destruct Hl as [|x l Hl Hx]; [done|].
  injection Hh as ->. rewrite Forall_forall in Hx.
  apply elem_of_cons in Hin as [->|Hin]; [lia|].
  specialize (Hx _ Hin). lia.
Qed.

Lemma sorted_last_le l dl d :
  StronglySorted Z.lt l → last l = Some dl → d ∈ l → d ≤ dl.
Proof.
  induction 1 as [|x l Hl IH Hx]; intros Hlast Hin; [done|].
  destruct l as [|y l].
  - injection Hlast as <-. apply list_elem_of_singleton in Hin. lia.
  - rewrite last_cons_cons in Hlast.
    apply elem_of_cons in Hin as [->|Hin]; [|by apply IH].
    rewrite Forall_forall in Hx.
    apply last_Some_elem_of in Hlast. specialize (Hx _ Hlast). lia.
Qed.

(** [sorted] over the set of the keys gives the keys back. *)
Lemma sorted_elements l :
  StronglySorted Z.lt l →
  merge_sort Z.le (elements (list_to_set l : gset Z)) = l.
Proof.
  intros Hl. apply (StronglySorted_unique Z.le).
  - apply StronglySorted_merge_sort; apply _.
  - by apply sorted_lt_le.
  - rewrite merge_sort_Permutation. apply elements_list_to_set.
    by apply sorted_lt_NoDup.
Qed.


End sorted_keys.

(** ** The ordered key index *)

Section skiplist.
Local Open Scope Z_scope.
Implicit Types (key : Z) (l : list Z).

Lemma skiplist_insert_elem_of key l x :
  x ∈ Skiplist.insert key l ↔ x = key ∨ x ∈ l.
Proof.
  induction l as [|y l IH]; simpl.
  - rewrite elem_of_cons, elem_of_nil. tauto.
  - destruct (Z.ltb_spec key y); [rewrite !elem_of_cons; tauto|].
    destruct (Z.eqb_spec key y) as [->|]; [rewrite !elem_of_cons; tauto|].
    rewrite !elem_of_cons, IH. tauto.
Qed.

Lemma skiplist_insert_sorted key l :
  StronglySorted Z.lt l → StronglySorted Z.lt (Skiplist.insert key l).
Proof.
  induction 1 as [|y l Hl IH Hy]; simpl.
  - repeat constructor.
  - destruct (Z.ltb_spec key y).
    + constructor; [by constructor|].
      constructor; [done|]. eapply Forall_impl; [exact Hy|]. intros; simpl in *; lia.
    + destruct (Z.eqb_spec key y); [by constructor|].
      constructor; [done|].
      apply Forall_forall. intros x Hx.
      apply skiplist_insert_elem_of in Hx as [->|Hx]; [lia|].
      rewrite Forall_forall in Hy. by apply Hy.
Qed.

(** [rank] finds a key that is there, and [insert] then changes nothing. *)
Lemma rank_from_found key l i r :
  Skiplist.rank_from i key l = r → 0 ≤ i → 0 ≤ r →
  ∃ j : nat, r = i + Z.of_nat j ∧ l !! j = Some key ∧ Skiplist.insert key l = l.
Proof.
  revert i. induction l as [|y l IH]; intros i Hr Hi Hpos; simpl in Hr.
  - lia.
  - simpl. destruct (Z.ltb_spec key y); [lia|].
    destruct (Z.eqb_spec key y) as [->|Hne].
    + exists 0%nat. split; [lia|]. done.
    + destruct (IH (i + 1) Hr) as (j & Hj & Hl & Hins); [lia..|].
      exists (S j). split; [lia|]. split; [done|]. by rewrite Hins.
Qed.

(** For a key that is not there, [rank] encodes the index at which [insert]
    puts it. *)
Lemma rank_from_absent key l i r :
  Skiplist.rank_from i key l = r → 0 ≤ i → r < 0 →
  ∃ j : nat, -1 - r = i + Z.of_nat j ∧ (j ≤ length l)%nat
    ∧ Skiplist.insert key l = take j l ++ key :: drop j l.
Proof.
  revert i. induction l as [|y l IH]; intros i Hr Hi Hneg; simpl in Hr.
  - exists 0%nat. split; [lia|]. done.
  - simpl. destruct (Z.ltb_spec key y).
    + exists 0%nat. split; [lia|]. split; [lia|]. done.
    + destruct (Z.eqb_spec key y) as [->|Hne]; [lia|].
      destruct (IH (i + 1) Hr) as (j & Hj & Hl & Hins); [lia..|].
      exists (S j). split; [lia|]. split; [lia|]. simpl. by rewrite Hins.
Qed.

Lemma rank_from_present key l i :
  StronglySorted Z.lt l → key ∈ l → 0 ≤ i → 0 ≤ Skiplist.rank_from i key l.
Proof.
  intros Hl. revert i. induction Hl as [|y l Hl IH Hy]; intros i Hin Hi.
  - by apply elem_of_nil in Hin.
  - simpl. rewrite Forall_forall in Hy.
    apply elem_of_cons in Hin as [->|Hin].
    + rewrite Z.ltb_irrefl, Z.eqb_refl. done.
    + specialize (Hy _ Hin).
      destruct (Z.ltb_spec key y); [lia|].
      destruct (Z.eqb_spec key y); [lia|].
      apply IH; [done | lia].
Qed.


End skiplist.

(** ** In-place growth of an array *)

Section arrays.
Context {A : Type}.
Implicit Types (a : list A) (x zero : A) (j : nat).

Lemma shift_up a zero j :
  j < length a →
  set_slice_from (j + 1) (slice_to_last j (a ++ [zero])) (a ++ [zero])
  = Ok (take (j + 1) a ++ drop j a).
Proof.
  intros Hj. unfold set_slice_from, slice_to_last.
  rewrite length_app. simpl.
  replace (length a + 1 - 1) with (length a) by lia.
  rewrite take_app_length.
  destruct (decide _) as [_|Hne].
  - by rewrite take_app_le by lia.
  - rewrite length_drop in Hne. lia.
Qed.

Lemma setitem_shifted a j x :
  j < length a →
  setitem (take (j + 1) a ++ drop j a) j x = Ok (take j a ++ x :: drop j a).
Proof.
  intros Hj. unfold setitem.
  rewrite length_app, length_take, length_drop.
  destruct (decide _); [|lia]. f_equal.
  destruct (lookup_lt_is_Some_2 a j Hj) as [y Hy].
  replace (j + 1) with (S j) by lia.
  rewrite (take_S_r _ _ _ Hy), <- app_assoc. simpl.
  rewrite insert_app_r_alt by (rewrite length_take; lia).
  rewrite length_take. replace (j - j `min` length a) with 0 by lia. done.
Qed.

Lemma setitem_resized a zero j x :
  j = length a →
  setitem (a ++ [zero]) j x = Ok (take j a ++ x :: drop j a).
Proof.
  intros ->. unfold setitem. rewrite length_app. simpl.
  destruct (decide _); [|lia]. f_equal.
  rewrite insert_app_r_alt by lia.
  rewrite Nat.sub_diag, firstn_all, drop_all. done.
Qed.

Lemma setitem_inside a j x :
  j < length a → setitem a j x = Ok (<[j:=x]> a).
Proof. intros Hj. unfold setitem. by destruct (decide _). Qed.

Lemma lookup_grown_lt a j x i :
  j ≤ length a → i < j → (take j a ++ x :: drop j a) !! i = a !! i.
Proof.
  intros Hj Hi. rewrite lookup_app_l by (rewrite length_take; lia).
  by rewrite lookup_take_lt.
Qed.

Lemma lookup_grown_at a j x :
  j ≤ length a → (take j a ++ x :: drop j a) !! j = Some x.
Proof.
  intros Hj. rewrite lookup_app_r by (rewrite length_take; lia).
  rewrite length_take. by replace (j - j `min` length a) with 0 by lia.
Qed.

Lemma lookup_grown_ge a j x i :
  j ≤ length a → j ≤ i → (take j a ++ x :: drop j a) !! S i = a !! i.
Proof.
  intros Hj Hi. rewrite lookup_app_r by (rewrite length_take; lia).
  rewrite length_take. replace (S i - j `min` length a) with (S (i - j)) by lia.
  simpl. rewrite lookup_drop. f_equal. lia.
Qed.

End arrays.

(** ** [insert] *)

Section insert.
Implicit Types (self : Numpy) (row : list float) (dte key : Z).

Lemma well_shaped_intro (date : list Z) (data : list (list float)) skl :
  date ≠ [] → data ≠ [] → Numpy.well_shaped (mkNumpy (Some date) (Some data) skl).
Proof. by destruct date, data. Qed.

Lemma well_shaped_empty self :
  Numpy.well_shaped self → Numpy.len self = 0 →
  _date self = None ∧ _data self = None.
Proof.
  unfold Numpy.well_shaped, Numpy.len, Numpy.shape.
  destruct (_date self) as [[|]|], (_data self) as [[|]|]; simpl; done.
Qed.

Lemma setrow_exact C row : length row = C → setrow C row = Ok row.
Proof. intros H. unfold setrow. by destruct (decide _). Qed.

(** The first row of an empty store. *)
Lemma insert_first owned self dte row :
  Numpy.well_shaped self → Numpy.len self = 0 → length row ≠ 0 →
  Numpy.insert owned self dte row
  = Ok (mkNumpy (Some [dte]) (Some [row]) (Skiplist.insert dte (_skl self))).
Proof.
  intros Hw H0 Hrow. unfold Numpy.insert, Numpy.dateconvert.
  destruct (decide (length row = 0)); [done|].
  by destruct (decide (Numpy.len self = 0)).
Qed.

(** A key that is not in the store: both arrays grow by one entry at the
    index that [rank] gives. *)
Lemma insert_absent self dte row (j : nat) :
  Numpy.well_shaped self → Numpy.len self ≠ 0 →
  length (Numpy.values self) = length (Numpy.dates self) →
  length row = Numpy.count self → length row ≠ 0 →
  (Skiplist.rank dte (_skl self) < 0)%Z →
  (-1 - Skiplist.rank dte (_skl self))%Z = Z.of_nat j →
  j ≤ length (Numpy.dates self) →
  Numpy.insert true self dte row
  = Ok (mkNumpy (Some (take j (Numpy.dates self) ++ dte :: drop j (Numpy.dates self)))
          (Some (take j (Numpy.values self) ++ row :: drop j (Numpy.values self)))
          (Skiplist.insert dte (_skl self))).
Proof.
  intros Hw Hlen Hl Hrow Hne Hneg Hj Hjl.
  destruct (well_shaped_arrays self Hw Hlen) as [Hdate Hdata].
  unfold Numpy.insert, Numpy.dateconvert.
  destruct (decide (length row = 0)); [done|].
  destruct (decide (Numpy.len self = 0)); [done|].
  rewrite Hdate, Hdata.
  destruct (Z.ltb_spec (Skiplist.rank dte (_skl self)) 0); [|lia].
  rewrite Hj, Nat2Z.id. unfold resize. cbn [rbind].
  destruct (decide (j < length (Numpy.values self))) as [Hlt|Hge].
  - rewrite !shift_up by lia. simpl.
    rewrite !setitem_shifted by lia. simpl.
    rewrite setrow_exact by done. simpl.
    by rewrite !setitem_shifted by lia.
  - simpl. rewrite !setitem_resized by lia. simpl.
    rewrite setrow_exact by done. simpl.
    by rewrite !setitem_resized by lia.
Qed.

(** A key that is not in a store with rows, whose arrays numpy does not
    resize: the call stops at [resize]. *)
Lemma insert_absent_refused self dte row :
  Numpy.well_shaped self → Numpy.len self ≠ 0 → length row ≠ 0 →
  (Skiplist.rank dte (_skl self) < 0)%Z →
  Numpy.insert false self dte row = Raise ValueError.
Proof.
  intros Hw Hlen Hne Hneg.
  destruct (well_shaped_arrays self Hw Hlen) as [Hdate Hdata].
  unfold Numpy.insert, Numpy.dateconvert.
  destruct (decide (length row = 0)); [done|].
  destruct (decide (Numpy.len self = 0)); [done|].
  rewrite Hdate, Hdata.
  by destruct (Z.ltb_spec (Skiplist.rank dte (_skl self)) 0); [|lia].
Qed.

(** A key of the store: its row is overwritten where it is. *)
Lemma insert_found owned self dte row (j : nat) :
  Numpy.well_shaped self → Numpy.len self ≠ 0 →
  length (Numpy.values self) = length (Numpy.dates self) →
  length row = Numpy.count self → length row ≠ 0 →
  Skiplist.rank dte (_skl self) = Z.of_nat j →
  Numpy.dates self !! j = Some dte →
  Numpy.insert owned self dte row
  = Ok (mkNumpy (Some (Numpy.dates self)) (Some (<[j:=row]> (Numpy.values self)))
          (Skiplist.insert dte (_skl self))).
Proof.
  intros Hw Hlen Hl Hrow Hne Hj Hjl.
  destruct (well_shaped_arrays self Hw Hlen) as [Hdate Hdata].
  pose proof (lookup_lt_Some _ _ _ Hjl) as Hlt.
  unfold Numpy.insert, Numpy.dateconvert.
  destruct (decide (length row = 0)); [done|].
  destruct (decide (Numpy.len self = 0)); [done|].
  rewrite Hdate, Hdata, Hj.
  destruct (Z.ltb_spec (Z.of_nat j) 0); [lia|].
  rewrite Nat2Z.id. simpl.
  rewrite setitem_inside by done. simpl.
  rewrite setrow_exact by done. simpl.
  rewrite setitem_inside by lia. simpl.
  by rewrite list_insert_id.
Qed.

End insert.

Section insert_spec.
Implicit Types (self : Numpy) (row : list float) (dte key : Z).

Lemma dates_mk (date : list Z) data skl :
  Numpy.dates (mkNumpy (Some date) data skl) = date.
Proof. done. Qed.

Lemma values_mk date (data : list (list float)) skl :
  Numpy.values (mkNumpy date (Some data) skl) = data.
Proof. done. Qed.

Lemma consistent_intro (date : list Z) (data : list (list float)) skl C :
  date ≠ [] → StronglySorted Z.lt date → length data = length date →
  Forall (fun row => length row = C) data → skl = date →
  Numpy.consistent (mkNumpy (Some date) (Some data) skl)
  ∧ Numpy.count (mkNumpy (Some date) (Some data) skl) = C
  ∧ Numpy.len (mkNumpy (Some date) (Some data) skl) ≠ 0.
Proof.
  intros Hne Hs Hl Hrows ->.
  assert (data ≠ []) as Hd by (destruct date, data; done).
  assert (Numpy.count (mkNumpy (Some date) (Some data) date) = C) as Hc.
  { unfold Numpy.count, Numpy.shape. simpl.
    destruct data as [|r data]; [done|]. by inversion Hrows. }
  split; [|split; [done|]].
  - unfold Numpy.consistent. rewrite Hc.
    split; [by apply well_shaped_intro|]. by repeat split.
  - unfold Numpy.len, Numpy.shape. simpl. by destruct data.
Qed.

(** One [insert] on a consistent store, with a row of its width; the arrays
    are resized for a new key of a store with rows only. *)
Lemma insert_spec owned self dte row C :
  Numpy.consistent self → length row = C → C ≠ 0 →
  (Numpy.len self ≠ 0 → Numpy.count self = C) →
  owned = true ∨ Numpy.len self = 0 ∨ dte ∈ Numpy.dates self →
  ∃ self', Numpy.insert owned self dte row = Ok self'
    ∧ Numpy.consistent self' ∧ Numpy.count self' = C ∧ Numpy.len self' ≠ 0
    ∧ Numpy.dates self' = Skiplist.insert dte (Numpy.dates self)
    ∧ Numpy.row_at self' dte row
    ∧ (∀ k r, k ≠ dte → Numpy.row_at self k r → Numpy.row_at self' k r).
Proof.
  intros (Hw & Hs & Hl & Hrows & Hskl) Hrow HC Hcount Hown.
  destruct (decide (Numpy.len self = 0)) as [H0|H0].
  - destruct (well_shaped_empty self Hw H0) as [Hdate Hdata].
    assert (Numpy.dates self = []) as Hd by (unfold Numpy.dates; by rewrite Hdate).
    eexists. split; [apply insert_first; [done..|lia]|].
    rewrite Hskl, Hd. simpl.
    destruct (consistent_intro [dte] [row] [dte] C) as (Hc1 & Hc2 & Hc3);
      [done | repeat constructor | done | by repeat constructor | done |].
    split_and!; try done.
    + by exists 0.
    + intros k r _ (i & Hi & _). by rewrite Hd in Hi.
  - specialize (Hcount H0).
    pose proof (rank_from_absent dte (Numpy.dates self) 0) as Habs.
    pose proof (rank_from_found dte (Numpy.dates self) 0) as Hfnd.
    fold (Skiplist.rank dte (Numpy.dates self)) in Habs, Hfnd.
    destruct (Z.lt_ge_cases (Skiplist.rank dte (Numpy.dates self)) 0) as [Hneg|Hpos].
    + destruct (Habs _ eq_refl) as (j & Hj & Hjl & Hins); [lia..|].
      assert (owned = true) as ->.
      { destruct Hown as [?|[?|Hin]]; [done..|].
        pose proof (rank_from_present dte (Numpy.dates self) 0 Hs Hin) as Hr.
        unfold Skiplist.rank in Hneg. lia. }
      eexists. split.
      { apply (insert_absent self dte row j); rewrite ?Hskl; try done; lia. }
      rewrite Hskl, dates_mk.
      destruct (consistent_intro
                  (take j (Numpy.dates self) ++ dte :: drop j (Numpy.dates self))
                  (take j (Numpy.values self) ++ row :: drop j (Numpy.values self))
                  (Skiplist.insert dte (Numpy.dates self)) C) as (Hc1 & Hc2 & Hc3).
      { intros Hnil. apply (f_equal length) in Hnil.
        rewrite length_app in Hnil. simpl in Hnil. lia. }
      { rewrite <- Hins. by apply skiplist_insert_sorted. }
      { rewrite !length_app. simpl. rewrite !length_take, !length_drop. lia. }
      { rewrite Hcount in Hrows. apply Forall_app. split; [by apply Forall_take|].
        constructor; [done | by apply Forall_drop]. }
      { done. }
      split_and!; try done.
      * exists j. rewrite dates_mk, values_mk.
        split; apply lookup_grown_at; lia.
      * intros k r Hk (i & Hi & Hr). unfold Numpy.row_at.
        rewrite dates_mk, values_mk.
        destruct (decide (i < j)).
        -- exists i. rewrite !lookup_grown_lt by lia. done.
        -- exists (S i). rewrite !lookup_grown_ge by lia. done.
    + destruct (Hfnd _ eq_refl) as (j & Hj & Hjl & Hins); [lia..|].
      pose proof (lookup_lt_Some _ _ _ Hjl) as Hlt.
      eexists. split.
      { apply (insert_found owned self dte row j); rewrite ?Hskl; try done; lia. }
      rewrite Hskl, Hins, dates_mk.
      destruct (consistent_intro (Numpy.dates self) (<[j:=row]> (Numpy.values self))
                  (Numpy.dates self) C) as (Hc1 & Hc2 & Hc3).
      { intros Hnil. rewrite Hnil in Hlt. simpl in Hlt. lia. }
      { done. }
      { by rewrite length_insert. }
      { rewrite Hcount in Hrows. by apply Forall_insert. }
      { done. }
      split_and!; try done.
      * exists j. rewrite dates_mk, values_mk.
        split; [done|]. apply list_lookup_insert_eq. lia.
      * intros k r Hk (i & Hi & Hr). exists i.
        rewrite dates_mk, values_mk.
        split; [done|]. rewrite list_lookup_insert_ne; [done|].
        intros ->. congruence.
Qed.

End insert_spec.





(** ** [clean]: one column *)

Section clean_column.
Implicit Types (algorithm : option interpolation) (st : column_state).
Implicit Types (obs : list (Z * float)) (serie : list float).

(** With [dt] unassigned, an observation either stops the call or leaves the
    buffer of missing values empty. *)
Lemma clean_observe_outcome algorithm st d v :
  missings st = [] → (is_Some (dstart st) → is_Some (dend st)) →
  (is_Some algorithm
     ∧ Numpy.clean_observe algorithm None st d v = Raise UnboundLocalError)
  ∨ ∃ st', Numpy.clean_observe algorithm None st d v = Ok st'
      ∧ missings st' = [] ∧ (is_Some (dstart st') → is_Some (dend st')).
Proof.
  intros Hm Hse. unfold Numpy.clean_observe.
  destruct (PrimFloat.eqb v v).
  - rewrite Hm. simpl. right. eexists. split; [done|]. simpl.
    split; [done|]. intros _. by eexists.
  - case_bool_decide as Hs; simpl.
    + case_bool_decide as Ha; simpl.
      * left. done.
      * right. by exists st.
    + right. by exists st.
Qed.

Lemma clean_observations_outcome algorithm obs :
  ∀ st, missings st = [] → (is_Some (dstart st) → is_Some (dend st)) →
    (is_Some algorithm
       ∧ Numpy.clean_observations algorithm None st obs = Raise UnboundLocalError)
    ∨ ∃ st', Numpy.clean_observations algorithm None st obs = Ok st'
        ∧ missings st' = [] ∧ (is_Some (dstart st') → is_Some (dend st')).
Proof.
  induction obs as [|[d v] obs IH]; intros st Hm Hse; simpl.
  - right. by exists st.
  - destruct (clean_observe_outcome algorithm st d v Hm Hse)
      as [[Ha ->]|(st1 & -> & Hm1 & Hse1)]; simpl.
    + by left.
    + by apply IH.
Qed.

Lemma clean_flush_empty algorithm st :
  missings st = [] → Numpy.clean_flush algorithm st = Ok st.
Proof. intros Hm. unfold Numpy.clean_flush. by rewrite Hm. Qed.

Lemma clean_column_outcome algorithm original_dates serie :
  (is_Some algorithm
     ∧ Numpy.clean_column algorithm None original_dates serie
       = Raise UnboundLocalError)
  ∨ ∃ entry, Numpy.clean_column algorithm None original_dates serie = Ok entry
      ∧ (is_Some entry.1.1 → is_Some entry.1.2).
Proof.
  unfold Numpy.clean_column.
  set (st0 := mkColumnState None None None [] [] [] ∅).
  assert (Hse0 : is_Some (dstart st0) → is_Some (dend st0))
    by (intros [? H]; discriminate H).
  destruct (clean_observations_outcome algorithm (zip original_dates serie)
              st0 eq_refl Hse0)
    as [[Ha ->]|(st & -> & Hm & Hse)]; simpl.
  - by left.
  - right. rewrite clean_flush_empty by done. simpl. by eexists.
Qed.

(** A column of missing values only never sets [dstart]. *)
Lemma clean_observations_all_missing algorithm dt obs st :
  Forall (fun o => PrimFloat.eqb o.2 o.2 = false) obs →
  dstart st = None →
  Numpy.clean_observations algorithm dt st obs = Ok st.
Proof.
  intros Hobs Hs. induction Hobs as [|[d v] obs Hv Hobs IH]; simpl; [done|].
  simpl in Hv. unfold Numpy.clean_observe. rewrite Hv, Hs. simpl.
  exact IH.
Qed.

Lemma clean_column_all_missing algorithm dt original_dates serie :
  Forall (fun v => PrimFloat.eqb v v = false) serie →
  Numpy.clean_column algorithm dt original_dates serie = Ok (None, None, ∅).
Proof.
  intros Hs. unfold Numpy.clean_column.
  rewrite clean_observations_all_missing; [done| |done].
  apply Forall_forall. intros [d v] Hin. simpl.
  rewrite Forall_forall in Hs. apply Hs.
  by apply elem_of_zip_r in Hin.
Qed.

(** Observations that are all valid: nothing is buffered, [dstart] is the
    first key, [dend] the last, and every observation is in the map. *)
Lemma clean_observations_valid algorithm dt obs :
  ∀ st, missings st = [] →
    Forall (fun o => PrimFloat.eqb o.2 o.2 = true) obs →
    ∃ st', Numpy.clean_observations algorithm dt st obs = Ok st'
      ∧ missings st' = []
      ∧ dstart st' = match dstart st with
                     | Some s => Some s
                     | None => fst <$> head obs
                     end
      ∧ dend st' = match last obs with
                   | Some o => Some o.1
                   | None => dend st
                   end
      ∧ cvalues st' = foldl (fun m o => <[o.1 := o.2]> m) (cvalues st) obs.
Proof.
  induction obs as [|[d v] obs IH]; intros st Hm Hobs; simpl.
  - exists st. split_and!; try done. by destruct (dstart st).
  - apply Forall_cons in Hobs as [Hv Hobs]. simpl in Hv.
    unfold Numpy.clean_observe. rewrite Hv, Hm. simpl.
    edestruct IH as (st' & -> & Hm' & Hs' & He' & Hc'); [|exact Hobs|]; [done|].
    exists st'. simpl in *. split_and!; try done.
    + rewrite Hs'. by destruct (dstart st).
    + rewrite He'. destruct obs as [|o obs]; [done|].
      change (last ((d, v) :: o :: obs)) with (last (o :: obs)).
      destruct (last (o :: obs)) eqn:E; [done|].
      by apply last_None in E.
Qed.

End clean_column.

(** ** [clean]: a column of missing values only *)

Section clean_missing_column.
Implicit Types (algorithm : option interpolation).
Implicit Types (series : list (option Z * option Z * gmap Z float)).

Lemma clean_series_outcome algorithm original_dates cols :
  ∀ series all_dates,
    Forall (fun e => is_Some e.1.1 → is_Some e.1.2) series →
    (is_Some algorithm
       ∧ Numpy.clean_series algorithm None original_dates cols series all_dates
         = Raise UnboundLocalError)
    ∨ ∃ series' all_dates',
        Numpy.clean_series algorithm None original_dates cols series all_dates
        = Ok (series', all_dates')
        ∧ Forall (fun e => is_Some e.1.1 → is_Some e.1.2) series'
        ∧ (∀ e, e ∈ series → e ∈ series')
        ∧ (∀ serie, serie ∈ cols →
             Forall (fun v => PrimFloat.eqb v v = false) serie →
             (None, None, ∅) ∈ series').
Proof.
  induction cols as [|serie cols IH]; intros series all_dates Hwf; simpl.
  - right. exists series, all_dates. split_and!; try done.
    intros serie Hin. by apply elem_of_nil in Hin.
  - pose proof (clean_column_all_missing algorithm None original_dates serie) as Hnan.
    destruct (clean_column_outcome algorithm original_dates serie)
      as [[Ha Hr]|(entry & Hr & Hentry)]; rewrite Hr; simpl.
    + by left.
    + destruct (IH (series ++ [entry]) (all_dates ∪ dom entry.2))
        as [[Ha Hr']|(series' & all_dates' & Hr' & Hwf' & Hsub & Hmiss)].
      * apply Forall_app. split; [done|]. by constructor.
      * by left.
      * right. exists series', all_dates'. split_and!; try done.
        -- intros e He. apply Hsub, elem_of_app. by left.
        -- intros serie' Hin Hall.
           apply elem_of_cons in Hin as [->|Hin]; [|by apply (Hmiss serie')].
           specialize (Hnan Hall). rewrite Hr in Hnan. injection Hnan as ->.
           apply Hsub, elem_of_app. right. by apply list_elem_of_singleton.
Qed.

(** Such a column has an entry without [start] and with an empty map: every
    date is taken to be inside its window, none has a value, and the row is
    dropped. *)
Lemma clean_cross_missing dt series :
  Forall (fun e => is_Some e.1.1 → is_Some e.1.2) series →
  (None, None, ∅) ∈ series →
  ∀ cross, Numpy.clean_cross dt series cross = Ok None.
Proof.
  induction 1 as [|[[start end_] values] series Hwf Hrest IH]; intros Hin cross.
  - by apply elem_of_nil in Hin.
  - apply elem_of_cons in Hin as [Heq|Hin].
    + injection Heq as <- <- <-. simpl. by rewrite lookup_empty.
    + simpl in *. destruct start as [s|]; simpl.
      * destruct (dt >=? s)%Z; simpl.
        -- destruct Hwf as [e ->]; [by eexists|]. simpl.
           destruct (dt <=? e)%Z; [|by apply IH].
           destruct (values !! dt); [by apply IH | done].
        -- by apply IH.
      * destruct (values !! dt); [by apply IH | done].
Qed.

Lemma clean_rows_missing series dts :
  Forall (fun e => is_Some e.1.1 → is_Some e.1.2) series →
  (None, None, ∅) ∈ series →
  ∀ cdate cdata, Numpy.clean_rows series dts cdate cdata = Ok (cdate, cdata).
Proof.
  intros Hwf Hin. induction dts as [|dt dts IH]; intros cdate cdata; simpl; [done|].
  rewrite clean_cross_missing by done. simpl. apply IH.
Qed.

Lemma series_columns (self : Numpy) :
  Numpy.len self ≠ 0 →
  Numpy.series self
  = (fun c => column nan c (Numpy.values self)) <$> seq 0 (Numpy.count self).
Proof.
  intros Hlen. unfold Numpy.series. rewrite len_values in Hlen.
  by destruct (decide _).
Qed.

Lemma series_end_rows (self : Numpy) :
  Numpy.len self ≠ 0 → Numpy.series_end self = None.
Proof.
  intros Hlen. unfold Numpy.series_end. rewrite len_values in Hlen.
  by destruct (decide _).
Qed.

(** On a store that is not empty and has a column of missing values only,
    [clean] returns the empty store, unless the unassigned [dt] stops it
    first, which takes an algorithm. *)
Lemma clean_all_missing_column (self : Numpy) algorithm (c : nat) :
  Numpy.len self ≠ 0 → c < Numpy.count self →
  Forall (fun v => PrimFloat.eqb v v = false) (column nan c (Numpy.values self)) →
  (is_Some algorithm ∧ Numpy.clean self algorithm = Raise UnboundLocalError)
  ∨ Numpy.clean self algorithm = Ok (mkNumpy None None []).
Proof.
  intros Hlen Hc Hnan. unfold Numpy.clean.
  rewrite series_columns, series_end_rows by done.
  destruct (clean_series_outcome algorithm (Numpy.dates self)
              ((fun c => column nan c (Numpy.values self)) <$> seq 0 (Numpy.count self))
              [] ∅)
    as [[Ha ->]|(series' & all_dates' & -> & Hwf & _ & Hmiss)]; [done|by left|].
  right. simpl.
  rewrite clean_rows_missing; [| done |].
  - simpl. unfold Numpy.clone. simpl. by rewrite make_empty.
  - apply (Hmiss (column nan c (Numpy.values self))); [|done].
    apply list_elem_of_fmap. exists c. split; [done|].
    apply elem_of_seq. lia.
Qed.

Lemma clean_all_missing_column_default (self : Numpy) (c : nat) :
  Numpy.len self ≠ 0 → c < Numpy.count self →
  Forall (fun v => PrimFloat.eqb v v = false) (column nan c (Numpy.values self)) →
  Numpy.clean self None = Ok (mkNumpy None None []).
Proof.
  intros Hlen Hc Hnan.
  destruct (clean_all_missing_column self None c Hlen Hc Hnan) as [[Ha _]|H]; [|done].
  by destruct Ha.
Qed.

End clean_missing_column.

(** ** [clean]: columns without a missing value *)

Section clean_valid.
Implicit Types (algorithm : option interpolation) (serie : list float).
Implicit Types (obs : list (Z * float)) (m : gmap Z float).
Implicit Types (series : list (option Z * option Z * gmap Z float)).

Lemma foldl_insert_notin obs :
  ∀ m d, d ∉ obs.*1 → foldl (fun m o => <[o.1 := o.2]> m) m obs !! d = m !! d.
Proof.
  induction obs as [|[d0 v0] obs IH]; intros m d Hd; simpl; [done|].
  rewrite fmap_cons, not_elem_of_cons in Hd. destruct Hd as [Hne Hd].
  rewrite IH by done. simpl. by rewrite lookup_insert_ne.
Qed.

Lemma foldl_insert_lookup obs :
  NoDup obs.*1 →
  ∀ m d v, (d, v) ∈ obs → foldl (fun m o => <[o.1 := o.2]> m) m obs !! d = Some v.
Proof.
  induction obs as [|[d0 v0] obs IH]; intros Hnd m d v Hin.
  - by apply elem_of_nil in Hin.
  - rewrite fmap_cons in Hnd. apply NoDup_cons in Hnd as [Hd0 Hnd]. simpl.
    apply elem_of_cons in Hin as [Heq|Hin].
    + injection Heq as -> ->. rewrite foldl_insert_notin by done.
      simpl. apply lookup_insert_eq.
    + by apply IH.
Qed.

Lemma foldl_insert_dom obs :
  ∀ m, dom (foldl (fun m o => <[o.1 := o.2]> m) m obs)
       = dom m ∪ list_to_set obs.*1.
Proof.
  induction obs as [|[d0 v0] obs IH]; intros m; simpl.
  - by rewrite (right_id_L ∅ (∪)).
  - rewrite IH, dom_insert_L. simpl.
    by rewrite (comm_L (∪) {[d0]} (dom m)), (assoc_L (∪)).
Qed.

Lemma zip_head (dates : list Z) serie :
  length serie = length dates → fst <$> head (zip dates serie) = head dates.
Proof. by destruct dates, serie. Qed.

Lemma zip_last (dates : list Z) serie :
  length serie = length dates →
  match last (zip dates serie) with Some o => Some o.1 | None => None end
  = last dates.
Proof.
  intros Hlen. rewrite <- (fst_zip dates serie) at 2 by lia.
  rewrite fmap_last. by destruct (last (zip dates serie)).
Qed.

(** The entry of a column without a missing value. *)
Lemma clean_column_valid algorithm dt (dates : list Z) serie :
  NoDup dates → length serie = length dates →
  Forall (fun v => PrimFloat.eqb v v = true) serie →
  ∃ m, Numpy.clean_column algorithm dt dates serie = Ok (head dates, last dates, m)
    ∧ (∀ i d v, dates !! i = Some d → serie !! i = Some v → m !! d = Some v)
    ∧ dom m = list_to_set dates.
Proof.
  intros Hnd Hlen Hvalid. unfold Numpy.clean_column.
  destruct (clean_observations_valid algorithm dt (zip dates serie)
              (mkColumnState None None None [] [] [] ∅) eq_refl)
    as (st' & -> & Hm & Hs & He & Hc).
  { apply Forall_forall. intros [d v] Hin. simpl.
    rewrite Forall_forall in Hvalid. apply Hvalid. by apply elem_of_zip_r in Hin. }
  simpl in *. rewrite clean_flush_empty by done. simpl.
  exists (cvalues st'). split_and!.
  - by rewrite Hs, He, zip_head, zip_last.
  - intros i d v Hd Hv. rewrite Hc. apply foldl_insert_lookup.
    + by rewrite fst_zip by lia.
    + apply (list_elem_of_lookup_2 _ i). by rewrite lookup_zip_with, Hd, Hv.
  - rewrite Hc, foldl_insert_dom, dom_empty_L, (left_id_L ∅ (∪)).
    by rewrite fst_zip by lia.
Qed.

Lemma clean_series_valid algorithm dt (dates : list Z) cols :
  NoDup dates →
  Forall (fun serie => length serie = length dates
                       ∧ Forall (fun v => PrimFloat.eqb v v = true) serie) cols →
  ∀ series (all_dates : gset Z),
    ∃ entries,
      Numpy.clean_series algorithm dt dates cols series all_dates
      = Ok (series ++ entries,
            match cols with
            | [] => all_dates
            | _ :: _ => all_dates ∪ list_to_set dates
            end)
      ∧ Forall2 (fun serie e =>
                   e.1 = (head dates, last dates)
                   ∧ ∀ i d v, dates !! i = Some d → serie !! i = Some v →
                       e.2 !! d = Some v) cols entries.
Proof.
  intros Hnd Hcols.
  induction Hcols as [|serie cols [Hlen Hvalid] Hcols IH]; intros series all_dates.
  - exists []. simpl. by rewrite (right_id_L [] (++)).
  - destruct (clean_column_valid algorithm dt dates serie Hnd Hlen Hvalid)
      as (m & Hcol & Hlook & Hdom).
    destruct (IH (series ++ [(head dates, last dates, m)])
                (all_dates ∪ list_to_set dates)) as (entries & Hser & Hall).
    exists ((head dates, last dates, m) :: entries). simpl.
    rewrite Hcol. simpl. rewrite Hdom, Hser. split.
    + rewrite <- (assoc_L (++)). simpl. do 2 f_equal.
      destruct cols; [done|].
      by rewrite <- (assoc_L (∪)), (idemp_L (∪)).
    + by constructor.
Qed.

End clean_valid.

(** ** [clean]: the rows *)

Section clean_rows.
Implicit Types (series : list (option Z * option Z * gmap Z float)).

Lemma clean_cross_inside dt series :
  ∀ vals cross,
    Forall2 (fun e v => ∃ s e', e.1 = (Some s, Some e')
                         ∧ (s ≤ dt ≤ e')%Z ∧ e.2 !! dt = Some v) series vals →
    Numpy.clean_cross dt series cross = Ok (Some (cross ++ vals)).
Proof.
  intros vals cross H. revert cross.
  induction H as [|[[start end_] values] v series vals (s & e' & He & Hb & Hv) H IH];
    intros cross; simpl.
  - by rewrite (right_id_L [] (++)).
  - simpl in *. injection He as -> ->.
    destruct (Z.geb_spec dt s); [|lia]. simpl.
    destruct (Z.leb_spec dt e'); [|lia].
    rewrite Hv, IH. by rewrite <- (assoc_L (++)).
Qed.

Lemma clean_rows_all series :
  ∀ dts rows cdate cdata,
    Forall2 (fun dt row => Numpy.clean_cross dt series [] = Ok (Some row)
                           ∧ row ≠ []) dts rows →
    Numpy.clean_rows series dts cdate cdata = Ok (cdate ++ dts, cdata ++ rows).
Proof.
  intros dts rows cdate cdata H. revert cdate cdata.
  induction H as [|dt row dts rows [Hcross Hne] H IH]; intros cdate cdata; simpl.
  - by rewrite !(right_id_L [] (++)).
  - rewrite Hcross. simpl. destruct row as [|x row]; [done|].
    rewrite IH. by rewrite <- !(assoc_L (++)).
Qed.

End clean_rows.

(** ** [clean] without missing values *)

(** C4, as amended: on a consistent store with at least one row and at least
    one column, in which no value is missing, [clean] returns, for any
    algorithm, a store with the keys and the value matrix of the input. *)
Theorem clean_no_missing (self : Numpy) (algorithm : option interpolation) :
  Numpy.consistent self →
  Numpy.len self ≠ 0 → 0 < Numpy.count self →
  Forall (Forall (fun v => PrimFloat.eqb v v = true)) (Numpy.values self) →
  ∃ r, Numpy.clean self algorithm = Ok r
    ∧ Numpy.dates r = Numpy.dates self
    ∧ Numpy.values r = Numpy.values self.
Proof.
  intros Hc H0 Hcols Hvalid. pose proof Hc as (Hw & Hs & Hl & Hrect & _).
  pose proof (len_values self) as Hlen.
  destruct (decide (Numpy.len self = 0)) as [|_]; [done|].
  - set (d := Numpy.dates self) in *. set (v := Numpy.values self) in *.
    set (C := Numpy.count self) in *.
    assert (Hnd : NoDup d) by by apply sorted_lt_NoDup.
    assert (Hdne : d ≠ []) by (intros E; rewrite E in Hl; simpl in Hl; lia).
    destruct (head d) as [d0|] eqn:Hhead; [|by apply head_None in Hhead].
    destruct (last d) as [dl|] eqn:Hlast; [|by apply last_None in Hlast].
    rewrite Forall_forall in Hrect. rewrite Forall_forall in Hvalid.
    set (cols := (fun c => column nan c v) <$> seq 0 C).
    assert (Hcolsv : Forall (fun serie => length serie = length d
                ∧ Forall (fun x => PrimFloat.eqb x x = true) serie) cols).
    { apply Forall_fmap, Forall_forall. intros c Hcin. simpl.
      apply elem_of_seq in Hcin. unfold column.
      split; [by rewrite length_fmap|].
      apply Forall_fmap, Forall_forall. intros row Hrow. simpl.
      specialize (Hrect _ Hrow). specialize (Hvalid _ Hrow). simpl in Hrect.
      rewrite Forall_forall in Hvalid. apply Hvalid.
      destruct (lookup_lt_is_Some_2 row c) as [x Hx]; [lia|].
      rewrite (nth_lookup_Some _ _ _ _ Hx). by eapply list_elem_of_lookup_2. }
    destruct (clean_series_valid algorithm None d cols Hnd Hcolsv [] ∅)
      as (entries & Hser & Hent).
    assert (Hlent : length entries = C).
    { apply Forall2_length in Hent. rewrite <- Hent. unfold cols.
      by rewrite length_fmap, length_seq. }
    assert (match cols with [] => (∅ : gset Z) | _ :: _ => ∅ ∪ list_to_set d end
            = list_to_set d) as Hall.
    { unfold cols. destruct C; [lia|]. simpl. by rewrite (left_id_L ∅ (∪)). }
    rewrite Hall in Hser. simpl in Hser.
    unfold Numpy.clean. rewrite series_columns, series_end_rows by done.
    fold d v C cols. rewrite Hser. simpl.
    rewrite sorted_elements by done.
    rewrite (clean_rows_all entries d v).
    + simpl. unfold Numpy.clone. simpl. rewrite make_nonempty by done.
      eexists. split; [done|]. by rewrite dates_mk, values_mk.
    + apply Forall2_same_length_lookup_2; [lia|].
      intros i dt row Hdt Hrow.
      assert (Hrowin : row ∈ v) by by eapply list_elem_of_lookup_2.
      pose proof (Hrect _ Hrowin) as Hwidth. simpl in Hwidth. fold C in Hwidth.
      split; [|intros ->; simpl in Hwidth; lia].
      rewrite (clean_cross_inside dt entries row []); [done|].
      apply Forall2_same_length_lookup_2; [lia|].
      intros c e x He Hx.
      assert (Hc' : c < C) by (apply lookup_lt_Some in Hx; lia).
      destruct (Forall2_lookup_r _ _ _ _ _ Hent He) as (serie & Hserie & He1 & He2).
      unfold cols in Hserie. rewrite list_lookup_fmap, lookup_seq_lt in Hserie by done.
      simpl in Hserie. injection Hserie as <-.
      rewrite Hhead, Hlast in He1.
      exists d0, dl. split_and!; [done| | |].
      * apply (sorted_head_le d); [done..|]. by eapply list_elem_of_lookup_2.
      * apply (sorted_last_le d); [done..|]. by eapply list_elem_of_lookup_2.
      * apply (He2 i); [done|]. unfold column.
        rewrite list_lookup_fmap, Hrow. simpl.
        by rewrite (nth_lookup_Some _ _ _ _ Hx).
Qed.

Lemma clean_no_missing_witness :
  ∃ r, Numpy.clean Sample.three_rows (Some Sample.echo) = Ok r
    ∧ Numpy.dates r = [1; 2; 3]%Z
    ∧ Numpy.values r = [[1]; [2]; [4]]%float.
Proof.
  apply (clean_no_missing Sample.three_rows (Some Sample.echo)).
  - concrete_consistent.
  - vm_compute. lia.
  - vm_compute. lia.
  - repeat constructor.
Defined.

(** C4 as stated fails on a store with rows and no column: it is consistent,
    none of its values is missing, and [clean] returns the empty store, the
    keys being collected from the columns. *)
Lemma clean_no_columns_drops_keys :
  Numpy.consistent Sample.no_columns
  ∧ Forall (Forall (fun v => PrimFloat.eqb v v = true)) (Numpy.values Sample.no_columns)
  ∧ Numpy.dates Sample.no_columns = [1; 2]%Z
  ∧ Numpy.clean Sample.no_columns (Some Sample.echo) = Ok (mkNumpy None None [])
  ∧ ¬ (∃ r, Numpy.clean Sample.no_columns (Some Sample.echo) = Ok r
         ∧ Numpy.dates r = Numpy.dates Sample.no_columns
         ∧ Numpy.values r = Numpy.values Sample.no_columns).
Proof.
  assert (H : Numpy.clean Sample.no_columns (Some Sample.echo)
              = Ok (mkNumpy None None [])) by (vm_compute; reflexivity).
  split_and!; [concrete_consistent | repeat constructor | reflexivity | exact H |].
  intros (r & Hr & Hd & _). rewrite H in Hr. injection Hr as <-.
  vm_compute in Hd. discriminate Hd.
Qed.

(** ** [clean] with a column of missing values only *)

(** C8: the claim does not hold of the code for every algorithm.  The store
    has two rows, its first column is missing throughout, and its second
    column has a missing value after a valid one: with an algorithm, [clean]
    stops with [UnboundLocalError] where it should buffer that value, and
    returns no store.  Without an algorithm it returns the empty store. *)
Theorem clean_missing_column_unbound :
  Numpy.len Sample.missing_column = 2
  ∧ Forall (fun v => PrimFloat.eqb v v = false)
      (column nan 0 (Numpy.values Sample.missing_column))
  ∧ Numpy.clean Sample.missing_column (Some Sample.echo) = Raise UnboundLocalError
  ∧ Numpy.clean Sample.missing_column None = Ok (mkNumpy None None []).
Proof.
  split_and!; [reflexivity | repeat constructor | vm_compute; reflexivity|].
  apply (clean_all_missing_column_default Sample.missing_column 0);
    [vm_compute; lia | vm_compute; lia | repeat constructor].
Qed.

(** ** [merge] *)

Section merge.
Implicit Types (self a b : Numpy) (hash : gmap Z (list float)).
Implicit Types (fill : float) (fills : list float).

Lemma ashash_lookup self k row :
  Numpy.consistent self →
  Numpy.ashash self !! k = Some row ↔ Numpy.row_at self k row.
Proof.
  intros (_ & Hs & Hl & _). unfold Numpy.ashash, Numpy.row_at.
  rewrite <- elem_of_list_to_map.
  - rewrite list_elem_of_lookup. apply exist_proper. intros i.
    rewrite lookup_zip_with_Some. split.
    + intros (x & y & [= -> ->] & Hx & Hy). done.
    + intros [Hx Hy]. by exists k, row.
  - rewrite fst_zip by lia. by apply sorted_lt_NoDup.
Qed.

Lemma ashash_dom self :
  Numpy.consistent self →
  dom (Numpy.ashash self) = list_to_set (Numpy.dates self).
Proof.
  intros (_ & _ & Hl & _). unfold Numpy.ashash.
  rewrite dom_list_to_map_L. by rewrite fst_zip by lia.
Qed.

(** With numpy 1.24 or later the loop over [alldates] stops at its first
    date, [np.hstack] refusing the generator. *)
Lemma merge_rows_refused fills others hash (dts : list Z) :
  Numpy.merge_rows numpy_1_24 fills others hash dts
  = match dts with [] => Ok hash | _ :: _ => Raise TypeError end.
Proof. by destruct dts. Qed.

(** With an earlier numpy it writes every date. *)
Lemma merge_rows_stacked fills others (dts : list Z) :
  ∀ hash,
    Numpy.merge_rows numpy_before_1_24 fills others hash dts
    = Ok (foldl (fun hash dt =>
                   <[dt := concat (Numpy.mdt_arrays fills others hash dt)]> hash)
            hash dts).
Proof. induction dts as [|dt dts IH]; intros hash; simpl; [done | apply IH]. Qed.

(** The dates that [merge] collects. *)
Lemma merge_alldates (tserie : list Numpy) :
  ∀ (acc : gset Z) k,
    k ∈ foldl (fun acc ts => acc ∪ list_to_set (Numpy.dates ts)) acc tserie
    ↔ k ∈ acc ∨ Exists (fun ts => k ∈ Numpy.dates ts) tserie.
Proof.
  induction tserie as [|ts tserie IH]; intros acc k; simpl.
  - rewrite Exists_nil. tauto.
  - rewrite IH, Exists_cons, elem_of_union, elem_of_list_to_set. tauto.
Qed.

(** The loop over [alldates] writes each date once, from the entry that the
    hash held for it at the start. *)
Lemma merge_loop fills others (dts : list Z) :
  NoDup dts →
  ∀ hash k,
    foldl (fun hash dt =>
             <[dt := concat (Numpy.mdt_arrays fills others hash dt)]> hash)
      hash dts !! k
    = if decide (k ∈ dts)
      then Some (concat (Numpy.mdt_arrays fills others hash k))
      else hash !! k.
Proof.
  induction 1 as [|dt dts Hdt Hnd IH]; intros hash k; simpl.
  - destruct (decide (k ∈ [])) as [Hin|]; [by apply elem_of_nil in Hin | done].
  - rewrite IH. destruct (decide (k = dt)) as [->|Hne].
    + destruct (decide (dt ∈ dts)); [done|].
      destruct (decide (dt ∈ dt :: dts)) as [|Hn]; [|by destruct Hn; left].
      apply lookup_insert_eq.
    + destruct (decide (k ∈ dts)) as [Hin|Hin].
      * destruct (decide (k ∈ dt :: dts)) as [|Hn]; [|by destruct Hn; right].
        unfold Numpy.mdt_arrays. by rewrite lookup_insert_ne.
      * destruct (decide (k ∈ dt :: dts)) as [Hin'|];
          [by apply elem_of_cons in Hin' as [?|?] | by rewrite lookup_insert_ne].
Qed.

Lemma getts_dates hash :
  Numpy.dates (Numpy.getts hash) = merge_sort Z.le (elements (dom hash)).
Proof.
  unfold Numpy.getts, Numpy.make. rewrite fmap_dateinverse.
  destruct (decide _) as [H0|]; [|done].
  by apply nil_length_inv in H0.
Qed.

Lemma getts_values hash :
  Numpy.values (Numpy.getts hash)
  = (fun k => default [] (hash !! k)) <$> merge_sort Z.le (elements (dom hash)).
Proof.
  unfold Numpy.getts, Numpy.make. rewrite fmap_dateinverse.
  destruct (decide _) as [H0|]; [|done].
  apply nil_length_inv in H0. by rewrite H0.
Qed.

Lemma sorted_le_NoDup_lt (l : list Z) :
  StronglySorted Z.le l → NoDup l → StronglySorted Z.lt l.
Proof.
  induction 1 as [|x l Hl IH Hx]; intros Hnd; [constructor|].
  apply NoDup_cons in Hnd as [Hnin Hnd]. constructor; [by apply IH|].
  rewrite Forall_forall in Hx. apply Forall_forall. intros y Hy.
  specialize (Hx _ Hy). assert (x ≠ y) by (by intros ->). lia.
Qed.

Lemma getts_row hash k row :
  hash !! k = Some row →
  Numpy.row_at (Numpy.getts hash) k row.
Proof.
  intros Hk. unfold Numpy.row_at. rewrite getts_dates, getts_values.
  assert (k ∈ merge_sort Z.le (elements (dom hash))) as Hin.
  { rewrite merge_sort_Permutation. apply elem_of_elements, elem_of_dom. by eexists. }
  apply list_elem_of_lookup in Hin as [i Hi]. exists i. split; [done|].
  by rewrite list_lookup_fmap, Hi; simpl; rewrite Hk.
Qed.

End merge.

(** [merge] with numpy 1.24 or later: [TypeError] as soon as a store has a
    key, the hash of [self] as a store otherwise. *)
Lemma merge_refused (self : Numpy) (tserie : list Numpy) (fill : float) :
  (Numpy.dates self ≠ [] ∨ Exists (fun ts => Numpy.dates ts ≠ []) tserie →
   Numpy.merge numpy_1_24 self tserie fill = Raise TypeError)
  ∧ (Numpy.dates self = [] → Forall (fun ts => Numpy.dates ts = []) tserie →
     Numpy.merge numpy_1_24 self tserie fill = Ok (Numpy.getts (Numpy.ashash self))).
Proof.
  unfold Numpy.merge. rewrite merge_rows_refused.
  set (alldates := foldl _ _ tserie).
  split.
  - intros Hkey.
    assert (∃ k, k ∈ alldates) as [k Hk].
    { destruct Hkey as [Hself|Hts].
      - destruct (Numpy.dates self) as [|k l] eqn:Hd; [done|].
        exists k. apply merge_alldates. left. apply elem_of_list_to_set. by left.
      - apply Exists_exists in Hts as (ts & Hin & Hd).
        destruct (Numpy.dates ts) as [|k l] eqn:Hdts; [done|].
        exists k. apply merge_alldates. right. apply Exists_exists.
        exists ts. split; [done|]. rewrite Hdts. by left. }
    apply elem_of_elements in Hk.
    by destruct (elements alldates); [apply elem_of_nil in Hk|].
  - intros Hself Hts.
    assert (alldates = ∅) as ->; [|by rewrite elements_empty].
    apply set_eq. intros k.
    rewrite elem_of_empty. split; [|done]. intros Hk.
    apply merge_alldates in Hk as [Hk|Hk].
    + rewrite Hself in Hk. by apply elem_of_list_to_set, elem_of_nil in Hk.
    + apply Exists_exists in Hk as (ts & Hin & Hk).
      rewrite Forall_forall in Hts. rewrite (Hts ts Hin) in Hk.
      by apply elem_of_nil in Hk.
Qed.

(** C6: the claim does not hold of the code on numpy 1.24 or later.  [mdt]
    hands [np.hstack] a generator, which these releases refuse: for every two
    stores of which one has a key, [a.merge([b], fill)] stops with
    [TypeError] at the first key and returns no store. *)
Theorem merge_generator_refused (a b : Numpy) (fill : float) :
  Numpy.dates a ≠ [] ∨ Numpy.dates b ≠ [] →
  Numpy.merge numpy_1_24 a [b] fill = Raise TypeError
  ∧ ∀ r, Numpy.merge numpy_1_24 a [b] fill ≠ Ok r.
Proof.
  intros Hkey.
  assert (Numpy.merge numpy_1_24 a [b] fill = Raise TypeError) as ->; [|done].
  apply merge_refused. destruct Hkey as [?|?]; [by left | right; by left].
Qed.

Lemma merge_generator_refused_witness :
  Numpy.merge numpy_1_24 Sample.three_rows [Sample.two_rows] nan = Raise TypeError.
Proof.
  apply (merge_generator_refused Sample.three_rows Sample.two_rows nan).
  left. discriminate.
Defined.

(** With a numpy before 1.24: for two consistent stores [a] and [b] without a
    common key, [a.merge([b], fill)] has [len(a) + len(b)] rows; its keys are
    strictly increasing and are the keys of [a] and those of [b]; the row at
    a key of [a] is the row of [a] followed by [fill] in each column of [b],
    and the row at a key of [b] is [fill] in each column of [a] followed by
    the row of [b]. *)
Lemma merge_fill_law (a b : Numpy) (fill : float) :
  Numpy.consistent a → Numpy.consistent b →
  (∀ k, k ∈ Numpy.dates a → k ∉ Numpy.dates b) →
  ∃ r, Numpy.merge numpy_before_1_24 a [b] fill = Ok r ∧
  Numpy.len r = Numpy.len a + Numpy.len b
  ∧ StronglySorted Z.lt (Numpy.dates r)
  ∧ (∀ k, k ∈ Numpy.dates r ↔ k ∈ Numpy.dates a ∨ k ∈ Numpy.dates b)
  ∧ (∀ k row, Numpy.row_at a k row →
       Numpy.row_at r k (row ++ replicate (Numpy.count b) fill))
  ∧ (∀ k row, Numpy.row_at b k row →
       Numpy.row_at r k (replicate (Numpy.count a) fill ++ row)).
Proof.
  intros Ha Hb Hdisj.
  pose proof Ha as (_ & Hsa & Hla & _). pose proof Hb as (_ & Hsb & Hlb & _).
  set (A := list_to_set (Numpy.dates a) : gset Z).
  set (B := list_to_set (Numpy.dates b) : gset Z).
  set (fa := replicate (Numpy.count a) fill).
  set (fb := replicate (Numpy.count b) fill).
  set (others := [(Numpy.ashash b, fb)]).
  set (final := foldl (fun hash dt =>
                         <[dt := concat (Numpy.mdt_arrays fa others hash dt)]> hash)
                  (Numpy.ashash a) (elements (A ∪ B))).
  exists (Numpy.getts final). split.
  { unfold Numpy.merge. by rewrite merge_rows_stacked. }
  set (r := Numpy.getts final).
  assert (Hr : r = Numpy.getts final) by reflexivity.
  assert (Hfinal : ∀ k, final !! k
            = if decide (k ∈ A ∪ B)
              then Some (default fa (Numpy.ashash a !! k)
                           ++ default fb (Numpy.ashash b !! k))
              else None).
  { intros k. unfold final. rewrite merge_loop by apply NoDup_elements.
    destruct (decide (k ∈ elements (A ∪ B))) as [Hin|Hin];
      rewrite elem_of_elements in Hin.
    - destruct (decide (k ∈ A ∪ B)); [|done].
      unfold Numpy.mdt_arrays, others. simpl. by rewrite (right_id_L [] (++)).
    - destruct (decide (k ∈ A ∪ B)); [done|].
      apply not_elem_of_dom. rewrite ashash_dom by done. fold A.
      intros HA. apply Hin, elem_of_union. by left. }
  assert (Hdom : dom final = A ∪ B).
  { apply set_eq. intros k. rewrite elem_of_dom, Hfinal.
    destruct (decide (k ∈ A ∪ B)) as [Hin|Hin].
    - split; [done | by eexists].
    - split; [by intros [? ?] | done]. }
  assert (Hperm : Numpy.dates r ≡ₚ elements (A ∪ B)).
  { rewrite Hr, getts_dates, Hdom. apply merge_sort_Permutation. }
  assert (Hmem : ∀ k, k ∈ Numpy.dates r ↔ k ∈ Numpy.dates a ∨ k ∈ Numpy.dates b).
  { intros k. rewrite Hperm, elem_of_elements, elem_of_union.
    unfold A, B. by rewrite !elem_of_list_to_set. }
  split_and!.
  - rewrite len_values, Hr, getts_values, length_fmap, Hdom.
    rewrite (Permutation_length (merge_sort_Permutation _ _)).
    change (length (elements (A ∪ B))) with (size (A ∪ B)).
    rewrite size_union.
    + unfold A, B. rewrite !size_list_to_set by (by apply sorted_lt_NoDup).
      rewrite !len_values. lia.
    + apply elem_of_disjoint. intros k HA HB. unfold A, B in *.
      rewrite elem_of_list_to_set in HA, HB. by apply (Hdisj k).
  - apply sorted_le_NoDup_lt.
    + rewrite Hr, getts_dates. apply StronglySorted_merge_sort; apply _.
    + rewrite Hperm. apply NoDup_elements.
  - exact Hmem.
  - intros k row Hrow. rewrite Hr. apply getts_row. rewrite Hfinal.
    assert (k ∈ Numpy.dates a) as Hk.
    { destruct Hrow as (i & Hi & _). by eapply list_elem_of_lookup_2. }
    destruct (decide (k ∈ A ∪ B)) as [_|Hn].
    + apply ashash_lookup in Hrow; [|done]. rewrite Hrow. simpl.
      assert (Numpy.ashash b !! k = None) as ->; [|done].
      apply not_elem_of_dom. rewrite ashash_dom by done.
      rewrite elem_of_list_to_set. by apply Hdisj.
    + destruct Hn. apply elem_of_union. left. by apply elem_of_list_to_set.
  - intros k row Hrow. rewrite Hr. apply getts_row. rewrite Hfinal.
    assert (k ∈ Numpy.dates b) as Hk.
    { destruct Hrow as (i & Hi & _). by eapply list_elem_of_lookup_2. }
    destruct (decide (k ∈ A ∪ B)) as [_|Hn].
    + apply ashash_lookup in Hrow; [|done]. rewrite Hrow. simpl.
      assert (Numpy.ashash a !! k = None) as ->; [|done].
      apply not_elem_of_dom. rewrite ashash_dom by done.
      rewrite elem_of_list_to_set. intros Hka. by apply (Hdisj k).
    + destruct Hn. apply elem_of_union. right. by apply elem_of_list_to_set.
Qed.

Lemma merge_fill_law_sample :
  ∃ r, Numpy.merge numpy_before_1_24 Sample.three_rows [Sample.two_rows] nan = Ok r
  ∧ Numpy.len r = 5
  ∧ StronglySorted Z.lt (Numpy.dates r)
  ∧ Numpy.row_at r 2 [2%float; nan]
  ∧ Numpy.row_at r 5 [nan; 20%float].
Proof.
  destruct (merge_fill_law Sample.three_rows Sample.two_rows nan)
    as (r & Hr & Hlen & Hs & _ & Ha & Hb).
  - concrete_consistent.
  - concrete_consistent.
  - intros k Hk Hk'.
    change (Numpy.dates Sample.three_rows) with [1; 2; 3]%Z in Hk.
    change (Numpy.dates Sample.two_rows) with [0; 5]%Z in Hk'.
    rewrite !elem_of_cons, elem_of_nil in Hk.
    rewrite !elem_of_cons, elem_of_nil in Hk'. lia.
  - exists r. split_and!; [exact Hr | exact Hlen | exact Hs | |].
    + apply (Ha 2%Z [2%float]). by exists 1.
    + apply (Hb 5%Z [20%float]). by exists 1.
Qed.

(** * Further properties of the store *)

(** ** [insert]: the invariant, growth, rows that do not fit *)

Section insert_more.
Implicit Types (self : Numpy) (row : list float) (dte key : Z).


(** [insert] on a store with rows, up to the assignment of the row: a key of
    the store is overwritten at its index; another key opens a new entry at
    the index that [rank] encodes, when numpy resizes the arrays, and stops
    the call with [ValueError] when it does not. *)
Lemma insert_nonempty owned self dte row :
  Numpy.consistent self → Numpy.len self ≠ 0 → length row ≠ 0 →
  ∃ j : nat,
    j ≤ length (Numpy.dates self)
    ∧ ((Numpy.dates self !! j = Some dte
        ∧ Numpy.insert owned self dte row
          = rbind (setrow (Numpy.count self) row) (fun row' =>
              Ok (mkNumpy (Some (Numpy.dates self))
                    (Some (<[j:=row']> (Numpy.values self)))
                    (Numpy.dates self))))
       ∨ ((dte ∉ Numpy.dates self)
          ∧ Skiplist.insert dte (Numpy.dates self)
            = take j (Numpy.dates self) ++ dte :: drop j (Numpy.dates self)
          ∧ Numpy.insert owned self dte row
            = if owned then
                rbind (setrow (Numpy.count self) row) (fun row' =>
                  Ok (mkNumpy
                        (Some (take j (Numpy.dates self) ++ dte :: drop j (Numpy.dates self)))
                        (Some (take j (Numpy.values self) ++ row' :: drop j (Numpy.values self)))
                        (take j (Numpy.dates self) ++ dte :: drop j (Numpy.dates self))))
              else Raise ValueError)).
Proof.
  intros (Hw & Hs & Hl & Hrows & Hskl) Hlen Hrow.
  destruct (well_shaped_arrays self Hw Hlen) as [Hdate Hdata].
  pose proof (rank_from_absent dte (Numpy.dates self) 0) as Habs.
  pose proof (rank_from_found dte (Numpy.dates self) 0) as Hfnd.
  pose proof (rank_from_present dte (Numpy.dates self) 0 Hs) as Hpres.
  fold (Skiplist.rank dte (Numpy.dates self)) in Habs, Hfnd, Hpres.
  unfold Numpy.insert, Numpy.dateconvert.
  destruct (decide (length row = 0)); [done|].
  destruct (decide (Numpy.len self = 0)); [done|].
  rewrite Hdate, Hdata, Hskl.
  destruct (Z.ltb_spec (Skiplist.rank dte (Numpy.dates self)) 0) as [Hneg|Hpos].
  - destruct (Habs _ eq_refl) as (j & Hj & Hjl & Hins); [lia..|].
    exists j. split; [done|]. right.
    split; [intros Hin; specialize (Hpres Hin); lia|]. split; [done|].
    replace (Z.to_nat (-1 - Skiplist.rank dte (Numpy.dates self))) with j by lia.
    destruct owned; [|done]. unfold resize. cbn [rbind].
    destruct (decide (j < length (Numpy.values self))) as [Hlt|Hge].
    + rewrite !shift_up by lia. simpl.
      rewrite !setitem_shifted by lia. simpl.
      destruct (setrow (Numpy.count self) row) as [row'|e]; simpl; [|done].
      rewrite !setitem_shifted by lia. simpl. by rewrite Hins.
    + simpl. rewrite !setitem_resized by lia. simpl.
      destruct (setrow (Numpy.count self) row) as [row'|e]; simpl; [|done].
      rewrite !setitem_resized by lia. simpl. by rewrite Hins.
  - destruct (Hfnd _ eq_refl) as (j & Hj & Hjl & Hins); [lia..|].
    pose proof (lookup_lt_Some _ _ _ Hjl) as Hlt.
    exists j. split; [lia|]. left. split; [done|].
    replace (Z.to_nat (Skiplist.rank dte (Numpy.dates self))) with j by lia.
    simpl. rewrite setitem_inside by done. simpl.
    destruct (setrow (Numpy.count self) row) as [row'|e]; simpl; [|done].
    rewrite setitem_inside by lia. simpl.
    by rewrite list_insert_id, Hins.
Qed.

(** X1: [insert] keeps the data model, where numpy lets it grow the arrays.
    On a consistent store, with a row that is not empty and has the width of
    the matrix when the store has rows: when the store is empty, or the key
    is in the store, or numpy resizes the arrays in place, [insert] returns
    a consistent store (keys strictly increasing, one row per key, rows of
    one width, the ordered index over the same keys); for a new key of a
    store with rows whose arrays numpy does not resize (shared with a clone,
    or a view) it raises [ValueError]. *)
Theorem insert_consistent (owned : bool) self dte row :
  Numpy.consistent self → length row ≠ 0 →
  (Numpy.len self ≠ 0 → Numpy.count self = length row) →
  (owned = true ∨ Numpy.len self = 0 ∨ dte ∈ Numpy.dates self →
   ∃ self', Numpy.insert owned self dte row = Ok self'
     ∧ Numpy.consistent self'
     ∧ Numpy.count self' = length row
     ∧ _skl self' = Numpy.dates self')
  ∧ (owned = false → Numpy.len self ≠ 0 → dte ∉ Numpy.dates self →
     Numpy.insert owned self dte row = Raise ValueError).
Proof.
  intros Hc Hrow Hcount. split.
  - intros Hown.
    destruct (insert_spec owned self dte row (length row) Hc eq_refl Hrow Hcount Hown)
      as (s' & Hins & Hc' & Hcnt & _).
    exists s'. split_and!; try done. by destruct Hc' as (_ & _ & _ & _ & Hskl).
  - intros -> Hlen Hnin.
    destruct (insert_nonempty false self dte row Hc Hlen Hrow)
      as (j & _ & [(Hj & _)|(_ & _ & ->)]); [|done].
    destruct Hnin. by eapply list_elem_of_lookup_2.
Qed.

Lemma insert_consistent_witness :
  (∃ self', Numpy.insert true Sample.three_rows 5 [9%float] = Ok self'
     ∧ Numpy.consistent self' ∧ Numpy.dates self' = [1; 2; 3; 5]%Z)
  ∧ Numpy.insert false Sample.three_rows 5 [9%float] = Raise ValueError.
Proof.
  split.
  - destruct (insert_consistent true Sample.three_rows 5 [9%float]) as [H _].
    + concrete_consistent.
    + simpl. lia.
    + reflexivity.
    + destruct H as (s' & Hins & Hc & _); [by left|].
      exists s'. split_and!; [done | done |].
      vm_compute in Hins. by injection Hins as <-.
  - destruct (insert_consistent false Sample.three_rows 5 [9%float]) as [_ H].
    + concrete_consistent.
    + simpl. lia.
    + reflexivity.
    + apply H; [done | vm_compute; lia |].
      change (Numpy.dates Sample.three_rows) with [1; 2; 3]%Z.
      rewrite !elem_of_cons, elem_of_nil. lia.
Defined.



(** X3: a row whose length is neither the width of the matrix nor 1 does not
    fit: on a consistent store with rows, [insert] raises [ValueError]. *)
Theorem insert_wrong_width (owned : bool) self dte row :
  Numpy.consistent self → Numpy.len self ≠ 0 →
  length row ≠ 0 → length row ≠ 1 → length row ≠ Numpy.count self →
  Numpy.insert owned self dte row = Raise ValueError.
Proof.
  intros Hc Hlen H0 H1 Hw.
  assert (setrow (Numpy.count self) row = Raise ValueError) as Hset.
  { unfold setrow. destruct (decide _); [done|]. by destruct row as [|x [|y row]]. }
  destruct (insert_nonempty owned self dte row Hc Hlen H0)
    as (j & _ & [(_ & ->)|(_ & _ & ->)]); [by rewrite Hset|].
  destruct owned; [by rewrite Hset | done].
Qed.

Lemma insert_wrong_width_witness :
  Numpy.insert true Sample.three_rows 2 [1; 2; 3]%float = Raise ValueError.
Proof.
  apply insert_wrong_width; [concrete_consistent | | | |];
    vm_compute; lia.
Defined.

(** X4: a row of one value is broadcast: on a consistent store with rows,
    for a key of the store, or for any key when numpy resizes the arrays in
    place, [insert] of [[v]] puts [v] in every column of the row of that
    key, and the store stays consistent. *)
Theorem insert_broadcast (owned : bool) self dte (v : float) :
  Numpy.consistent self → Numpy.len self ≠ 0 →
  owned = true ∨ dte ∈ Numpy.dates self →
  ∃ self', Numpy.insert owned self dte [v] = Ok self'
    ∧ Numpy.row_at self' dte (replicate (Numpy.count self) v)
    ∧ Numpy.consistent self'
    ∧ Numpy.count self' = Numpy.count self.
Proof.
  intros Hc Hlen Hown. pose proof Hc as (Hw & Hs & Hl & Hrows & Hskl).
  set (C := Numpy.count self) in *.
  assert (setrow C [v] = Ok (replicate C v)) as Hset.
  { unfold setrow. simpl. destruct (decide (1 = C)) as [<-|]; done. }
  assert (Numpy.dates self ≠ []) as Hne.
  { rewrite (consistent_len self Hc) in Hlen. by destruct (Numpy.dates self). }
  destruct (insert_nonempty owned self dte [v] Hc Hlen)
    as (j & Hjl & [(Hj & ->)|(Hnin & Hins & ->)]); [done| |];
    [|destruct Hown as [->|Hin]; [|done]];
    fold C; rewrite Hset; simpl; eexists; (split; [done|]).
  - pose proof (lookup_lt_Some _ _ _ Hj) as Hlt.
    destruct (consistent_intro (Numpy.dates self)
                (<[j:=replicate C v]> (Numpy.values self)) (Numpy.dates self) C)
      as (Hc1 & Hc2 & _); try done.
    { by rewrite length_insert. }
    { apply Forall_insert; [done | by rewrite length_replicate]. }
    split_and!; try done.
    exists j. rewrite dates_mk, values_mk. split; [done|].
    apply list_lookup_insert_eq. lia.
  - destruct (consistent_intro
                (take j (Numpy.dates self) ++ dte :: drop j (Numpy.dates self))
                (take j (Numpy.values self) ++ replicate C v :: drop j (Numpy.values self))
                (take j (Numpy.dates self) ++ dte :: drop j (Numpy.dates self)) C)
      as (Hc1 & Hc2 & _); try done.
    { intros Hnil. apply (f_equal length) in Hnil.
      rewrite length_app in Hnil. simpl in Hnil. lia. }
    { rewrite <- Hins. by apply skiplist_insert_sorted. }
    { rewrite !length_app. simpl. rewrite !length_take, !length_drop. lia. }
    { apply Forall_app. split; [by apply Forall_take|].
      constructor; [by rewrite length_replicate | by apply Forall_drop]. }
    split_and!; try done.
    exists j. rewrite dates_mk, values_mk.
    split; apply lookup_grown_at; lia.
Qed.

End insert_more.

Lemma insert_broadcast_witness :
  ∃ self', Numpy.insert false Sample.missing_column 2 [7%float] = Ok self'
    ∧ Numpy.row_at self' 2 [7; 7]%float.
Proof.
  destruct (insert_broadcast false Sample.missing_column 2 7%float)
    as (s' & Hins & Hat & _).
  - concrete_consistent.
  - vm_compute. lia.
  - right. change (Numpy.dates Sample.missing_column) with [1; 2]%Z.
    rewrite !elem_of_cons. lia.
  - by exists s'.
Defined.

(** ** [make] and [clone] *)

Section make_clone.
Implicit Types (self : Numpy) (date : list Z) (data : list (list float)).

Lemma skiplist_insert_last (acc : list Z) key :
  Forall (fun x => (x < key)%Z) acc → Skiplist.insert key acc = acc ++ [key].
Proof.
  induction 1 as [|x acc Hx Hacc IH]; simpl; [done|].
  destruct (Z.ltb_spec key x); [lia|].
  destruct (Z.eqb_spec key x); [lia|]. by rewrite IH.
Qed.

Lemma skiplist_make_sorted date :
  StronglySorted Z.lt date → Skiplist.make date = date.
Proof.
  unfold Skiplist.make. intros Hs.
  enough (∀ acc, StronglySorted Z.lt (acc ++ date) →
            foldl (fun l key => Skiplist.insert key l) acc date = acc ++ date)
    as H by (by apply (H [])).
  clear Hs. induction date as [|key date IH]; intros acc Hs; simpl.
  - by rewrite (right_id_L [] (++)).
  - rewrite skiplist_insert_last.
    + rewrite IH; rewrite <- (assoc_L (++)); done.
    + apply StronglySorted_app in Hs as (Hall & _ & _).
      apply Forall_forall. intros x Hx. apply (Hall x key); [done|]. by left.
Qed.

Lemma make_sorted date data (raw : bool) (W : nat) :
  StronglySorted Z.lt date → date ≠ [] → length data = length date →
  Forall (fun row => length row = W) data →
  Numpy.make (Some date) data raw = mkNumpy (Some date) (Some data) date
  ∧ Numpy.consistent (mkNumpy (Some date) (Some data) date)
  ∧ Numpy.count (mkNumpy (Some date) (Some data) date) = W.
Proof.
  intros Hs Hne Hl Hrows.
  rewrite make_nonempty, skiplist_make_sorted by done.
  destruct (consistent_intro date data date W) as (Hc & Hcnt & _); done.
Qed.

(** X5: [make] on strictly increasing keys, with one row per key and rows of
    one width, builds a consistent store that holds these keys and rows, with
    the index over the same keys; without keys it builds the empty store,
    whatever the data. *)
Theorem make_consistent date data (raw : bool) (W : nat) :
  (StronglySorted Z.lt date → date ≠ [] → length data = length date →
   Forall (fun row => length row = W) data →
     let self := Numpy.make (Some date) data raw in
     Numpy.consistent self
     ∧ Numpy.dates self = date ∧ Numpy.values self = data
     ∧ _skl self = date
     ∧ Numpy.len self = length date ∧ Numpy.count self = W)
  ∧ Numpy.make (Some []) data raw = mkNumpy None None []
  ∧ Numpy.make None data raw = mkNumpy None None [].
Proof.
  split_and!; [|apply make_empty|done].
  intros Hs Hne Hl Hrows self. unfold self.
  destruct (make_sorted date data raw W) as (-> & Hc & Hcnt); [done..|].
  by split_and!.
Qed.

Lemma make_consistent_witness :
  let self := Numpy.make (Some [1; 2; 3]%Z) [[1]; [2]; [4]]%float false in
  Numpy.consistent self ∧ Numpy.dates self = [1; 2; 3]%Z ∧ Numpy.count self = 1.
Proof.
  destruct (make_consistent [1; 2; 3]%Z [[1]; [2]; [4]]%float false 1) as [H _].
  destruct H as (Hc & Hd & _ & _ & _ & Hcnt).
  - repeat constructor; lia.
  - done.
  - reflexivity.
  - repeat constructor.
  - by split_and!.
Defined.

Lemma consistent_record self :
  Numpy.consistent self → Numpy.len self ≠ 0 →
  self = mkNumpy (Some (Numpy.dates self)) (Some (Numpy.values self))
           (Numpy.dates self).
Proof.
  intros (Hw & _ & _ & _ & Hskl) Hlen.
  destruct (well_shaped_arrays self Hw Hlen) as [Hdate Hdata].
  destruct self as [d v k]. simpl in *. by rewrite Hdate, Hdata, Hskl.
Qed.

Lemma consistent_empty self :
  Numpy.consistent self → Numpy.len self = 0 → self = mkNumpy None None [].
Proof.
  intros (Hw & _ & _ & _ & Hskl) Hlen.
  destruct (well_shaped_empty self Hw Hlen) as [Hdate Hdata].
  destruct self as [d v k]. unfold Numpy.dates in Hskl. simpl in *.
  by rewrite Hdate, Hdata, Hskl, Hdate.
Qed.

(** X6: [clone] of a consistent store without arguments is the store again
    (keys, values and index); with new data of as many rows and of one width
    it keeps the keys verbatim, holds the new data and is consistent. *)
Theorem clone_keeps_keys self data (W : nat) :
  Numpy.consistent self →
  Numpy.clone self None None = self
  ∧ (length data = Numpy.len self → Forall (fun row => length row = W) data →
       let c := Numpy.clone self None (Some data) in
       Numpy.dates c = Numpy.dates self ∧ Numpy.values c = data
       ∧ Numpy.consistent c).
Proof.
  intros Hc. pose proof Hc as (Hw & Hs & Hl & Hrows & Hskl).
  pose proof (consistent_len self Hc) as Hlen.
  unfold Numpy.clone, Numpy.keys. simpl.
  destruct (decide (Numpy.len self = 0)) as [H0|H0].
  - assert (Numpy.dates self = []) as Hd by (apply nil_length_inv; lia).
    rewrite Hd, make_empty. split; [symmetry; by apply consistent_empty|].
    intros Hdl _. simpl. split_and!; [done| |].
    + symmetry. apply nil_length_inv. lia.
    + unfold Numpy.consistent. simpl. split_and!; try done; constructor.
  - assert (Numpy.dates self ≠ []) as Hne.
    { intros E. rewrite E in Hlen. simpl in Hlen. lia. }
    split.
    + rewrite make_nonempty, skiplist_make_sorted by done.
      symmetry. by apply consistent_record.
    + intros Hdl Hdata.
      destruct (make_sorted (Numpy.dates self) data true W)
        as (-> & Hcc & _); [done | done | lia | done |]. done.
Qed.

End make_clone.

Lemma clone_keeps_keys_witness :
  Numpy.clone Sample.three_rows None None = Sample.three_rows
  ∧ Numpy.dates (Numpy.clone Sample.three_rows None (Some [[5]; [6]; [7]]%float))
    = [1; 2; 3]%Z.
Proof.
  destruct (clone_keeps_keys Sample.three_rows [[5]; [6]; [7]]%float 1)
    as [H1 H2].
  - concrete_consistent.
  - split; [exact H1|].
    destruct H2 as (Hd & _); [reflexivity | repeat constructor |]. exact Hd.
Defined.

(** ** Ordered views, [start] and [end] *)

(** X7: on a consistent store the descending views are the ascending ones
    reversed: [dates(desc=True)] is strictly decreasing and a key is paired
    with a row in the descending views exactly when it holds that row. *)
Theorem desc_views (self : Numpy) :
  Numpy.consistent self →
  Numpy.dates_desc self false = Numpy.dates self
  ∧ Numpy.values_desc self false = Numpy.values self
  ∧ StronglySorted (flip Z.lt) (Numpy.dates_desc self true)
  ∧ (∀ k row,
       Numpy.row_at self k row
       ↔ ∃ i, Numpy.dates_desc self true !! i = Some k
              ∧ Numpy.values_desc self true !! i = Some row).
Proof.
  intros (Hw & Hs & Hl & _).
  assert (Numpy.dates_desc self true = reverse (Numpy.dates self)) as Hd.
  { unfold Numpy.dates_desc, Numpy.dates. by destruct (_date self). }
  assert (Numpy.values_desc self true = reverse (Numpy.values self)) as Hv.
  { unfold Numpy.values_desc, Numpy.values. by destruct (_data self). }
  split_and!.
  - unfold Numpy.dates_desc, Numpy.dates. by destruct (_date self).
  - unfold Numpy.values_desc, Numpy.values. by destruct (_data self).
  - rewrite Hd. clear -Hs. induction Hs as [|x l Hl IH Hx]; [constructor|].
    rewrite reverse_cons. apply StronglySorted_app. split_and!.
    + intros a b Ha Hb. apply list_elem_of_singleton in Hb as ->.
      rewrite elem_of_reverse in Ha. rewrite Forall_forall in Hx.
      unfold flip. by apply Hx.
    + done.
    + repeat constructor.
  - intros k row. rewrite Hd, Hv. unfold Numpy.row_at. split.
    + intros (i & Hi & Hr). pose proof (lookup_lt_Some _ _ _ Hi) as Hlt.
      exists (length (Numpy.dates self) - S i).
      rewrite !reverse_lookup by lia.
      rewrite Hl. replace (length (Numpy.dates self) - S (length (Numpy.dates self) - S i))
        with i by lia. done.
    + intros (i & Hi & Hr).
      assert (i < length (Numpy.dates self)) as Hlt.
      { apply lookup_lt_Some in Hi. by rewrite length_reverse in Hi. }
      rewrite reverse_lookup in Hi by lia. rewrite reverse_lookup in Hr by lia.
      rewrite Hl in Hr. by eexists.
Qed.

Lemma desc_views_witness :
  StronglySorted (flip Z.lt) (Numpy.dates_desc Sample.three_rows true)
  ∧ ∃ i, Numpy.dates_desc Sample.three_rows true !! i = Some 3%Z
         ∧ Numpy.values_desc Sample.three_rows true !! i = Some [4%float].
Proof.
  destruct (desc_views Sample.three_rows) as (_ & _ & Hs & Hrow).
  - concrete_consistent.
  - split; [exact Hs|]. apply Hrow. by exists 2.
Defined.

(** X8: on a consistent store with rows, [start] and [end] return keys of
    the store, and every key lies between them; on a store without rows both
    return [None]. *)
Theorem start_end_bounds (self : Numpy) :
  Numpy.consistent self →
  (Numpy.len self ≠ 0 →
     ∃ d0 dl, Numpy.start self = Ok (Some d0) ∧ Numpy.end_ self = Ok (Some dl)
       ∧ d0 ∈ Numpy.dates self ∧ dl ∈ Numpy.dates self
       ∧ ∀ k, k ∈ Numpy.dates self → (d0 ≤ k ≤ dl)%Z)
  ∧ (Numpy.len self = 0 →
       Numpy.start self = Ok None ∧ Numpy.end_ self = Ok None).
Proof.
  intros Hc. pose proof Hc as (Hw & Hs & Hl & _). split.
  - intros Hlen. destruct (well_shaped_arrays self Hw Hlen) as [Hdate _].
    assert (Numpy.dates self ≠ []) as Hne.
    { rewrite (consistent_len self Hc) in Hlen. by destruct (Numpy.dates self). }
    destruct (head (Numpy.dates self)) as [d0|] eqn:Hh; [|by apply head_None in Hh].
    destruct (last (Numpy.dates self)) as [dl|] eqn:Hla; [|by apply last_None in Hla].
    exists d0, dl. unfold Numpy.start, Numpy.end_.
    destruct (decide (Numpy.len self = 0)); [done|].
    rewrite Hdate, Hh, Hla. split_and!; try done.
    + by apply head_Some_elem_of.
    + by apply last_Some_elem_of.
    + intros k Hk. split;
        [by apply (sorted_head_le (Numpy.dates self)) |
         by apply (sorted_last_le (Numpy.dates self))].
  - intros Hlen. unfold Numpy.start, Numpy.end_.
    by destruct (decide (Numpy.len self = 0)).
Qed.

Lemma start_end_bounds_witness :
  ∃ d0 dl, Numpy.start Sample.three_rows = Ok (Some d0)
    ∧ Numpy.end_ Sample.three_rows = Ok (Some dl)
    ∧ (d0 ≤ 2 ≤ dl)%Z.
Proof.
  destruct (start_end_bounds Sample.three_rows) as [H _].
  - concrete_consistent.
  - destruct H as (d0 & dl & Hs & He & _ & _ & Hb).
    + vm_compute. lia.
    + exists d0, dl. split_and!; [done | done | |]; apply (Hb 2%Z);
        change (Numpy.dates Sample.three_rows) with [1; 2; 3]%Z;
        rewrite !elem_of_cons; tauto.
Defined.

(** ** [isregular] *)

Lemma isregular_loop_spec (dt : Z) (dates : list Z) :
  ∀ d1, Numpy.isregular_loop dt d1 dates = true
        ↔ ∀ (i : nat) d, dates !! i = Some d → d = (d1 + (Z.of_nat i + 1) * dt)%Z.
Proof.
  induction dates as [|d2 dates IH]; intros d1; simpl.
  - split; [intros _ i d Hi; done | done].
  - destruct (Z.eqb_spec (d2 - d1) dt) as [Heq|Hne].
    + rewrite IH. split.
      * intros H [|i] d Hi; simpl in Hi.
        -- injection Hi as <-. lia.
        -- specialize (H i d Hi). lia.
      * intros H i d Hi. specialize (H (S i) d Hi). lia.
    + split; [done|]. intros H. specialize (H 0%nat d2 eq_refl). lia.
Qed.

(** X9: [isregular] ends with [StopIteration] on a store of fewer than two
    keys; on two keys or more it returns [True] exactly when the keys are an
    arithmetic progression: the key at index [i] is the first key plus [i]
    times the difference of the first two. *)
Theorem isregular_spec (self : Numpy) :
  (length (Numpy.dates self) < 2 → Numpy.isregular self = inl StopIteration)
  ∧ (∀ d0 d1 rest, Numpy.dates self = d0 :: d1 :: rest →
       ∃ b, Numpy.isregular self = inr b
         ∧ (b = true
            ↔ ∀ (i : nat) d, Numpy.dates self !! i = Some d →
                d = (d0 + Z.of_nat i * (d1 - d0))%Z)).
Proof.
  unfold Numpy.isregular. split.
  - intros Hlen. destruct (Numpy.dates self) as [|d0 [|d1 rest]]; simpl in *; try done; lia.
  - intros d0 d1 rest ->. eexists. split; [done|].
    rewrite isregular_loop_spec. split.
    + intros H [|[|i]] d Hi; simpl in Hi.
      * injection Hi as <-. lia.
      * injection Hi as <-. lia.
      * specialize (H i d Hi). lia.
    + intros H i d Hi. specialize (H (S (S i)) d Hi). lia.
Qed.

Lemma isregular_spec_witness :
  Numpy.isregular Sample.empty = inl StopIteration
  ∧ ∃ b, Numpy.isregular Sample.three_rows = inr b.
Proof.
  destruct (isregular_spec Sample.empty) as [H0 _].
  destruct (isregular_spec Sample.three_rows) as [_ H2].
  split.
  - apply H0. vm_compute. lia.
  - destruct (H2 1%Z 2%Z [3%Z] eq_refl) as (b & Hb & _). by exists b.
Defined.

(** ** [delta2], [square] and [sqrt] *)

(** X10: [delta2] reads the bounds error as [dynts.DyntsOutOfBound], and
    [np.py] binds no name [dynts]: as the module is written, every call
    stops with [NameError], whatever the store and the lag.  In a module
    that binds [dynts]: for [0 < 2*lag < N] on a consistent store, [delta2]
    returns a store with the keys [keys[2*lag:]], [N - 2*lag] rows, and at
    row [i] and column [j] the value
    [(value[i+2*lag][j] + value[i][j]) - 2*value[i+lag][j]]; for
    [2*lag <= 0] or [2*lag >= N] it raises the bounds error, on any store. *)
Theorem delta2_spec (m : modules) (self : Numpy) (lag : Z) :
  let N := Numpy.len self in
  Numpy.delta2 source self lag = Raise NameError
  ∧ ("dynts" ∈ np_py m → Numpy.consistent self → (0 < 2 * lag < Z.of_nat N)%Z →
     ∃ r, Numpy.delta2 m self lag = Ok r
       ∧ Numpy.dates r = drop (2 * Z.to_nat lag) (Numpy.dates self)
       ∧ Numpy.len r = N - 2 * Z.to_nat lag
       ∧ ∀ i j, i < N - 2 * Z.to_nat lag → j < Numpy.count self →
           ∃ x y z,
             entry (Numpy.values self) (i + 2 * Z.to_nat lag) j = Some x
             ∧ entry (Numpy.values self) i j = Some y
             ∧ entry (Numpy.values self) (i + Z.to_nat lag) j = Some z
             ∧ entry (Numpy.values r) i j
               = Some (PrimFloat.sub (PrimFloat.add x y) (PrimFloat.mul 2 z)))
  ∧ ("dynts" ∈ np_py m → (2 * lag ≤ 0 ∨ Z.of_nat N ≤ 2 * lag)%Z →
       Numpy.delta2 m self lag = Raise DyntsOutOfBound).
Proof.
  intros N. split_and!.
  - unfold Numpy.delta2.
    by assert (load_global (np_py source) "dynts" = Raise NameError) as ->
      by (vm_compute; reflexivity).
  - intros Hm Hc Hlag. pose proof Hc as (Hw & _ & Hl & Hrect & _).
    destruct (well_shaped_arrays self Hw) as [Hdate Hdata]; [fold N; lia|].
    pose proof (len_values self) as HN. fold N in HN.
    unfold Numpy.delta2. rewrite load_global_bound by done. fold N.
    destruct (Z.ltb_spec (2 * lag) (Z.of_nat N)), (Z.gtb_spec (2 * lag) 0); try lia.
    remember (Z.to_nat lag) as n eqn:Hn0.
    remember (2 * n) as n2 eqn:Hn2.
    simpl. rewrite Hdate, Hdata. unfold Numpy.clone.
    replace (Z.to_nat (2 * lag)) with n2 by lia.
    cbn [default].
    assert (Hn : 0 < n ∧ n2 < N) by lia.
    rewrite make_nonempty.
    2:{ intros Hnil. apply (f_equal length) in Hnil.
        rewrite length_drop in Hnil. simpl in Hnil. lia. }
    eexists. split; [reflexivity|].
    rewrite dates_mk, len_values, values_mk.
    split; [done|]. split.
    { rewrite !length_zip_with, length_drop, length_take.
      unfold Numpy.slice_inner. rewrite length_drop, length_take. lia. }
    intros i j Hi Hj.
    destruct (lookup_lt_is_Some_2 (Numpy.values self) (i + n2)) as [a Ha]; [lia|].
    destruct (lookup_lt_is_Some_2 (Numpy.values self) i) as [b Hb]; [lia|].
    destruct (lookup_lt_is_Some_2 (Numpy.values self) (i + n)) as [c Hcc]; [lia|].
    rewrite Forall_forall in Hrect.
    assert (length a = Numpy.count self) as Hla
      by (apply Hrect; eapply list_elem_of_lookup_2; eauto).
    assert (length b = Numpy.count self) as Hlb
      by (apply Hrect; eapply list_elem_of_lookup_2; eauto).
    assert (length c = Numpy.count self) as Hlc
      by (apply Hrect; eapply list_elem_of_lookup_2; eauto).
    destruct (lookup_lt_is_Some_2 a j) as [x Hx]; [lia|].
    destruct (lookup_lt_is_Some_2 b j) as [y Hy]; [lia|].
    destruct (lookup_lt_is_Some_2 c j) as [z Hz]; [lia|].
    exists x, y, z. unfold entry.
    rewrite Ha, Hb, Hcc. cbn [mbind option_bind]. split_and!; [done..|].
    rewrite !lookup_zip_with, lookup_drop, lookup_take_lt by lia.
    unfold Numpy.slice_inner. rewrite lookup_drop, lookup_take_lt by lia.
    rewrite (Nat.add_comm n2 i), (Nat.add_comm n i), Ha, Hb, Hcc.
    cbn [mbind option_bind].
    by rewrite !lookup_zip_with, Hx, Hy, Hz.
  - intros Hm Hlag. unfold Numpy.delta2. rewrite load_global_bound by done.
    fold N.
    destruct (Z.ltb_spec (2 * lag) (Z.of_nat N)), (Z.gtb_spec (2 * lag) 0);
      simpl; try done; lia.
Qed.

Lemma delta2_spec_witness :
  (∃ r, Numpy.delta2 Sample.with_imports Sample.three_rows 1 = Ok r
     ∧ Numpy.dates r = [3%Z] ∧ Numpy.len r = 1)
  ∧ Numpy.delta2 Sample.with_imports Sample.three_rows 2 = Raise DyntsOutOfBound
  ∧ Numpy.delta2 source Sample.three_rows 1 = Raise NameError.
Proof.
  assert (Hm : "dynts" ∈ np_py Sample.with_imports) by (by left).
  pose proof (delta2_spec Sample.with_imports Sample.three_rows 1) as (H0 & H1 & _).
  pose proof (delta2_spec Sample.with_imports Sample.three_rows 2) as (_ & _ & H2).
  split_and!.
  - destruct H1 as (r & Hr & Hd & Hl & _);
      [done | concrete_consistent | vm_compute; done |].
    exists r. by split_and!.
  - apply H2; [done|]. right. vm_compute. discriminate.
  - exact H0.
Defined.

Lemma elementwise_clone (self : Numpy) (f : float → float) :
  Numpy.consistent self → Numpy.len self ≠ 0 →
  let r := Numpy.clone self (_date self)
             (Some ((fun row : list float => f <$> row) <$> Numpy.values self)) in
  Numpy.consistent r
  ∧ Numpy.dates r = Numpy.dates self
  ∧ Numpy.len r = Numpy.len self
  ∧ Numpy.count r = Numpy.count self
  ∧ (∀ i j x, entry (Numpy.values self) i j = Some x →
       entry (Numpy.values r) i j = Some (f x)).
Proof.
  intros Hc Hlen r. pose proof Hc as (Hw & Hs & Hl & Hrect & _).
  destruct (well_shaped_arrays self Hw Hlen) as [Hdate Hdata].
  assert (Numpy.dates self ≠ []) as Hne.
  { rewrite (consistent_len self Hc) in Hlen. by destruct (Numpy.dates self). }
  unfold r, Numpy.clone. rewrite Hdate. simpl.
  destruct (make_sorted (Numpy.dates self)
              ((fun row : list float => f <$> row) <$> Numpy.values self)
              false (Numpy.count self)) as (-> & Hcr & Hcnt); try done.
  { by rewrite length_fmap. }
  { apply Forall_fmap. eapply Forall_impl; [exact Hrect|].
    intros row Hrow. simpl in *. by rewrite length_fmap. }
  split_and!; try done.
  - by rewrite !len_values, values_mk, length_fmap.
  - intros i j x. unfold entry. rewrite values_mk, list_lookup_fmap.
    destruct (Numpy.values self !! i) as [row|]; simpl; [|done].
    rewrite list_lookup_fmap. by intros ->.
Qed.

Lemma name_given (m : modules) (name : option string) :
  (∃ c n, name = Some (String c n)) ∨ "composename" ∈ np_py m →
  Numpy.name_or_composename m name = Ok tt.
Proof.
  intros [(c & n & ->)|Hm]; [done|].
  unfold Numpy.name_or_composename.
  destruct name as [[|c n]|]; try done; by apply load_global_bound.
Qed.

Lemma name_missing (name : option string) :
  name = None ∨ name = Some EmptyString →
  Numpy.name_or_composename source name = Raise NameError.
Proof. intros [->| ->]; vm_compute; reflexivity. Qed.

(** X11: [square] and [sqrt] take the name of the result, and read the
    global [composename] when none (or the empty one) is given; [np.py]
    binds no such name.  On a consistent store with rows, as the module is
    written: without a name both raise [NameError]; with a name both return a
    consistent store with the same keys and shape, whose entries are the
    squares ([x*x]) and the square roots of the entries of the store, as they
    do without a name in a module that binds [composename].  On a store
    without rows both raise [TypeError], name or not. *)
Theorem square_sqrt_spec (m : modules) (self : Numpy) (name : option string) :
  Numpy.consistent self →
  (Numpy.len self ≠ 0 → name = None ∨ name = Some EmptyString →
     Numpy.square source self name = Raise NameError
     ∧ Numpy.sqrt source self name = Raise NameError)
  ∧ (Numpy.len self ≠ 0 →
     (∃ c n, name = Some (String c n)) ∨ "composename" ∈ np_py m →
     ∃ r q, Numpy.square m self name = Ok r ∧ Numpy.sqrt m self name = Ok q
       ∧ Numpy.consistent r ∧ Numpy.consistent q
       ∧ Numpy.dates r = Numpy.dates self ∧ Numpy.dates q = Numpy.dates self
       ∧ Numpy.count r = Numpy.count self ∧ Numpy.count q = Numpy.count self
       ∧ (∀ i j x, entry (Numpy.values self) i j = Some x →
            entry (Numpy.values r) i j = Some (PrimFloat.mul x x)
            ∧ entry (Numpy.values q) i j = Some (PrimFloat.sqrt x)))
  ∧ (Numpy.len self = 0 →
       Numpy.square m self name = Raise TypeError
       ∧ Numpy.sqrt m self name = Raise TypeError).
Proof.
  intros Hc. pose proof Hc as (Hw & _). split_and!.
  - intros Hlen Hname. destruct (well_shaped_arrays self Hw Hlen) as [_ Hdata].
    unfold Numpy.square, Numpy.sqrt. by rewrite Hdata, name_missing.
  - intros Hlen Hname. destruct (well_shaped_arrays self Hw Hlen) as [Hdate Hdata].
    destruct (elementwise_clone self (fun x => PrimFloat.mul x x) Hc Hlen)
      as (Hr1 & Hr2 & _ & Hr3 & Hr4).
    destruct (elementwise_clone self PrimFloat.sqrt Hc Hlen)
      as (Hq1 & Hq2 & _ & Hq3 & Hq4).
    unfold Numpy.square, Numpy.sqrt. rewrite Hdata, name_given by done.
    eexists _, _. split_and!; try done.
    intros i j x Hx. split; [by apply Hr4 | by apply Hq4].
  - intros Hlen. destruct (well_shaped_empty self Hw Hlen) as [_ Hdata].
    unfold Numpy.square, Numpy.sqrt. by rewrite Hdata.
Qed.

Lemma square_sqrt_spec_witness :
  (∃ r, Numpy.square source Sample.three_rows (Some "sq") = Ok r
     ∧ Numpy.dates r = [1; 2; 3]%Z
     ∧ entry (Numpy.values r) 2 0 = Some 16%float)
  ∧ Numpy.square source Sample.three_rows None = Raise NameError
  ∧ Numpy.square source Sample.empty None = Raise TypeError.
Proof.
  destruct (square_sqrt_spec source Sample.three_rows (Some "sq"))
    as (_ & H & _); [concrete_consistent|].
  destruct (square_sqrt_spec source Sample.three_rows None)
    as (Hn & _ & _); [concrete_consistent|].
  destruct (square_sqrt_spec source Sample.empty None)
    as (_ & _ & H0); [concrete_consistent|].
  split_and!.
  - destruct H as (r & q & Hr & _ & _ & _ & Hd & _ & _ & _ & He);
      [vm_compute; lia | left; by eexists _, _ |].
    exists r. split_and!; [done | done |].
    by destruct (He 2 0 4%float eq_refl) as [-> _].
  - destruct Hn as [Hn _]; [vm_compute; lia | by left | exact Hn].
  - by destruct H0.
Defined.

(** ** Rolling wrappers *)

Section rolling.
Context {R : Type} (rollsingle : Numpy → string → Z → string → R).
Implicit Types (m : modules).

(** X12: every rolling wrapper goes through [apply], which reads the unbound
    [DyntsOutOfBound]: as the modules are written, [rollapply], [rollmax],
    [rollmin], [rollmedian] and [rollmean] stop with [NameError] on every
    store and window.  In modules that bind the name, the wrappers use a
    window of 20 when the caller gives none: on a store of fewer than 20
    rows they raise the bounds error; on 20 rows or more, column by column
    and with [rollsingle] bound too, they hand the function name, the window
    20 and the alignment ['right'] to the backend. *)
Theorem rolling_default_window m (self : Numpy) (func : string)
    (window : option (option Z)) (bycolumn : bool) (align : option string) :
  (Numpy.rollapply source rollsingle self func window bycolumn align = Raise NameError
   ∧ Numpy.rollmax source rollsingle self window bycolumn align = Raise NameError
   ∧ Numpy.rollmin source rollsingle self window bycolumn align = Raise NameError
   ∧ Numpy.rollmedian source rollsingle self window bycolumn align = Raise NameError
   ∧ Numpy.rollmean source rollsingle self window bycolumn align = Raise NameError)
  ∧ ("DyntsOutOfBound" ∈ timeseries_py m → Numpy.len self < 20 →
     Numpy.rollapply m rollsingle self func None bycolumn align = Raise DyntsOutOfBound
     ∧ Numpy.rollmax m rollsingle self None bycolumn align = Raise DyntsOutOfBound
     ∧ Numpy.rollmin m rollsingle self None bycolumn align = Raise DyntsOutOfBound
     ∧ Numpy.rollmedian m rollsingle self None bycolumn align = Raise DyntsOutOfBound
     ∧ Numpy.rollmean m rollsingle self None bycolumn align = Raise DyntsOutOfBound)
  ∧ ("DyntsOutOfBound" ∈ timeseries_py m → "rollsingle" ∈ np_py m →
     20 ≤ Numpy.len self →
       Numpy.rollapply m rollsingle self func None bycolumn align
       = Numpy._rollapply m rollsingle self func 20 bycolumn
           (py_or_str align TimeSeries.default_align)
       ∧ Numpy.rollmax m rollsingle self None true None
         = Ok (rollsingle self "max" 20%Z "right")
       ∧ Numpy.rollmin m rollsingle self None true None
         = Ok (rollsingle self "min" 20%Z "right")
       ∧ Numpy.rollmedian m rollsingle self None true None
         = Ok (rollsingle self "median" 20%Z "right")
       ∧ Numpy.rollmean m rollsingle self None true None
         = Ok (rollsingle self "mean" 20%Z "right")).
Proof.
  unfold Numpy.rollmax, Numpy.rollmin, Numpy.rollmedian, Numpy.rollmean,
    Numpy.rollapply.
  split; [|split].
  - assert (∀ f w, Numpy.apply source rollsingle self f w bycolumn align
                    = Raise NameError) as H.
    { intros f w. unfold Numpy.apply.
      by assert (load_global (timeseries_py source) "DyntsOutOfBound"
                 = Raise NameError) as -> by (vm_compute; reflexivity). }
    by rewrite !H.
  - intros Hm Hlen. simpl.
    split_and!; rewrite apply_effective_window by done; simpl;
      destruct (Z.leb_spec 20 (Z.of_nat (Numpy.len self))); simpl; try done; lia.
  - intros Hm Hr Hlen. simpl.
    split_and!; rewrite apply_effective_window by done; simpl;
      destruct (Z.leb_spec 20 (Z.of_nat (Numpy.len self))); simpl; try lia;
      try done; unfold Numpy._rollapply; simpl;
      by rewrite load_global_bound by done.
Qed.

(** X13: [_rollapply], as [np.py] is written, raises [NotImplementedError]
    with [bycolumn=False] and, column by column, [NameError], the global
    [rollsingle] being unbound.  Behind [apply], in modules that bind
    [DyntsOutOfBound] and with a window in [(0, N]]: [bycolumn=False] raises
    [NotImplementedError] and never reaches the backend; column by column
    the call stops with [NameError] while [rollsingle] is unbound, and with
    it bound hands over the window and the alignment (['right'] when none is
    given), the name ['med'] as ['median'] and a name outside the alias
    table as it is. *)
Theorem apply_dispatch m (self : Numpy) (func : string) (w : Z)
    (align : option string) :
  (0 < w ≤ Z.of_nat (Numpy.len self))%Z →
  Numpy._rollapply source rollsingle self func w false (py_or_str align "right")
  = Raise NotImplementedError
  ∧ Numpy._rollapply source rollsingle self func w true (py_or_str align "right")
    = Raise NameError
  ∧ ("DyntsOutOfBound" ∈ timeseries_py m →
     Numpy.apply m rollsingle self func (Some w) false align
     = Raise NotImplementedError
     ∧ ("rollsingle" ∉ np_py m →
        Numpy.apply m rollsingle self func (Some w) true align = Raise NameError)
     ∧ ("rollsingle" ∈ np_py m →
        Numpy.apply m rollsingle self "med" (Some w) true align
        = Ok (rollsingle self "median" w (py_or_str align "right"))
        ∧ (Numpy._functions !! func = None →
           Numpy.apply m rollsingle self func (Some w) true align
           = Ok (rollsingle self func w (py_or_str align "right"))))).
Proof.
  intros Hw.
  assert (py_or (Some w) (Z.of_nat (Numpy.len self)) = w) as Hpy.
  { simpl. destruct (Z.eqb_spec w 0); [lia | done]. }
  assert (Happly : ∀ f b, "DyntsOutOfBound" ∈ timeseries_py m →
            Numpy.apply m rollsingle self f (Some w) b align
            = Numpy._rollapply m rollsingle self f w b
                (py_or_str align TimeSeries.default_align)).
  { intros f b Hm. rewrite apply_effective_window by done. rewrite Hpy.
    by destruct (Z.leb_spec w (Z.of_nat (Numpy.len self))),
         (Z.gtb_spec w 0); simpl; try lia. }
  split_and!.
  - done.
  - unfold Numpy._rollapply.
    by assert (load_global (np_py source) "rollsingle" = Raise NameError) as ->
      by (vm_compute; reflexivity).
  - intros Hm. split_and!.
    + by rewrite Happly.
    + intros Hr. rewrite Happly by done. unfold Numpy._rollapply.
      by rewrite load_global_unbound.
    + intros Hr. split.
      * rewrite Happly by done. unfold Numpy._rollapply.
        by rewrite load_global_bound.
      * intros Hf. rewrite Happly by done. unfold Numpy._rollapply.
        by rewrite Hf, load_global_bound.
Qed.

End rolling.

Lemma rolling_default_window_witness :
  Numpy.rollmean Sample.with_imports Sample.record_call Sample.three_rows
    None true None
  = Raise DyntsOutOfBound
  ∧ Numpy.rollmean source Sample.record_call Sample.three_rows None true None
    = Raise NameError.
Proof.
  destruct (rolling_default_window Sample.record_call Sample.with_imports
              Sample.three_rows "mean" None true None)
    as ((_ & _ & _ & _ & Hn) & H & _).
  split; [|exact Hn].
  destruct H as (_ & _ & _ & _ & H); [by left | vm_compute; lia | exact H].
Defined.

Lemma apply_dispatch_witness :
  Numpy.apply Sample.with_imports Sample.record_call Sample.three_rows "med"
    (Some 2%Z) true None
  = Ok ("median", 2%Z, "right").
Proof.
  destruct (apply_dispatch Sample.record_call Sample.with_imports
              Sample.three_rows "med" 2 None)
    as (_ & _ & H);
    [change (Numpy.len Sample.three_rows) with 3; lia|].
  destruct H as (_ & _ & H); [by left|].
  destruct H as [H _]; [right; by left | exact H].
Defined.

(** ** The algorithm registry *)

(** X14: [register_algorithm] then [getalgo] is a round trip: the callable
    registered last under an operation and a name is the one returned, the
    other entries of the registry are looked up as before, and an empty
    registry has no algorithm ([NotAvailable]). *)
Theorem registry_round_trip {F : Type} (reg : gmap string (gmap string F))
    (operation name operation' name' : string) (f g : F) :
  TimeSeries.getalgo (TimeSeries.register_algorithm reg operation name f)
    operation name = Ok f
  ∧ TimeSeries.getalgo
      (TimeSeries.register_algorithm
         (TimeSeries.register_algorithm reg operation name g) operation name f)
      operation name = Ok f
  ∧ (operation' ≠ operation ∨ name' ≠ name →
       TimeSeries.getalgo (TimeSeries.register_algorithm reg operation name f)
         operation' name'
       = TimeSeries.getalgo reg operation' name')
  ∧ TimeSeries.getalgo (∅ : gmap string (gmap string F)) operation name
    = Raise NotAvailable.
Proof.
  unfold TimeSeries.getalgo, TimeSeries.register_algorithm. split_and!.
  - by rewrite !lookup_insert_eq.
  - by rewrite !lookup_insert_eq.
  - intros Hne. destruct (decide (operation' = operation)) as [->|Hop].
    + destruct Hne as [|Hn]; [done|].
      rewrite lookup_insert_eq, lookup_insert_ne by done.
      destruct (reg !! operation); simpl; [done|]. by rewrite lookup_empty.
    + by rewrite lookup_insert_ne.
  - by rewrite lookup_empty.
Qed.

Lemma registry_round_trip_witness :
  TimeSeries.getalgo Sample.registry "reduce" "other"
  = TimeSeries.getalgo (∅ : gmap string (gmap string (Numpy → Z → result Numpy)))
      "reduce" "other".
Proof.
  destruct (registry_round_trip
              (∅ : gmap string (gmap string (Numpy → Z → result Numpy)))
              "reduce" "simple" "reduce" "other" Sample.keep_last Sample.keep_last)
    as (_ & _ & H & _).
  apply H. right. discriminate.
Defined.

(** X15: [reduce] below the length of the store goes through the registry:
    once an algorithm is registered under ['reduce'] and the method name, the
    result is that algorithm on the store and the size; with an empty
    registry, or with another method name only, it raises [NotAvailable]. *)
Theorem reduce_registered
    (reg : gmap string (gmap string (Numpy → Z → result Numpy)))
    (self : Numpy) (size : Z) (method method' : string)
    (f : Numpy → Z → result Numpy) :
  (size < Z.of_nat (Numpy.len self))%Z →
  Numpy.reduce (TimeSeries.register_algorithm reg "reduce" method f) self size method
  = f self size
  ∧ Numpy.reduce ∅ self size method = Raise NotAvailable
  ∧ (method' ≠ method →
       Numpy.reduce (TimeSeries.register_algorithm ∅ "reduce" method' f)
         self size method
       = Raise NotAvailable).
Proof.
  intros Hsize. unfold Numpy.reduce.
  destruct (Z.geb_spec size (Z.of_nat (Numpy.len self))); [lia|].
  unfold TimeSeries.getalgo, TimeSeries.register_algorithm. split_and!.
  - by rewrite !lookup_insert_eq.
  - by rewrite lookup_empty.
  - intros Hne. rewrite lookup_insert_eq, lookup_insert_ne by done.
    by rewrite !lookup_empty.
Qed.

Lemma reduce_registered_witness :
  Numpy.reduce Sample.registry Sample.three_rows 2 "simple"
  = Sample.keep_last Sample.three_rows 2
  ∧ Numpy.reduce ∅ Sample.three_rows 2 "simple" = Raise NotAvailable.
Proof.
  destruct (reduce_registered ∅ Sample.three_rows 2 "simple" "other" Sample.keep_last)
    as (H1 & H2 & _); [vm_compute; reflexivity|].
  split; [exact H1 | exact H2].
Defined.

(** ** [clean]: what every call returns *)

Section clean_total.
Implicit Types (algorithm : option interpolation) (st : column_state).
Implicit Types (series : list (option Z * option Z * gmap Z float)).

Lemma clean_observe_keys algorithm dt st d v st' :
  Numpy.clean_observe algorithm dt st d v = Ok st' →
  ∀ k, k ∈ dom (cvalues st') → k = d ∨ k ∈ dom (cvalues st).
Proof.
  unfold Numpy.clean_observe. intros H k.
  destruct (PrimFloat.eqb v v).
  - destruct (match missings st with [] => _ | _ :: _ => _ end) as [sp|e];
      simpl in H; [|done].
    injection H as <-. simpl. rewrite dom_insert_L, elem_of_union, elem_of_singleton.
    tauto.
  - destruct (bool_decide _ && bool_decide _).
    + destruct dt; [|done]. injection H as <-. simpl. tauto.
    + injection H as <-. tauto.
Qed.

Lemma clean_observations_keys algorithm dt obs :
  ∀ st st', Numpy.clean_observations algorithm dt st obs = Ok st' →
    ∀ k, k ∈ dom (cvalues st') → k ∈ obs.*1 ∨ k ∈ dom (cvalues st).
Proof.
  induction obs as [|[d v] obs IH]; intros st st' H k Hk; simpl in H.
  - injection H as <-. by right.
  - destruct (Numpy.clean_observe algorithm dt st d v) as [st1|e] eqn:Hobs;
      simpl in H; [|done].
    destruct (IH _ _ H k Hk) as [Hin|Hin].
    + left. rewrite fmap_cons. by right.
    + apply (clean_observe_keys _ _ _ _ _ _ Hobs) in Hin as [->|Hin].
      * left. rewrite fmap_cons. by left.
      * by right.
Qed.

Lemma clean_column_keys algorithm dt (original_dates : list Z) serie entry :
  Numpy.clean_column algorithm dt original_dates serie = Ok entry →
  ∀ k, k ∈ dom entry.2 → k ∈ original_dates.
Proof.
  unfold Numpy.clean_column. intros H k Hk.
  destruct (Numpy.clean_observations _ _ _ _) as [st|e] eqn:Hobs; simpl in H; [|done].
  assert (cvalues st = entry.2) as Hcv.
  { unfold Numpy.clean_flush in H. destruct (missings st); simpl in H.
    - by injection H as <-.
    - destruct algorithm; simpl in H; [|done]. by injection H as <-. }
  rewrite <- Hcv in Hk.
  apply (clean_observations_keys _ _ _ _ _ Hobs) in Hk as [Hk|Hk].
  - apply list_elem_of_fmap in Hk as ([d v] & -> & Hin). simpl.
    by apply elem_of_zip_l in Hin.
  - simpl in Hk. by rewrite dom_empty_L in Hk.
Qed.

Lemma clean_series_keys algorithm dt (original_dates : list Z) cols :
  ∀ series (all_dates : gset Z) series' all_dates',
    Numpy.clean_series algorithm dt original_dates cols series all_dates
    = Ok (series', all_dates') →
    length series' = length series + length cols
    ∧ ∀ k, k ∈ all_dates' → k ∈ all_dates ∨ k ∈ original_dates.
Proof.
  induction cols as [|serie cols IH]; intros series all_dates series' all_dates' H;
    simpl in H.
  - injection H as <- <-. split; [simpl; lia | by left].
  - destruct (Numpy.clean_column algorithm dt original_dates serie) as [entry|e]
      eqn:Hcol; simpl in H; [|done].
    destruct (IH _ _ _ _ H) as [Hlen Hkeys]. split.
    + rewrite Hlen, length_app. simpl. lia.
    + intros k Hk. destruct (Hkeys k Hk) as [Hin|Hin]; [|by right].
      apply elem_of_union in Hin as [Hin|Hin]; [by left|].
      right. by apply (clean_column_keys _ _ _ _ _ Hcol).
Qed.

(** With entries whose [start] comes with an [end], the inner loop returns. *)
Lemma clean_cross_returns dt series :
  Forall (fun e => is_Some e.1.1 → is_Some e.1.2) series →
  ∀ cross, ∃ o, Numpy.clean_cross dt series cross = Ok o
    ∧ ∀ row, o = Some row → length row = length cross + length series.
Proof.
  induction 1 as [|[[start end_] values] series Hwf Hrest IH]; intros cross; simpl.
  - exists (Some cross). split; [done|]. intros row [= <-]. lia.
  - simpl in Hwf.
    assert (∀ x, ∃ o, Numpy.clean_cross dt series (cross ++ [x]) = Ok o
              ∧ ∀ row, o = Some row → length row = length cross + S (length series))
      as Hstep.
    { intros x. destruct (IH (cross ++ [x])) as (o & Ho & Hlen).
      exists o. split; [done|]. intros row Hrow. rewrite (Hlen row Hrow), length_app.
      simpl. lia. }
    destruct start as [s|]; simpl.
    + destruct (dt >=? s)%Z; simpl.
      * destruct Hwf as [e ->]; [by eexists|]. simpl.
        destruct (dt <=? e)%Z; [|apply Hstep].
        destruct (values !! dt); [apply Hstep|]. by exists None.
      * apply Hstep.
    + destruct (values !! dt); [apply Hstep|]. by exists None.
Qed.

Lemma sorted_drop_middle (l1 : list Z) x l2 :
  StronglySorted Z.lt (l1 ++ x :: l2) → StronglySorted Z.lt (l1 ++ l2).
Proof.
  rewrite !StronglySorted_app, StronglySorted_cons.
  intros (Hall & H1 & _ & H2). split_and!; [|done..].
  intros a b Ha Hb. apply Hall; [done|]. by right.
Qed.

Lemma clean_rows_returns series (dts : list Z) :
  Forall (fun e => is_Some e.1.1 → is_Some e.1.2) series →
  ∀ cdate cdata,
    StronglySorted Z.lt (cdate ++ dts) → length cdata = length cdate →
    Forall (fun row => length row = length series) cdata →
    ∃ cdate' cdata',
      Numpy.clean_rows series dts cdate cdata = Ok (cdate', cdata')
      ∧ StronglySorted Z.lt cdate' ∧ length cdata' = length cdate'
      ∧ Forall (fun row => length row = length series) cdata'
      ∧ ∀ k, k ∈ cdate' → k ∈ cdate ∨ k ∈ dts.
Proof.
  intros Hwf. induction dts as [|dt dts IH]; intros cdate cdata Hs Hl Hrows; simpl.
  - exists cdate, cdata. rewrite (right_id_L [] (++)) in Hs.
    split_and!; try done. by left.
  - destruct (clean_cross_returns dt series Hwf []) as (o & -> & Hlen). simpl.
    assert (∃ cdate' cdata',
              Numpy.clean_rows series dts cdate cdata = Ok (cdate', cdata')
              ∧ StronglySorted Z.lt cdate' ∧ length cdata' = length cdate'
              ∧ Forall (fun row => length row = length series) cdata'
              ∧ ∀ k, k ∈ cdate' → k ∈ cdate ∨ k ∈ dt :: dts) as Hdrop.
    { destruct (IH cdate cdata) as (cd & cr & Hr & Hsd & Hld & Hrd & Hk);
        [by eapply sorted_drop_middle | done | done |].
      exists cd, cr. split_and!; try done.
      intros k Hin. destruct (Hk k Hin); [by left | right; by right]. }
    destruct o as [[|x row]|]; [exact Hdrop | | exact Hdrop].
    destruct (IH (cdate ++ [dt]) (cdata ++ [x :: row]))
      as (cd & cr & Hr & Hsd & Hld & Hrd & Hk).
    + by rewrite <- (assoc_L (++)).
    + rewrite !length_app. simpl. lia.
    + apply Forall_app. split; [done|]. constructor; [|done].
      by rewrite (Hlen (x :: row) eq_refl).
    + exists cd, cr. split_and!; try done.
      intros k Hin. destruct (Hk k Hin) as [Hc|Hc]; [|right; by right].
      apply elem_of_app in Hc as [Hc|Hc]; [by left|].
      apply list_elem_of_singleton in Hc as ->. right. by left.
Qed.

(** X16: on every store with rows, consistent or not, [clean] either stops
    with [UnboundLocalError] (which takes an algorithm) or returns a
    consistent store, with keys strictly increasing that are keys of the input
    and one value per column of the input in each row; without an algorithm it
    always returns. *)
Theorem clean_returns_consistent (self : Numpy) algorithm :
  Numpy.len self ≠ 0 →
  ((is_Some algorithm ∧ Numpy.clean self algorithm = Raise UnboundLocalError)
   ∨ ∃ r, Numpy.clean self algorithm = Ok r
       ∧ Numpy.consistent r
       ∧ (∀ k, k ∈ Numpy.dates r → k ∈ Numpy.dates self)
       ∧ Forall (fun row => length row = length (Numpy.series self)) (Numpy.values r))
  ∧ ∃ r, Numpy.clean self None = Ok r.
Proof.
  intros Hrows0.
  assert (∀ algorithm,
    (is_Some algorithm ∧ Numpy.clean self algorithm = Raise UnboundLocalError)
    ∨ ∃ r, Numpy.clean self algorithm = Ok r
        ∧ Numpy.consistent r
        ∧ (∀ k, k ∈ Numpy.dates r → k ∈ Numpy.dates self)
        ∧ Forall (fun row => length row = length (Numpy.series self)) (Numpy.values r))
    as Hgen.
  { clear algorithm. intros algorithm. unfold Numpy.clean.
    rewrite series_end_rows by done.
    destruct (clean_series_outcome algorithm (Numpy.dates self) (Numpy.series self) [] ∅)
      as [[Ha Hr]|(series' & all' & Hr & Hwf & _ & _)]; [done| |].
    { left. by rewrite Hr. }
    right. rewrite Hr. simpl.
    destruct (clean_series_keys _ _ _ _ _ _ _ _ Hr) as [Hlen Hkeys]. simpl in Hlen.
    destruct (clean_rows_returns series' (merge_sort Z.le (elements all')) Hwf [] [])
      as (cd & cr & Hrows & Hsd & Hld & Hrd & Hk); [|done|done|].
    { simpl. apply sorted_le_NoDup_lt.
      - apply StronglySorted_merge_sort; apply _.
      - rewrite merge_sort_Permutation. apply NoDup_elements. }
    rewrite Hrows. simpl. eexists. split; [done|].
    assert (∀ k, k ∈ cd → k ∈ Numpy.dates self) as Hsub.
    { intros k Hin. destruct (Hk k Hin) as [Hn|Hm]; [by apply elem_of_nil in Hn|].
      rewrite merge_sort_Permutation, elem_of_elements in Hm.
      destruct (Hkeys k Hm) as [He|]; [|done]. by apply elem_of_empty in He. }
    unfold Numpy.clone. simpl.
    destruct cd as [|d cd].
    - rewrite make_empty. split_and!.
      + unfold Numpy.consistent. simpl. split_and!; try done; constructor.
      + intros k Hin. by apply elem_of_nil in Hin.
      + constructor.
    - destruct (make_sorted (d :: cd) cr false (length series'))
        as (-> & Hc & _); try done.
      rewrite dates_mk, values_mk. split_and!; [done | done |].
      by rewrite <- Hlen. }
  split; [apply Hgen|].
  destruct (Hgen None) as [[Ha _]|(r & Hr & _)]; [by destruct Ha | by exists r].
Qed.

End clean_total.

(** ** [merge]: common keys *)

Section merge_more.
Implicit Types (self a b : Numpy) (fill : float).

(** The hash that [merge] hands to [getts], for one other store, with a
    numpy before 1.24. *)
Lemma merge_one_lookup a b fill :
  Numpy.consistent a → Numpy.consistent b →
  ∃ final : gmap Z (list float),
    Numpy.merge numpy_before_1_24 a [b] fill = Ok (Numpy.getts final)
    ∧ ∀ k, final !! k
           = if decide (k ∈ Numpy.dates a ∨ k ∈ Numpy.dates b)
             then Some (default (replicate (Numpy.count a) fill) (Numpy.ashash a !! k)
                          ++ default (replicate (Numpy.count b) fill) (Numpy.ashash b !! k))
             else None.
Proof.
  intros Ha Hb.
  set (A := list_to_set (Numpy.dates a) : gset Z).
  set (B := list_to_set (Numpy.dates b) : gset Z).
  exists (foldl (fun hash dt =>
                   <[dt := concat (Numpy.mdt_arrays (replicate (Numpy.count a) fill)
                                     [(Numpy.ashash b, replicate (Numpy.count b) fill)]
                                     hash dt)]> hash)
            (Numpy.ashash a) (elements (A ∪ B))).
  split.
  { unfold Numpy.merge. by rewrite merge_rows_stacked. }
  intros k.
  rewrite merge_loop by apply NoDup_elements.
  assert (k ∈ elements (A ∪ B) ↔ k ∈ Numpy.dates a ∨ k ∈ Numpy.dates b) as Hiff.
  { rewrite elem_of_elements, elem_of_union. unfold A, B.
    by rewrite !elem_of_list_to_set. }
  destruct (decide (k ∈ elements (A ∪ B))) as [Hin|Hin];
    destruct (decide (k ∈ Numpy.dates a ∨ k ∈ Numpy.dates b)) as [Hor|Hor];
    try tauto.
  - unfold Numpy.mdt_arrays. simpl. by rewrite (right_id_L [] (++)).
  - apply not_elem_of_dom. rewrite ashash_dom by done.
    rewrite elem_of_list_to_set. tauto.
Qed.

(** X17: [merge] of two consistent stores, by release of numpy.  With a
    numpy before 1.24 it returns a store whose keys are the keys of [a] and
    those of [b], and a key of both holds the row of [a] followed by the row
    of [b].  With numpy 1.24 or later, [np.hstack] refusing the generator of
    [mdt], it returns a store only when neither store has a key. *)
Theorem merge_common_keys a b fill :
  Numpy.consistent a → Numpy.consistent b →
  (∃ r, Numpy.merge numpy_before_1_24 a [b] fill = Ok r
     ∧ (∀ k, k ∈ Numpy.dates r ↔ k ∈ Numpy.dates a ∨ k ∈ Numpy.dates b)
     ∧ (∀ k ra rb, Numpy.row_at a k ra → Numpy.row_at b k rb →
          Numpy.row_at r k (ra ++ rb)))
  ∧ ((∃ r, Numpy.merge numpy_1_24 a [b] fill = Ok r)
     ↔ Numpy.dates a = [] ∧ Numpy.dates b = []).
Proof.
  intros Ha Hb. split.
  - destruct (merge_one_lookup a b fill Ha Hb) as (final & Hr & Hfinal).
    exists (Numpy.getts final). split; [done|]. split.
    + intros k. rewrite getts_dates, merge_sort_Permutation, elem_of_elements.
      rewrite elem_of_dom, Hfinal.
      destruct (decide _) as [Hin|Hin].
      * split; [done | by eexists].
      * split; [by intros [? ?] | done].
    + intros k ra rb Hra Hrb. apply getts_row. rewrite Hfinal.
      apply ashash_lookup in Hra; [|done]. apply ashash_lookup in Hrb; [|done].
      rewrite Hra, Hrb. simpl.
      destruct (decide _) as [|Hn]; [done|]. destruct Hn. left.
      apply ashash_lookup in Hra as (i & Hi & _); [|done].
      by eapply list_elem_of_lookup_2.
  - destruct (merge_refused a [b] fill) as [Hraise Hok]. split.
    + intros [r Hr].
      destruct (Numpy.dates a) as [|ka la] eqn:Hda.
      * destruct (Numpy.dates b) as [|kb lb] eqn:Hdb; [done|].
        rewrite Hraise in Hr; [done|]. right. left. by rewrite Hdb.
      * rewrite Hraise in Hr; [done|]. by left.
    + intros [Hda Hdb]. eexists. apply Hok; [done|]. by repeat constructor.
Qed.

End merge_more.

Lemma merge_common_keys_witness :
  ∃ r, Numpy.merge numpy_before_1_24 Sample.three_rows [Sample.three_rows] nan = Ok r
    ∧ Numpy.row_at r 2 [2; 2]%float.
Proof.
  destruct (merge_common_keys Sample.three_rows Sample.three_rows nan)
    as ((r & Hr & _ & Hrow) & _); [concrete_consistent..|].
  exists r. split; [exact Hr|].
  apply (Hrow 2%Z [2%float] [2%float]); by exists 1.
Defined.

(** ** The generator [series] on a store without rows *)

(** X18: on a store without rows the generator [series] yields nothing and
    ends with [RuntimeError], the statement [raise StopIteration] running
    inside a generator; so do its callers: [clean] raises [RuntimeError]
    whatever the algorithm, and [named_series] ends with it before its first
    pair, with an ordering or, when the store has names, without one. *)
Theorem series_without_rows (self : Numpy) algorithm (names ordering : list string) :
  Numpy.len self = 0 →
  Numpy.series self = []
  ∧ Numpy.series_list self = Raise RuntimeError
  ∧ Numpy.clean self algorithm = Raise RuntimeError
  ∧ (ordering ≠ [] ∨ names ≠ [] →
     Numpy.named_series self names ordering = ([], Some RuntimeError)).
Proof.
  intros Hlen. rewrite len_values in Hlen.
  assert (Hs : Numpy.series self = []).
  { unfold Numpy.series. by destruct (decide _). }
  assert (He : Numpy.series_end self = Some RuntimeError).
  { unfold Numpy.series_end. by destruct (decide _). }
  assert (Hl : Numpy.series_list self = Raise RuntimeError).
  { unfold Numpy.series_list. by rewrite He. }
  split_and!; [done | done | |].
  - unfold Numpy.clean. by rewrite Hs, He.
  - intros Hor. unfold Numpy.named_series. rewrite Hl, Hs, He.
    destruct ordering as [|o ordering]; [|done].
    destruct Hor as [|Hn]; [done|]. by destruct names.
Qed.

Lemma series_without_rows_witness :
  Numpy.clean Sample.empty (Some Sample.echo) = Raise RuntimeError
  ∧ Numpy.named_series Sample.empty ["bid"] [] = ([], Some RuntimeError).
Proof.
  destruct (series_without_rows Sample.empty (Some Sample.echo) ["bid"] [])
    as (_ & _ & Hc & Hn); [reflexivity|].
  split; [exact Hc | apply Hn; by right].
Defined.

(** * [section.py] *)

(** ** [scalarasiter] and [assimple] *)

(** X19: [assimple] undoes [scalarasiter] on a number, and [scalarasiter]
    gives back the items of a sequence that [assimple] has simplified, unless
    the sequence held a single item that is itself a sequence or [None];
    [None] does not come back: it becomes the empty tuple and stays so. *)
Theorem scalarasiter_assimple (z : Z) (kind : seqkind) (items : list pyvalue) :
  SectionUtils.assimple (SectionUtils.scalarasiter (PyNum z)) = PyNum z
  ∧ ((∀ y, items = [y] → ∃ n, y = PyNum n) →
       ∃ kind', SectionUtils.scalarasiter (SectionUtils.assimple (PySeq kind items))
                = PySeq kind' items)
  ∧ SectionUtils.assimple (SectionUtils.scalarasiter PyNone) = PySeq PyTuple []
  ∧ SectionUtils.scalarasiter (SectionUtils.scalarasiter (PySeq kind items))
    = SectionUtils.scalarasiter (PySeq kind items).
Proof.
  split_and!; try done.
  intros Hone. destruct items as [|y [|y' items]]; simpl.
  - by exists kind.
  - destruct (Hone y eq_refl) as [n ->]. by exists PyTuple.
  - by exists kind.
Qed.

Lemma scalarasiter_assimple_witness :
  ∃ kind', SectionUtils.scalarasiter
             (SectionUtils.assimple (PySeq PyList [PyNum 5]))
           = PySeq kind' [PyNum 5].
Proof.
  destruct (scalarasiter_assimple 0 PyList [PyNum 5]) as (_ & H & _).
  apply H. intros y [= <-]. by exists 5%Z.
Defined.

(** ** Comparisons of cross sections *)

Section cross_order.
Implicit Types (self other : list float).

Lemma foldl_and {A} (p : A → bool) (l : list A) :
  ∀ b, foldl (fun x y => x && p y) b l = b && forallb p l.
Proof.
  induction l as [|y l IH]; intros b; simpl.
  - by rewrite andb_true_r.
  - by rewrite IH, andb_assoc.
Qed.

Lemma forallb_zip (p : float → float → bool) self other :
  forallb (fun y => p y.1 y.2) (zip self other) = true
  ↔ ∀ (i : nat) a b, self !! i = Some a → other !! i = Some b → p a b = true.
Proof.
  revert other. induction self as [|x self IH]; intros [|y other]; simpl.
  - split; [intros _ i a b Hi; done | done].
  - split; [intros _ i a b Hi; done | done].
  - split; [intros _ i a b _ Hi; done | done].
  - rewrite andb_true_iff, IH. split.
    + intros [Hxy H] [|i] a b Ha Hb; simpl in *.
      * by injection Ha as <-; injection Hb as <-.
      * by apply (H i).
    + intros H. split; [by apply (H 0) | intros i a b; apply (H (S i))].
Qed.

Lemma cross_le_spec self other :
  cross.__le__ self other = true
  ↔ ∀ (i : nat) a b, self !! i = Some a → other !! i = Some b →
      PrimFloat.leb a b = true.
Proof.
  unfold cross.__le__. rewrite foldl_and. simpl.
  apply (forallb_zip PrimFloat.leb).
Qed.

Lemma cross_ge_spec self other :
  cross.__ge__ self other = true
  ↔ ∀ (i : nat) a b, self !! i = Some a → other !! i = Some b →
      PrimFloat.leb b a = true.
Proof.
  unfold cross.__ge__. rewrite foldl_and. simpl.
  apply (forallb_zip (fun a b => PrimFloat.leb b a)).
Qed.

Lemma cross_eq_spec self other :
  cross.__eq__ self other = true
  ↔ ∀ (i : nat) a b, self !! i = Some a → other !! i = Some b →
      PrimFloat.eqb a b = true.
Proof.
  unfold cross.__eq__. rewrite foldl_and. simpl.
  apply (forallb_zip PrimFloat.eqb).
Qed.

Lemma not_all_paired (p : float → float → bool) self other :
  ¬ (∀ (i : nat) a b, self !! i = Some a → other !! i = Some b → p a b = true)
  ↔ ∃ (i : nat) a b, self !! i = Some a ∧ other !! i = Some b ∧ p a b = false.
Proof.
  split.
  - revert other. induction self as [|x self IH]; intros other Hn.
    + destruct Hn. intros i a b Hi. done.
    + destruct other as [|y other].
      * destruct Hn. intros i a b _ Hi. done.
      * destruct (p x y) eqn:Hxy.
        -- destruct (IH other) as (i & a & b & Ha & Hb & HP).
           { intros Hall. apply Hn. intros [|i] a b Ha Hb; simpl in *.
             - by injection Ha as <-; injection Hb as <-.
             - by apply (Hall i). }
           by exists (S i), a, b.
        -- by exists 0, x, y.
  - intros (i & a & b & Ha & Hb & HP) Hall.
    rewrite (Hall i a b Ha Hb) in HP. done.
Qed.

(** X20: [>] and [<] between cross sections, on the float64 arrays that the
    class compares, are the negations of [<=] and [>=] over the paired
    elements: [self > other] holds exactly when, at some index, the element
    of [self] is not less than or equal to the element of [other], because it
    is greater or because one of the two is not a number; [self < other]
    likewise with [>=].  So both can hold at once, and the section of one
    missing value is both greater and less than the section of the
    number 1. *)
Theorem cross_gt_lt self other :
  (cross.__gt__ self other = true
   ↔ ∃ (i : nat) a b, self !! i = Some a ∧ other !! i = Some b
                      ∧ PrimFloat.leb a b = false)
  ∧ (cross.__lt__ self other = true
     ↔ ∃ (i : nat) a b, self !! i = Some a ∧ other !! i = Some b
                        ∧ PrimFloat.leb b a = false)
  ∧ cross.__gt__ [1; 5]%float [2; 3]%float = true
  ∧ cross.__lt__ [1; 5]%float [2; 3]%float = true
  ∧ cross.__gt__ [nan] [1%float] = true
  ∧ cross.__lt__ [nan] [1%float] = true.
Proof.
  unfold cross.__gt__, cross.__lt__. split_and!; [| |done..].
  - rewrite negb_true_iff, <- not_true_iff_false, cross_le_spec.
    apply (not_all_paired PrimFloat.leb).
  - rewrite negb_true_iff, <- not_true_iff_false, cross_ge_spec.
    apply (not_all_paired (fun a b => PrimFloat.leb b a)).
Qed.

(** X21: [==] between cross sections, on the float64 arrays that the class
    compares, looks at the paired elements only: it holds exactly when the
    two are equal at every index that both have.  The empty section equals
    every other, and a section equals an extension of itself exactly when
    none of its values is missing: a missing value is not equal to
    itself. *)
Theorem cross_eq_paired self other extra :
  (cross.__eq__ self other = true
   ↔ ∀ (i : nat) a b, self !! i = Some a → other !! i = Some b →
       PrimFloat.eqb a b = true)
  ∧ (cross.__eq__ self (self ++ extra) = true
     ↔ Forall (fun v => PrimFloat.eqb v v = true) self)
  ∧ cross.__eq__ [] other = true
  ∧ cross.__eq__ [nan] [nan] = false.
Proof.
  split_and!; [apply cross_eq_spec | | done | done].
  rewrite cross_eq_spec, Forall_lookup. split.
  - intros H i a Ha. apply (H i a a Ha).
    by rewrite lookup_app_l by (by eapply lookup_lt_Some).
  - intros H i a b Ha Hb.
    rewrite lookup_app_l in Hb by (by eapply lookup_lt_Some).
    assert (b = a) as -> by congruence. by apply (H i).
Qed.

End cross_order.

(** ** [crossoperator], [cross.min] and [cross.max] *)

Section cross_operator.
Local Open Scope Z_scope.

Lemma zip_star_cons {A} (a b : list A) (rest : list (list A)) :
  SectionUtils.zip_star (a :: b :: rest)
  = zip_with cons a (SectionUtils.zip_star (b :: rest)).
Proof. done. Qed.

Lemma zip_star_lookup {A} (args : list (list A)) (i : nat) (t : list A) :
  args ≠ [] →
  SectionUtils.zip_star args !! i = Some t
  ↔ Forall2 (fun arg v => arg !! i = Some v) args t.
Proof.
  induction args as [|a [|b rest] IH] in t |- *; intros Hne; [done|..].
  - simpl. rewrite list_lookup_fmap. split.
    + destruct (a !! i) as [x|] eqn:Hx; [|done]. intros [= <-].
      by repeat constructor.
    + intros H. inversion H as [|? v ? vs Hv Hvs]; subst.
      inversion Hvs; subst. by rewrite Hv.
  - rewrite zip_star_cons, lookup_zip_with.
    specialize (IH (tail t)).
    remember (SectionUtils.zip_star (b :: rest)) as zs eqn:Hzs. clear Hzs.
    split.
    + destruct (a !! i) as [x|] eqn:Hx; [|done]. simpl.
      destruct (zs !! i) as [t'|] eqn:Ht; [|done].
      intros [= <-]. constructor; [done|]. simpl in IH. by apply IH.
    + intros H. inversion H as [|? v ? vs Hv Hvs]; subst.
      simpl in IH. apply IH in Hvs; [|done]. by rewrite Hv, Hvs.
Qed.

Lemma collect_all {A B} (func : A → result B) (P : A → B → Prop) (l : list A) :
  Forall (fun t => ∃ y, func t = Ok y ∧ P t y) l →
  ∃ r, SectionUtils.collect func l = Ok r ∧ Forall2 P l r.
Proof.
  induction 1 as [|t l (y & Hy & HP) _ (r & Hr & IH)]; simpl.
  - by exists [].
  - exists (y :: r). rewrite Hy, Hr. split; [done | by constructor].
Qed.

Lemma foldl_min_spec (l : list Z) :
  ∀ x, let m := foldl Z.min x l in
       Forall (fun v => m ≤ v) (x :: l) ∧ m ∈ x :: l.
Proof.
  induction l as [|y l IH]; intros x; simpl.
  - split; [by repeat constructor | by left].
  - destruct (IH (Z.min x y)) as [Hle Hin].
    apply Forall_cons in Hle as [Hxy Hle]. split.
    + repeat constructor; [lia | lia | done].
    + apply elem_of_cons in Hin as [Hin|Hin].
      * rewrite Hin. destruct (Z.min_spec x y) as [[_ ->]|[_ ->]].
        -- by left.
        -- right; by left.
      * by do 2 right.
Qed.

Lemma foldl_max_spec (l : list Z) :
  ∀ x, let m := foldl Z.max x l in
       Forall (fun v => v ≤ m) (x :: l) ∧ m ∈ x :: l.
Proof.
  induction l as [|y l IH]; intros x; simpl.
  - split; [by repeat constructor | by left].
  - destruct (IH (Z.max x y)) as [Hle Hin].
    apply Forall_cons in Hle as [Hxy Hle]. split.
    + repeat constructor; [lia | lia | done].
    + apply elem_of_cons in Hin as [Hin|Hin].
      * rewrite Hin. destruct (Z.max_spec x y) as [[_ ->]|[_ ->]].
        -- right; by left.
        -- by left.
      * by do 2 right.
Qed.

Lemma zip_star_length {A} (args : list (list A)) (i : nat) :
  args ≠ [] →
  (i < length (SectionUtils.zip_star args))%nat
  ↔ Forall (fun arg => (i < length arg)%nat) args.
Proof.
  intros Hne. rewrite <- lookup_lt_is_Some. split.
  - intros [t Ht]. apply zip_star_lookup in Ht; [|done].
    clear Hne. induction Ht as [|arg v args' t' Hv _ IH]; constructor.
    + by eapply lookup_lt_Some.
    + done.
  - intros Hall.
    assert (∃ t, Forall2 (fun arg v => arg !! i = Some v) args t) as [t Ht].
    { clear Hne. induction Hall as [|arg args' Hi _ [t IH]].
      - by exists [].
      - apply lookup_lt_is_Some in Hi as [v Hv]. exists (v :: t).
        by constructor. }
    exists t. by apply zip_star_lookup.
Qed.

(** The shape shared by [cross.min] and [cross.max]: with two arguments or
    more the operator returns, and its result is as long as the shortest
    argument and holds at each index the value chosen among the arguments'
    values there. *)
Lemma crossoperator_pick (func : list Z → result Z) (P : list Z → Z → Prop)
    (a b : list Z) (rest : list (list Z)) :
  (∀ x y vals, ∃ m, func (x :: y :: vals) = Ok m ∧ P (x :: y :: vals) m) →
  ∃ r, SectionUtils.crossoperator func (a :: b :: rest) = Ok r
       ∧ (∀ i : nat, (i < length r)%nat
                     ↔ Forall (fun arg => (i < length arg)%nat) (a :: b :: rest))
       ∧ ∀ (i : nat) m, r !! i = Some m →
           ∃ t, Forall2 (fun arg v => arg !! i = Some v) (a :: b :: rest) t
                ∧ P t m.
Proof.
  intros Hfunc. unfold SectionUtils.crossoperator.
  destruct (collect_all func P (SectionUtils.zip_star (a :: b :: rest)))
    as (r & Hr & Hall).
  { apply Forall_lookup. intros i t Ht.
    apply zip_star_lookup in Ht; [|done].
    inversion Ht as [|? x ? t' _ Ht']; subst.
    inversion Ht' as [|? y ? vals _ _]; subst. apply Hfunc. }
  exists r. split_and!; [done|..].
  - intros i. rewrite <- (Forall2_length _ _ _ Hall). by apply zip_star_length.
  - intros i m Hm.
    destruct (Forall2_lookup_r _ _ _ _ _ Hall Hm) as (t & Ht & HP).
    exists t. split; [|done]. by apply zip_star_lookup in Ht.
Qed.

Lemma picked_bound (args : list (list Z)) (i : nat) (t : list Z) (m : Z)
    (R : Z → Z → Prop) :
  Forall2 (fun arg v => arg !! i = Some v) args t →
  Forall (R m) t →
  Forall (fun arg => ∃ v, arg !! i = Some v ∧ R m v) args.
Proof.
  induction 1 as [|arg v args' t' Hv _ IH]; intros Hall; [constructor|].
  apply Forall_cons in Hall as [Hmv Hall].
  constructor; [by exists v | by apply IH].
Qed.

Lemma picked_among (args : list (list Z)) (i : nat) (t : list Z) (m : Z) :
  Forall2 (fun arg v => arg !! i = Some v) args t →
  m ∈ t →
  Exists (fun arg => arg !! i = Some m) args.
Proof.
  induction 1 as [|arg v args' t' Hv _ IH]; intros Hin.
  - by apply elem_of_nil in Hin.
  - apply elem_of_cons in Hin as [->|Hin]; [by left | right; by apply IH].
Qed.

(** X22: [cross.min] of two sequences or more returns a list that is as long
    as the shortest of them (an index is in the result exactly when it is in
    every argument), and whose value at each index is a value that one of the
    arguments has at that index and is not greater than the value any argument
    has there; of a single non-empty sequence it raises [TypeError], as the
    builtin [min] is then given one number; without arguments, or with an
    empty first sequence, it is the empty list. *)
Theorem cross_min_spec (a b : list Z) (rest : list (list Z)) (x : Z) :
  (∃ r, cross.min (a :: b :: rest) = Ok r
        ∧ (∀ i : nat, (i < length r)%nat
                      ↔ Forall (fun arg => (i < length arg)%nat) (a :: b :: rest))
        ∧ ∀ (i : nat) m, r !! i = Some m →
            Forall (fun arg => ∃ v, arg !! i = Some v ∧ m ≤ v) (a :: b :: rest)
            ∧ Exists (fun arg => arg !! i = Some m) (a :: b :: rest))
  ∧ cross.min [x :: a] = Raise TypeError
  ∧ cross.min [] = Ok []
  ∧ cross.min ([] :: rest) = Ok [].
Proof.
  split_and!; [|done|done|].
  - destruct (crossoperator_pick SectionUtils.pymin
                (fun t m => Forall (fun v => m ≤ v) t ∧ m ∈ t) a b rest)
      as (r & Hr & Hlen & Hval).
    { intros x' y vals. eexists. split; [done|].
      apply (foldl_min_spec (y :: vals) x'). }
    exists r. split_and!; [done..|].
    intros i m Hm. destruct (Hval i m Hm) as (t & Ht & Hle & Hin).
    split; [by apply (picked_bound _ i t m Z.le) | by apply (picked_among _ i t m)].
  - unfold cross.min, SectionUtils.crossoperator. by destruct rest.
Qed.

(** X23: [cross.max] of two sequences or more returns a list that is as long
    as the shortest of them, and whose value at each index is a value that one
    of the arguments has at that index and is not less than the value any
    argument has there; of a single non-empty sequence it raises
    [TypeError]. *)
Theorem cross_max_spec (a b : list Z) (rest : list (list Z)) (x : Z) :
  (∃ r, cross.max (a :: b :: rest) = Ok r
        ∧ (∀ i : nat, (i < length r)%nat
                      ↔ Forall (fun arg => (i < length arg)%nat) (a :: b :: rest))
        ∧ ∀ (i : nat) m, r !! i = Some m →
            Forall (fun arg => ∃ v, arg !! i = Some v ∧ v ≤ m) (a :: b :: rest)
            ∧ Exists (fun arg => arg !! i = Some m) (a :: b :: rest))
  ∧ cross.max [x :: a] = Raise TypeError.
Proof.
  split; [|done].
  destruct (crossoperator_pick SectionUtils.pymax
              (fun t m => Forall (fun v => v ≤ m) t ∧ m ∈ t) a b rest)
    as (r & Hr & Hlen & Hval).
  { intros x' y vals. eexists. split; [done|].
    apply (foldl_max_spec (y :: vals) x'). }
  exists r. split_and!; [done..|].
  intros i m Hm. destruct (Hval i m Hm) as (t & Ht & Hle & Hin).
  split; [by apply (picked_bound _ i t m (fun m v => v ≤ m))
         | by apply (picked_among _ i t m)].
Qed.

End cross_operator.

(** ** [ascolumn] *)

(** X24: [ascolumn] of a one-dimensional array of [n] values is a
    two-dimensional array of [n] rows of one value each, the value of row [i]
    being the value at [i]; a two-dimensional array is returned as it is, so
    [ascolumn] applied twice is [ascolumn]. *)
Theorem ascolumn_spec {A} (items : list A) (x : ndarray A) :
  (∃ rows, SectionUtils.ascolumn (Array1 items) = Array2 rows
           ∧ length rows = length items
           ∧ ∀ i : nat, rows !! i = (fun v => [v]) <$> items !! i)
  ∧ SectionUtils.ascolumn (SectionUtils.ascolumn x) = SectionUtils.ascolumn x.
Proof.
  split.
  - eexists. split_and!; [done|..].
    + by rewrite length_fmap.
    + intros i. by rewrite list_lookup_fmap.
  - by destruct x.
Qed.

(** * Columns and items *)

(** ** [series] and [serie] *)

Section columns.

Lemma column_length {A} (zero : A) (c : nat) (data : list (list A)) :
  length (column zero c data) = length data.
Proof. unfold column. by rewrite length_fmap. Qed.

Lemma column_lookup {A} (zero : A) (c : nat) (data : list (list A)) (i : nat)
    (row : list A) :
  data !! i = Some row → c < length row →
  column zero c data !! i = row !! c.
Proof.
  intros Hrow Hc. unfold column. rewrite list_lookup_fmap, Hrow. simpl.
  destruct (lookup_lt_is_Some_2 row c Hc) as [x Hx].
  by rewrite (nth_lookup_Some _ _ _ _ Hx).
Qed.

(** X25: on a store with rows, all of the width [count], [series] yields
    [count] columns; the column at [c] is what [serie(c)] returns, it has one
    value per row, the value of row [i] being the value at [c] of that row,
    and [serie(c - count)] is the same column; [serie(count)] raises
    [IndexError].  On the empty store [serie] raises [TypeError]. *)
Theorem series_serie (self : Numpy) (c : nat) :
  Numpy.len self ≠ 0 →
  Forall (fun row => length row = Numpy.count self) (Numpy.values self) →
  c < Numpy.count self →
  length (Numpy.series self) = Numpy.count self
  ∧ (∃ col, Numpy.series self !! c = Some col
            ∧ Numpy.serie self (Z.of_nat c) = Ok col
            ∧ Numpy.serie self (Z.of_nat c - Z.of_nat (Numpy.count self)) = Ok col
            ∧ length col = Numpy.len self
            ∧ ∀ (i : nat) row, Numpy.values self !! i = Some row →
                col !! i = row !! c)
  ∧ Numpy.serie self (Z.of_nat (Numpy.count self)) = Raise IndexError
  ∧ Numpy.serie Sample.empty (Z.of_nat c) = Raise TypeError.
Proof.
  intros Hlen Hrows Hc. rewrite series_columns by done.
  rewrite length_fmap, length_seq.
  split_and!; [done| | |done].
  - exists (column nan c (Numpy.values self)).
    rewrite list_lookup_fmap, lookup_seq_lt by done. simpl.
    rewrite column_length, len_values.
    unfold Numpy.serie, Numpy.count, Numpy.shape, Numpy.values in *.
    destruct (_data self) as [data|]; simpl in *; [|lia].
    split_and!; [done| | |done|].
    + destruct (Z.leb_spec 0 (Z.of_nat c)); [|lia].
      destruct (Z.ltb_spec (Z.of_nat c) (Z.of_nat (width data))); [|lia].
      simpl. by rewrite Nat2Z.id.
    + destruct (Z.leb_spec 0 (Z.of_nat c - Z.of_nat (width data))); [lia|].
      simpl.
      destruct (Z.leb_spec (- Z.of_nat (width data))
                  (Z.of_nat c - Z.of_nat (width data))); [|lia].
      destruct (Z.ltb_spec (Z.of_nat c - Z.of_nat (width data)) 0); [|lia].
      simpl. do 3 f_equal. lia.
    + intros i row Hrow. apply column_lookup; [done|].
      rewrite Forall_forall in Hrows.
      rewrite (Hrows row) by by eapply list_elem_of_lookup_2. done.
  - unfold Numpy.serie, Numpy.count, Numpy.shape, Numpy.len in *.
    destruct (_data self) as [data|]; simpl in *; [|lia].
    destruct (Z.leb_spec 0 (Z.of_nat (width data))); [|lia].
    destruct (Z.ltb_spec (Z.of_nat (width data)) (Z.of_nat (width data))); [lia|].
    simpl.
    destruct (Z.leb_spec (- Z.of_nat (width data)) (Z.of_nat (width data)));
      destruct (Z.ltb_spec (Z.of_nat (width data)) 0); simpl; try done; lia.
Qed.

Lemma series_serie_witness :
  ∃ col, Numpy.series Sample.two_columns !! 1 = Some col
         ∧ Numpy.serie Sample.two_columns (-1) = Ok col
         ∧ length col = 3.
Proof.
  destruct (series_serie Sample.two_columns 1)
    as (_ & (col & Hs & _ & Hneg & Hl & _) & _).
  - vm_compute. lia.
  - repeat constructor.
  - vm_compute. lia.
  - exists col. split_and!; [done | exact Hneg | exact Hl].
Defined.

End columns.

(** ** [items] *)

Section items.
Implicit Types (self : Numpy) (rows : list (list float)) (sh cross : list float).

Lemma reverse_zip {A B} (l : list A) (k : list B) :
  length l = length k → reverse (zip l k) = zip (reverse l) (reverse k).
Proof.
  revert k. induction l as [|x l IH]; intros [|y k] Hlen; try done.
  simpl in Hlen. simpl. rewrite !reverse_cons.
  rewrite zip_with_app by (rewrite !length_reverse; lia).
  simpl. by rewrite IH by lia.
Qed.

Lemma views_of_arrays self (desc : bool) :
  Numpy.dates_desc self desc
  = (if desc then reverse (Numpy.dates self) else Numpy.dates self)
  ∧ Numpy.values_desc self desc
    = (if desc then reverse (Numpy.values self) else Numpy.values self).
Proof.
  unfold Numpy.dates_desc, Numpy.values_desc, Numpy.dates, Numpy.values.
  destruct (_date self), (_data self), desc; done.
Qed.

Lemma views_length self (desc : bool) :
  length (Numpy.dates_desc self desc) = length (Numpy.dates self)
  ∧ length (Numpy.values_desc self desc) = length (Numpy.values self).
Proof.
  destruct (views_of_arrays self desc) as [-> ->].
  destruct desc; by rewrite ?length_reverse.
Qed.

Lemma items_plain self (desc : bool) :
  length (Numpy.values self) = length (Numpy.dates self) →
  Numpy.items self desc None None
  = (zip (Numpy.dates_desc self desc) (Numpy.values_desc self desc), None).
Proof.
  intros Hlen. pose proof (len_values self) as Hl. unfold Numpy.items.
  destruct (decide (Numpy.len self = 0)) as [H0|H0]; [|done].
  destruct (views_length self desc) as [Hd Hv].
  assert (Numpy.dates_desc self desc = []) as ->
    by (apply nil_length_inv; lia).
  done.
Qed.

(** X26: without a start value and without shifts, on a store with one row
    per key, [items] ends by itself and pairs each key with its row: the
    first components of the pairs are [dates(desc)] and the second
    [values(desc)], there are [len] pairs, and with [desc] they are the pairs
    of the ascending iteration in reverse; an empty list of shifts is as none
    given. *)
Theorem items_pairs self (desc : bool) :
  length (Numpy.values self) = length (Numpy.dates self) →
  (Numpy.items self desc None None).2 = None
  ∧ (Numpy.items self desc None None).1.*1 = Numpy.dates_desc self desc
  ∧ (Numpy.items self desc None None).1.*2 = Numpy.values_desc self desc
  ∧ length (Numpy.items self desc None None).1 = Numpy.len self
  ∧ (Numpy.items self true None None).1
    = reverse (Numpy.items self false None None).1
  ∧ Numpy.items self desc None (Some []) = Numpy.items self desc None None.
Proof.
  intros Hlen. pose proof (len_values self) as Hl.
  assert (Hitems : ∀ desc, Numpy.items self desc None None
            = (zip (Numpy.dates_desc self desc) (Numpy.values_desc self desc),
               None))
    by (intros desc'; by apply items_plain).
  rewrite !Hitems. simpl.
  destruct (views_length self desc) as [Hd Hv].
  split_and!.
  - done.
  - apply fst_zip. lia.
  - apply snd_zip. lia.
  - rewrite length_zip_with_l_eq by lia. lia.
  - destruct (views_of_arrays self true) as [-> ->].
    destruct (views_of_arrays self false) as [-> ->].
    symmetry. by apply reverse_zip.
  - rewrite <- Hitems. unfold Numpy.items. by destruct (decide _).
Qed.

Lemma items_pairs_witness :
  (Numpy.items Sample.two_columns true None None).1
  = reverse (Numpy.items Sample.two_columns false None None).1.
Proof.
  destruct (items_pairs Sample.two_columns true) as (_ & _ & _ & _ & H & _).
  - reflexivity.
  - exact H.
Defined.

Lemma items_fill_spec (start_value : float) sh cross :
  length (Numpy.items_fill start_value sh cross).1 = length sh
  ∧ ∀ (j : nat) s, (Numpy.items_fill start_value sh cross).1 !! j = Some s →
      sh !! j = Some s
      ∨ ∃ v, cross !! j = Some v ∧ s = PrimFloat.sub start_value v.
Proof.
  revert cross. induction sh as [|s0 sh IH]; intros [|v cross]; simpl;
    try (split; [done | by left]).
  destruct (IH cross) as [Hlen Hval].
  destruct (PrimFloat.eqb s0 s0); [|destruct (PrimFloat.eqb v v)]; simpl;
    (split; [by rewrite Hlen|]); intros [|j] s Hs; simpl in *;
    try (by left); try (by apply Hval).
  injection Hs as <-. right. by exists v.
Qed.

Lemma items_shift_later (start_value : float) rows :
  ∀ sh0, ∃ sh,
    Numpy.items_shift start_value (Some sh0) rows = Some sh
    ∧ length sh = length sh0
    ∧ ∀ (j : nat) s, sh !! j = Some s →
        sh0 !! j = Some s
        ∨ ∃ row v, row ∈ rows ∧ row !! j = Some v
                   ∧ s = PrimFloat.sub start_value v.
Proof.
  induction rows as [|cross rows IH]; intros sh0; simpl.
  - exists sh0. split_and!; [done..|]. intros j s Hs. by left.
  - destruct (items_fill_spec start_value sh0 cross) as [Hlen Hval].
    assert (Hhere : ∀ (j : nat) s,
              (Numpy.items_fill start_value sh0 cross).1 !! j = Some s →
              sh0 !! j = Some s
              ∨ ∃ row v, row ∈ cross :: rows ∧ row !! j = Some v
                         ∧ s = PrimFloat.sub start_value v).
    { intros j s Hs. destruct (Hval j s Hs) as [?|(v & Hv & ->)]; [by left|].
      right. exists cross, v. split_and!; [by left | done..]. }
    destruct (decide _).
    + eexists. split_and!; [done..|]. apply Hhere.
    + destruct (IH (Numpy.items_fill start_value sh0 cross).1)
        as (sh & Hsh & Hl & Hv).
      exists sh. split_and!; [done | lia |].
      intros j s Hs. destruct (Hv j s Hs) as [Hold|(row & v & Hin & Hrow & ->)].
      * by apply Hhere.
      * right. exists row, v. split_and!; [by right | done..].
Qed.

Lemma items_shift_first (start_value : float) cross rows :
  ∃ sh,
    Numpy.items_shift start_value None (cross :: rows) = Some sh
    ∧ length sh = length cross
    ∧ ∀ (j : nat) s, sh !! j = Some s →
        ∃ row v, row ∈ cross :: rows ∧ row !! j = Some v
                 ∧ s = PrimFloat.sub start_value v.
Proof.
  assert (Hfirst : ∀ (j : nat) s,
            (PrimFloat.sub start_value <$> cross) !! j = Some s →
            ∃ row v, row ∈ cross :: rows ∧ row !! j = Some v
                     ∧ s = PrimFloat.sub start_value v).
  { intros j s Hs. rewrite list_lookup_fmap in Hs.
    destruct (cross !! j) as [v|] eqn:Hv; [|done]. injection Hs as <-.
    exists cross, v. split_and!; [by left | done..]. }
  simpl. destruct (decide _).
  - eexists. split_and!; [done | by rewrite length_fmap | done].
  - destruct (items_shift_later start_value rows
                (PrimFloat.sub start_value <$> cross)) as (sh & Hsh & Hl & Hv).
    exists sh. split_and!; [done | by rewrite Hl, length_fmap |].
    intros j s Hs. destruct (Hv j s Hs) as [Hold|(row & v & Hin & Hrow & ->)].
    + by apply Hfirst.
    + exists row, v. split_and!; [by right | done..].
Qed.

Lemma items_shifted_ok sh (pairs : list (Z * list float)) :
  Forall (fun dv => length dv.2 = length sh) pairs →
  Numpy.items_shifted sh pairs
  = ((fun dv => (dv.1, zip_with PrimFloat.add dv.2 sh)) <$> pairs, None).
Proof.
  induction 1 as [|dv pairs Hdv _ IH]; simpl; [done|].
  unfold Numpy.add_broadcast. destruct (decide _); [|done].
  by rewrite IH.
Qed.

Lemma fmap_zip_r {A B C} (f : B → C) (l : list A) (k : list B) :
  (fun dv => (dv.1, f dv.2)) <$> zip l k = zip l (f <$> k).
Proof.
  revert k. induction l as [|x l IH]; intros [|y k]; simpl; [done..|].
  f_equal. apply IH.
Qed.

Lemma items_with_shift self (desc : bool) (start_value : float) sh :
  Numpy.len self ≠ 0 →
  0 < Numpy.count self →
  Forall (fun row => length row = Numpy.count self) (Numpy.values self) →
  Numpy.items_shift start_value None (Numpy.values self) = Some sh →
  length sh = Numpy.count self →
  Numpy.items self desc (Some start_value) None
  = (zip (Numpy.dates_desc self desc)
       ((fun row => zip_with PrimFloat.add row sh)
          <$> Numpy.values_desc self desc), None).
Proof.
  intros Hlen Hcount Hrows Hshift Hsh. unfold Numpy.items.
  destruct (decide _); [done|]. rewrite Hshift.
  destruct sh as [|s sh]; [simpl in Hsh; lia|].
  rewrite items_shifted_ok.
  - by rewrite <- (fmap_zip_r (fun row => zip_with PrimFloat.add row (s :: sh))).
  - apply Forall_forall. intros [d row] Hin.
    apply elem_of_zip_r in Hin. change (length row = length (s :: sh)).
    rewrite Hsh.
    rewrite Forall_forall in Hrows. apply Hrows.
    destruct (views_of_arrays self desc) as [_ Hv]. rewrite Hv in Hin.
    destruct desc; [by rewrite elem_of_reverse in Hin | done].
Qed.

Lemma first_row_width self row0 :
  head (Numpy.values self) = Some row0 →
  Numpy.len self ≠ 0 ∧ Numpy.count self = length row0.
Proof.
  rewrite len_values. unfold Numpy.count, Numpy.shape, Numpy.values.
  destruct (_data self) as [[|row data]|]; simpl; try done.
  by intros [= ->].
Qed.

(** X27: with a start value and no shifts given, on a store with rows, all of
    the width [count], and a column at least, [items] ends by itself and
    yields one pair for each key, in the order of [dates(desc)]: the row of
    the key plus one list of shifts, the same for every row.  There is one
    shift for each column, and each is the start value minus a value that the
    column holds. *)
Theorem items_start_value self (desc : bool) (start_value : float) :
  Numpy.len self ≠ 0 →
  0 < Numpy.count self →
  Forall (fun row => length row = Numpy.count self) (Numpy.values self) →
  ∃ sh,
    length sh = Numpy.count self
    ∧ (∀ (j : nat) s, sh !! j = Some s →
         ∃ row v, row ∈ Numpy.values self ∧ row !! j = Some v
                  ∧ s = PrimFloat.sub start_value v)
    ∧ Numpy.items self desc (Some start_value) None
      = (zip (Numpy.dates_desc self desc)
           ((fun row => zip_with PrimFloat.add row sh)
              <$> Numpy.values_desc self desc), None).
Proof.
  intros Hlen Hcount Hrows.
  destruct (Numpy.values self) as [|cross rows] eqn:Hv.
  { rewrite len_values, Hv in Hlen. done. }
  destruct (items_shift_first start_value cross rows) as (sh & Hsh & Hl & Hval).
  assert (Hw : length sh = Numpy.count self).
  { rewrite Hl. symmetry. apply first_row_width. by rewrite Hv. }
  exists sh. split_and!; [done..|].
  apply items_with_shift; try done; by rewrite Hv.
Qed.

Lemma items_start_value_witness :
  ∃ sh,
    length sh = 2
    ∧ (Numpy.items Sample.two_columns false (Some 10%float) None).1.*2
      = (fun row => zip_with PrimFloat.add row sh)
          <$> Numpy.values Sample.two_columns.
Proof.
  destruct (items_start_value Sample.two_columns false 10%float)
    as (sh & Hl & _ & Hitems).
  - vm_compute. lia.
  - vm_compute. lia.
  - repeat constructor.
  - exists sh. split; [exact Hl|]. rewrite Hitems. cbn [fst].
    apply snd_zip. rewrite length_fmap. vm_compute. lia.
Defined.

(** X28: when the first row of such a store has no missing value, the shifts
    are the start value minus that row, whatever the later rows hold: the
    search for the shifts ends at the first row. *)
Theorem items_first_row self (desc : bool) (start_value : float) row0 :
  head (Numpy.values self) = Some row0 →
  row0 ≠ [] →
  Forall (fun row => length row = Numpy.count self) (Numpy.values self) →
  Forall (fun v => PrimFloat.eqb v v = true) row0 →
  Numpy.items self desc (Some start_value) None
  = (zip (Numpy.dates_desc self desc)
       ((fun row => zip_with PrimFloat.add row (PrimFloat.sub start_value <$> row0))
          <$> Numpy.values_desc self desc), None).
Proof.
  intros Hhead Hne Hrows Hvalid.
  destruct (first_row_width self row0 Hhead) as [Hlen Hcount].
  apply items_with_shift; try done.
  - rewrite Hcount. destruct row0; [done | simpl; lia].
  - destruct (Numpy.values self) as [|cross rows]; [done|].
    injection Hhead as ->. simpl.
    assert (filter (fun v => PrimFloat.eqb v v = false) row0 = []) as ->.
    { clear -Hvalid. induction Hvalid as [|v row Hv _ IH]; [done|].
      rewrite filter_cons_False by (rewrite Hv; done). done. }
    done.
  - by rewrite length_fmap.
Qed.

Lemma items_first_row_witness :
  Numpy.items Sample.complete true (Some 0%float) None
  = ([(2%Z, [1; 10]%float); (1%Z, [0; 0]%float)], None).
Proof.
  rewrite (items_first_row Sample.complete true 0%float [1; 10]%float).
  - vm_compute. reflexivity.
  - reflexivity.
  - done.
  - repeat constructor.
  - repeat constructor.
Defined.

End items.

(** ** [full_clean] *)

Section full_clean.

Lemma nanvalue_false (value : list float) :
  Formatters.nanvalue value = false
  ↔ Forall (fun v => PrimFloat.eqb v v = true) value.
Proof.
  unfold Formatters.nanvalue. induction value as [|v value IH]; simpl.
  - split; [constructor | done].
  - rewrite Forall_cons, orb_false_iff, IH, negb_false_iff. done.
Qed.

Lemma fmap_zip_l {A B C} (f : A → C) (l : list A) (k : list B) :
  (fun dv => (f dv.1, dv.2)) <$> zip l k = zip (f <$> l) k.
Proof.
  revert k. induction l as [|x l IH]; intros [|y k]; simpl; [done..|].
  f_equal. apply IH.
Qed.

Lemma filter_all {A} (P : A → Prop) `{∀ x, Decision (P x)} (l : list A) :
  Forall P l → filter P l = l.
Proof.
  induction 1 as [|x l Hx _ IH]; [done|].
  by rewrite filter_cons_True, IH.
Qed.

(** X29: [full_clean] without a start value, on a store with one row per key,
    ends by itself; no row it yields holds a missing value; every pair of
    [items] whose row holds none is yielded with its key converted; the rows
    it yields are rows of [values(desc)] in their order; and on a store
    without missing values it yields every key, converted, with its row. *)
Theorem full_clean_spec {D} (ts : Numpy) (dateconverter : Z → D) (desc : bool) :
  length (Numpy.values ts) = length (Numpy.dates ts) →
  (Formatters.full_clean ts dateconverter desc None).2 = None
  ∧ Forall (fun dv => Forall (fun v => PrimFloat.eqb v v = true) dv.2)
      (Formatters.full_clean ts dateconverter desc None).1
  ∧ (∀ k row, (k, row) ∈ (Numpy.items ts desc None None).1 →
       Forall (fun v => PrimFloat.eqb v v = true) row →
       (dateconverter k, row) ∈ (Formatters.full_clean ts dateconverter desc None).1)
  ∧ (Formatters.full_clean ts dateconverter desc None).1.*2
    `sublist_of` Numpy.values_desc ts desc
  ∧ (Forall (Forall (fun v => PrimFloat.eqb v v = true)) (Numpy.values ts) →
     (Formatters.full_clean ts dateconverter desc None).1
     = zip (dateconverter <$> Numpy.dates_desc ts desc) (Numpy.values_desc ts desc)).
Proof.
  intros Hlen. unfold Formatters.full_clean.
  rewrite items_plain by done. cbn [fst snd].
  destruct (views_length ts desc) as [Hd Hv].
  set (pairs := zip (Numpy.dates_desc ts desc) (Numpy.values_desc ts desc)).
  split_and!.
  - done.
  - apply Forall_fmap, Forall_forall. intros [k row] Hin. simpl.
    apply list_elem_of_filter in Hin as [Hnan _]. by apply nanvalue_false.
  - intros k row Hin Hvalid.
    apply (list_elem_of_fmap_2 (fun dv : Z * list float => (dateconverter dv.1, dv.2))
             _ (k, row)).
    apply list_elem_of_filter. split; [by apply nanvalue_false | done].
  - rewrite <- list_fmap_compose.
    assert (Numpy.values_desc ts desc = pairs.*2) as ->
      by (symmetry; apply snd_zip; lia).
    apply (fmap_sublist snd), sublist_filter.
  - intros Hvalid. rewrite filter_all.
    + apply fmap_zip_l.
    + apply Forall_forall. intros [k row] Hin. simpl.
      apply nanvalue_false. apply elem_of_zip_r in Hin.
      destruct (views_of_arrays ts desc) as [_ Hvd]. rewrite Hvd in Hin.
      rewrite Forall_forall in Hvalid. apply Hvalid.
      destruct desc; [by rewrite elem_of_reverse in Hin | done].
Qed.

Lemma full_clean_spec_witness :
  (Formatters.full_clean Sample.complete Z.opp false None).1
  = zip (Z.opp <$> Numpy.dates_desc Sample.complete false)
      (Numpy.values_desc Sample.complete false).
Proof.
  destruct (full_clean_spec Sample.complete Z.opp false) as (_ & _ & _ & _ & H).
  - reflexivity.
  - apply H. repeat constructor.
Defined.

End full_clean.

(** ** [named_series] *)

Section named_series.
Implicit Types (todo : list (string * nat)) (series : list (list float))
  (names ordering : list string).

Lemma filter_ext_in {A} (P Q : A → Prop) `{∀ x, Decision (P x)}
    `{∀ x, Decision (Q x)} (l : list A) :
  (∀ x, x ∈ l → (P x ↔ Q x)) → filter P l = filter Q l.
Proof.
  induction l as [|x l IH]; intros Hext; [done|].
  rewrite !filter_cons.
  rewrite IH by (intros y Hy; apply Hext; by right).
  destruct (decide (P x)) as [HP|HP], (decide (Q x)) as [HQ|HQ]; try done.
  - destruct HQ. apply Hext; [by left | done].
  - destruct HP. apply Hext; [by left | done].
Qed.

Lemma dict_set_absent name idx todo :
  name ∉ todo.*1 → Numpy.dict_set name idx todo = todo ++ [(name, idx)].
Proof.
  induction todo as [|[n i] todo IH]; simpl; [done|].
  rewrite not_elem_of_cons. intros [Hne Hnot].
  destruct (decide (n = name)); [done|]. by rewrite IH.
Qed.

Lemma dict_enumerate_snoc names name :
  Numpy.dict_enumerate (names ++ [name])
  = Numpy.dict_set name (length names) (Numpy.dict_enumerate names).
Proof.
  unfold Numpy.dict_enumerate. rewrite imap_app, foldl_app. simpl.
  by rewrite Nat.add_0_r.
Qed.

Lemma dict_enumerate_NoDup names :
  NoDup names →
  Numpy.dict_enumerate names = imap (fun idx n => (n, idx)) names.
Proof.
  induction names as [|name names IH] using rev_ind; intros Hnd; [done|].
  apply NoDup_app in Hnd as (Hnd & Hnot & _).
  rewrite dict_enumerate_snoc, IH, imap_app by done. simpl.
  rewrite Nat.add_0_r. apply dict_set_absent.
  rewrite fmap_imap. intros Hin.
  apply elem_of_lookup_imap_1 in Hin as (i & y & -> & Hy). simpl in *.
  apply (Hnot y); [by eapply list_elem_of_lookup_2 | by left].
Qed.

Lemma dict_get_None name todo :
  Numpy.dict_get name todo = None → name ∉ todo.*1.
Proof.
  induction todo as [|[n i] todo IH]; simpl.
  - intros _. apply not_elem_of_nil.
  - destruct (decide (n = name)); [done|]. intros Hget.
    apply not_elem_of_cons. split; [done | by apply IH].
Qed.

Lemma dict_get_Some name idx todo :
  Numpy.dict_get name todo = Some idx →
  ∃ t1 t2, todo = t1 ++ (name, idx) :: t2
           ∧ (name ∉ t1.*1)
           ∧ Numpy.dict_del name todo = t1 ++ t2.
Proof.
  induction todo as [|[n i] todo IH]; simpl; [done|].
  destruct (decide (n = name)) as [->|Hne].
  - intros [= ->]. exists [], todo. split_and!; [done | apply not_elem_of_nil | done].
  - intros Hget. destruct (IH Hget) as (t1 & t2 & -> & Hnot & ->).
    exists ((n, i) :: t1), t2. split_and!; [done | | done].
    simpl. apply not_elem_of_cons. by split.
Qed.

Lemma named_rest_ok series todo :
  Forall (fun ni => is_Some (series !! ni.2)) todo →
  ∃ L, Numpy.named_rest series todo = (L, None)
       ∧ L.*1 = todo.*1
       ∧ ∀ n s, (n, s) ∈ L ↔ ∃ idx, (n, idx) ∈ todo ∧ series !! idx = Some s.
Proof.
  induction 1 as [|[n i] todo [s0 Hs0] _ (L & HL & Hkeys & Hin)]; simpl.
  - exists []. split_and!; [done..|]. intros n s. split.
    + intros H. by apply elem_of_nil in H.
    + intros (idx & H & _). by apply elem_of_nil in H.
  - simpl in Hs0. rewrite Hs0, HL. simpl. exists ((n, s0) :: L).
    split_and!; [done | simpl; f_equal; exact Hkeys |].
    intros n' s. rewrite elem_of_cons, Hin. split.
    + intros [[= -> ->]|(idx & Hi & Hs)].
      * exists i. split; [by left | done].
      * exists idx. split; [by right | done].
    + intros (idx & Hi & Hs). apply elem_of_cons in Hi as [[= -> ->]|Hi].
      * left. congruence.
      * right. by exists idx.
Qed.

Lemma named_ordered_ok series ordering :
  ∀ todo,
    NoDup ordering → NoDup todo.*1 →
    Forall (fun ni => is_Some (series !! ni.2)) todo →
    ∃ L, Numpy.named_ordered series ordering todo = (L, None)
         ∧ L.*1 = filter (.∈ todo.*1) ordering ++ filter (.∉ ordering) todo.*1
         ∧ ∀ n s, (n, s) ∈ L ↔ ∃ idx, (n, idx) ∈ todo ∧ series !! idx = Some s.
Proof.
  induction ordering as [|name ordering IH]; intros todo Hord Hnd Hvalid.
  - destruct (named_rest_ok series todo Hvalid) as (L & HL & Hkeys & Hin).
    exists L. simpl. split_and!; [done| |done].
    rewrite Hkeys, filter_all; [done|].
    apply Forall_forall. intros x _. apply not_elem_of_nil.
  - apply NoDup_cons in Hord as [Hname Hord]. simpl.
    destruct (Numpy.dict_get name todo) as [idx|] eqn:Hget.
    + destruct (dict_get_Some name idx todo Hget) as (t1 & t2 & -> & Hnot & ->).
      rewrite fmap_app in Hnd. simpl in Hnd.
      apply NoDup_app in Hnd as (Hnd1 & Hdisj & Hnd2).
      apply NoDup_cons in Hnd2 as [Hnot2 Hnd2].
      apply Forall_app in Hvalid as [Hv1 Hv2].
      apply Forall_cons in Hv2 as [[s0 Hs0] Hv2]. simpl in Hs0.
      destruct (IH (t1 ++ t2)) as (L & HL & Hkeys & Hin).
      { done. }
      { rewrite fmap_app. apply NoDup_app. split_and!; [done| |done].
        intros x Hx1 Hx2. apply (Hdisj x Hx1). by right. }
      { by apply Forall_app. }
      rewrite Hs0, HL. simpl. exists ((name, s0) :: L). split_and!; [done| |].
      * rewrite fmap_cons, Hkeys, !fmap_app, fmap_cons. cbn [fst].
        rewrite filter_cons_True by (rewrite elem_of_app; right; by left).
        rewrite <- app_comm_cons. f_equal. f_equal.
        -- apply filter_ext_in. intros x Hx.
           rewrite !elem_of_app, elem_of_cons.
           split; [tauto|]. intros [?|[->|?]]; [tauto|done|tauto].
        -- rewrite !filter_app, filter_cons_False
             by (intros Hn; apply Hn; by left).
           f_equal; apply filter_ext_in; intros x Hx;
             rewrite not_elem_of_cons; split; try tauto;
             intros Hx'; (split; [|done]); intros ->; done.
      * intros n s. rewrite elem_of_cons, Hin. split.
        -- intros [[= -> ->]|(i & Hi & Hs)].
           ++ exists idx. split; [|done]. apply elem_of_app. right. by left.
           ++ exists i. split; [|done].
              apply elem_of_app in Hi as [?|?]; apply elem_of_app;
                [by left | right; by right].
        -- intros (i & Hi & Hs).
           apply elem_of_app in Hi as [Hi|Hi];
             [|apply elem_of_cons in Hi as [[= -> ->]|Hi]].
           ++ right. exists i. split; [|done]. apply elem_of_app. by left.
           ++ left. congruence.
           ++ right. exists i. split; [|done]. apply elem_of_app. by right.
    + apply dict_get_None in Hget.
      destruct (IH todo Hord Hnd Hvalid) as (L & HL & Hkeys & Hin).
      exists L. split_and!; [done| |done].
      rewrite Hkeys, filter_cons_False by done. f_equal.
      apply filter_ext_in. intros x Hx. rewrite not_elem_of_cons.
      split; [|tauto]. intros Hx'. split; [|done]. by intros ->.
Qed.

Lemma series_length self : length (Numpy.series self) = Numpy.count self.
Proof.
  unfold Numpy.series, Numpy.count, Numpy.shape, Numpy.values.
  destruct (_data self) as [[|row data]|]; simpl; [done| |done].
  by rewrite length_fmap, length_seq.
Qed.

Lemma named_zip_paired names (series : list (list float)) (e : option exn) :
  length names = length series →
  Numpy.named_zip names series e = (zip names series, None).
Proof.
  revert series. induction names as [|n names IH]; intros [|s series] Hlen;
    simpl in *; try done.
  rewrite IH by lia. done.
Qed.

(** X30: on a store with rows, with one name for each column, no name twice,
    and no name twice in [ordering], [named_series] ends by itself and yields
    every name once with the serie of its own column: first the names of
    [ordering] that are names of the store, in the order of [ordering], then
    the other names in the order of the store. *)
Theorem named_series_order self names ordering :
  Numpy.len self ≠ 0 →
  NoDup names → NoDup ordering →
  length names = Numpy.count self →
  (Numpy.named_series self names ordering).2 = None
  ∧ (Numpy.named_series self names ordering).1.*1
    = filter (.∈ names) ordering ++ filter (.∉ ordering) names
  ∧ ∀ n s, (n, s) ∈ (Numpy.named_series self names ordering).1
      ↔ ∃ idx : nat, names !! idx = Some n ∧ Numpy.series self !! idx = Some s.
Proof.
  intros Hrows Hnames Hord Hlen. rewrite <- series_length in Hlen.
  unfold Numpy.named_series, Numpy.series_list.
  rewrite series_end_rows by done.
  destruct ordering as [|name ordering].
  - rewrite named_zip_paired by done. simpl. split_and!; [done| |].
    + rewrite fst_zip by lia. rewrite filter_all; [done|].
      apply Forall_forall. intros x _. apply not_elem_of_nil.
    + intros n s. rewrite elem_of_lookup_zip_with. split.
      * intros (i & x & y & [= -> ->] & Hx & Hy). by exists i.
      * intros (i & Hx & Hy). by exists i, n, s.
  - rewrite dict_enumerate_NoDup by done.
    assert (Hkeys : (imap (fun idx n => (n, idx)) names).*1 = names).
    { rewrite fmap_imap. clear.
      induction names as [|n names IH] using rev_ind; [done|].
      by rewrite imap_app, IH. }
    destruct (named_ordered_ok (Numpy.series self) (name :: ordering)
                (imap (fun idx n => (n, idx)) names))
      as (L & HL & HLkeys & Hin).
    + done.
    + by rewrite Hkeys.
    + apply Forall_forall. intros [n i] Hi. simpl.
      apply elem_of_lookup_imap_1 in Hi as (i' & y & [= -> ->] & Hy).
      apply lookup_lt_is_Some. apply lookup_lt_Some in Hy. lia.
    + rewrite HL. simpl. rewrite Hkeys in HLkeys.
      split_and!; [done..|].
      intros n s. rewrite Hin. split.
      * intros (idx & Hi & Hs).
        apply elem_of_lookup_imap_1 in Hi as (i' & y & [= -> ->] & Hy).
        by exists i'.
      * intros (idx & Hn & Hs). exists idx. split; [|done].
        by apply (elem_of_lookup_imap_2 (fun idx n => (n, idx))).
Qed.

Lemma named_series_order_witness :
  (Numpy.named_series Sample.two_columns ["bid"; "ask"] ["ask"; "mid"]).1.*1
  = ["ask"; "bid"].
Proof.
  destruct (named_series_order Sample.two_columns ["bid"; "ask"] ["ask"; "mid"])
    as (_ & H & _).
  - vm_compute. lia.
  - apply NoDup_cons. split; [|apply NoDup_singleton].
    intros Hin. apply list_elem_of_singleton in Hin. discriminate Hin.
  - apply NoDup_cons. split; [|apply NoDup_singleton].
    intros Hin. apply list_elem_of_singleton in Hin. discriminate Hin.
  - reflexivity.
  - rewrite H. reflexivity.
Defined.

End named_series.

(** * Sample runs *)

Lemma cross_gt_lt_witness : cross.__gt__ [3; 1]%float [2; 1]%float = true.
Proof.
  destruct (cross_gt_lt [3; 1]%float [2; 1]%float) as (Hgt & _).
  apply Hgt. exists 0, 3%float, 2%float. by split_and!.
Defined.

Lemma cross_eq_paired_witness :
  cross.__eq__ [1; 2]%float [1; 2; 9]%float = true.
Proof.
  destruct (cross_eq_paired [1; 2]%float [] [9]%float) as (_ & H & _).
  apply H. by repeat constructor.
Defined.

Lemma cross_min_spec_witness :
  ∃ r, cross.min [[1; 5]; [2; 3]; [4; 0; 7]]%Z = Ok r ∧ length r = 2.
Proof.
  destruct (cross_min_spec [1; 5]%Z [2; 3]%Z [[4; 0; 7]%Z] 0%Z)
    as ((r & Hr & Hlen & _) & _).
  exists r. split; [exact Hr|].
  assert (1 < length r) by (apply Hlen; repeat constructor).
  assert (¬ 2 < length r).
  { rewrite Hlen. intros H'. apply Forall_cons in H' as [H' _]. simpl in H'. lia. }
  lia.
Defined.

Lemma cross_max_spec_witness :
  ∃ r, cross.max [[1; 5]; [2; 3]; [4; 0; 7]]%Z = Ok r ∧ length r = 2.
Proof.
  destruct (cross_max_spec [1; 5]%Z [2; 3]%Z [[4; 0; 7]%Z] 0%Z)
    as ((r & Hr & Hlen & _) & _).
  exists r. split; [exact Hr|].
  assert (1 < length r) by (apply Hlen; repeat constructor).
  assert (¬ 2 < length r).
  { rewrite Hlen. intros H'. apply Forall_cons in H' as [H' _]. simpl in H'. lia. }
  lia.
Defined.

Lemma ascolumn_spec_witness :
  SectionUtils.ascolumn (SectionUtils.ascolumn (Array1 [1; 2]%Z))
  = SectionUtils.ascolumn (Array1 [1; 2]%Z).
Proof.
  destruct (ascolumn_spec ([] : list Z) (Array1 [1; 2]%Z)) as [_ H]. exact H.
Defined.

Lemma clean_returns_consistent_witness :
  ∃ r, Numpy.clean Sample.gap_at_end None = Ok r.
Proof.
  destruct (clean_returns_consistent Sample.gap_at_end None) as [_ H].
  - vm_compute. lia.
  - exact H.
Defined.
